(** * Block adapters of the Warning / Success tools: data lifecycle

    A shallow embedding of the adapter classes found in the sources:

    - [Success]        src/index.js, class [Success] (title + message, JavaScript);
    - [LegacyWarning]  src/index.js, class [Warning] (the older JavaScript class);
    - [Warning]        src/index.ts, class [Warning] (title + message, TypeScript);
    - [TypedWarning]   src/index.ts, the last class [Warning] (type + message).

    src/index.ts holds the TypeScript [Warning] twice; the two copies have
    the same methods and [Warning] stands for both.

    JavaScript values, exceptions and the part of the DOM the adapters touch
    are modelled first; each adapter is then a record (the fields of [this])
    and its methods are functions passing the adapter and the document
    explicitly. *)

From Stdlib Require Import ZArith Ascii String.
From stdpp Require Import base option list strings pretty.

Local Open Scope string_scope.
Local Open Scope list_scope.

(** ** JavaScript values and exceptions *)

Module JS.

(** The values the host can hand to an adapter: JSON-like data. Numbers are
    the integral ones; an object is the list of its own enumerable
    properties in the order [Object.keys] reports them. *)
#[warnings="-register-all"]
Inductive value : Type :=
| VUndefined
| VNull
| VBool (b : bool)
| VNumber (n : Z)
| VString (s : string)
| VObject (props : list (string * value)).

Inductive error : Type := TypeError | SyntaxError | InvalidCharacterError.

(** A computation returns or throws. *)
Inductive result (A : Type) : Type :=
| Ok (a : A)
| Throw (e : error).
Arguments Ok {A} a.
Arguments Throw {A} e.

#[export] Instance result_ret : MRet result := fun A a => Ok a.
#[export] Instance result_bind : MBind result := fun A B f m =>
  match m with Ok a => f a | Throw e => Throw e end.

(** [forEach]-style loop threading a state through a fallible body. *)
Fixpoint forEach {A S : Type} (body : S -> A -> result S) (xs : list A) (s : S)
  : result S :=
  match xs with
  | [] => Ok s
  | x :: xs' => s' ← body s x; forEach body xs' s'
  end.

(** ToBoolean. *)
Definition truthy (v : value) : bool :=
  match v with
  | VUndefined | VNull => false
  | VBool b => b
  | VNumber n => negb (n =? 0)%Z
  | VString s => negb (String.eqb s "")
  | VObject _ => true
  end.

Definition nullish (v : value) : bool :=
  match v with VUndefined | VNull => true | _ => false end.

(** [a || b] and [a ?? b]. *)
Definition logical_or (a b : value) : value := if truthy a then a else b.
Definition coalesce (a b : value) : value := if nullish a then b else a.

(** [!a]. *)
Definition logical_not (a : value) : value := VBool (negb (truthy a)).

(** ToString, as template literals and DOM string attributes apply it. *)
Definition to_string (v : value) : string :=
  match v with
  | VUndefined => "undefined"
  | VNull => "null"
  | VBool true => "true"
  | VBool false => "false"
  | VNumber n => pretty n
  | VString s => s
  | VObject _ => "[object Object]"
  end.

(** Conversion of an attribute declared [LegacyNullToEmptyString]. *)
Definition to_string_null_empty (v : value) : string :=
  match v with VNull => "" | _ => to_string v end.

Fixpoint assoc (k : string) (props : list (string * value)) : option value :=
  match props with
  | [] => None
  | (k', v) :: rest => if String.eqb k k' then Some v else assoc k rest
  end.

Definition char_at (s : string) (i : nat) : value :=
  match String.get i s with
  | Some c => VString (String c EmptyString)
  | None => VUndefined
  end.

(** [v[k]] / [v.k]: own data properties; a string has its indices and
    [length]. Members inherited from a prototype are not modelled. *)
Definition get (v : value) (k : string) : result value :=
  match v with
  | VUndefined | VNull => Throw TypeError
  | VObject props => Ok (default VUndefined (assoc k props))
  | VString s =>
      if String.eqb k "length" then Ok (VNumber (Z.of_nat (String.length s)))
      else Ok (match list_find (fun i => pretty i = k) (seq 0 (String.length s)) with
               | Some (_, i) => char_at s i
               | None => VUndefined
               end)
  | VBool _ | VNumber _ => Ok VUndefined
  end.

(** [v?.k]. *)
Definition get_opt (v : value) (k : string) : result value :=
  if nullish v then Ok VUndefined else get v k.

(** [Object.keys(v)]. *)
Definition keys (v : value) : result (list string) :=
  match v with
  | VUndefined | VNull => Throw TypeError
  | VObject props => Ok (props.*1)
  | VString s => Ok (pretty <$> seq 0 (String.length s))
  | VBool _ | VNumber _ => Ok []
  end.

(** [ks.includes(v)] for an array of strings (SameValueZero). *)
Definition includes (ks : list string) (v : value) : bool :=
  match v with
  | VString s => bool_decide (s ∈ ks)
  | _ => false
  end.

(** [v === k] against a string. *)
Definition strict_eq_string (v : value) (k : string) : bool :=
  match v with
  | VString s => bool_decide (s = k)
  | _ => false
  end.

End JS.
Import JS.

(** ** The document *)

Module DOM.

(** Elements are held by reference; a reference is an index in the store. *)
Abbreviation ref := nat.

(** What the model tracks of an element besides its children:
    [contentEditable] is the state the IDL attribute reports ("true",
    "false", "plaintext-only" or "inherit"), [placeholder] is
    [dataset.placeholder], [backgroundColor] is [style.backgroundColor]
    (empty when unset). *)
Record attributes : Type := {
  tagName : string;
  classList : list string;
  contentEditable : string;
  placeholder : option string;
  backgroundColor : string;
}.

(** Markup as a tree: what the HTML parser produces and what the
    serializer consumes. *)
#[warnings="-register-all"]
Inductive node : Type :=
| Text (data : string)
| Element (a : attributes) (children : list node).

(** The browser's part that the adapters rely on and the sources do not
    contain: the fragment parser behind the [innerHTML] setter, the
    serializer behind its getter, and the CSS parser that accepts or
    rejects a value assigned to [style.backgroundColor] (it yields the
    accepted colour). *)
Class Browser : Type := {
  parseHTML : string -> list node;
  serializeHTML : list node -> string;
  parseColor : string -> option string;
}.

(** The click listener [renderSettings] registers, kept as the variables
    its closure captures: [type], [settingsContainer], [settingsButton]. *)
Record listener : Type := {
  captured_type : string;
  captured_settingsContainer : ref;
  captured_settingsButton : ref;
}.

(** A child is either markup the parser built (nobody holds a reference
    into it) or an element that was created and appended by reference. *)
Inductive child : Type :=
| Parsed (n : node)
| Appended (r : ref).

Record element : Type := {
  attrs : attributes;
  childNodes : list child;
  clickListeners : list listener;
}.

Abbreviation store := (list element).

Definition with_attrs (f : attributes -> attributes) (e : element) : element :=
  {| attrs := f (attrs e); childNodes := childNodes e;
     clickListeners := clickListeners e |}.

Definition with_childNodes (f : list child -> list child) (e : element) : element :=
  {| attrs := attrs e; childNodes := f (childNodes e);
     clickListeners := clickListeners e |}.

Definition with_clickListeners (f : list listener -> list listener) (e : element)
  : element :=
  {| attrs := attrs e; childNodes := childNodes e;
     clickListeners := f (clickListeners e) |}.

Definition with_classList (f : list string -> list string) (a : attributes)
  : attributes :=
  {| tagName := tagName a; classList := f (classList a);
     contentEditable := contentEditable a; placeholder := placeholder a;
     backgroundColor := backgroundColor a |}.

Definition with_contentEditable (s : string) (a : attributes) : attributes :=
  {| tagName := tagName a; classList := classList a;
     contentEditable := s; placeholder := placeholder a;
     backgroundColor := backgroundColor a |}.

Definition with_placeholder (s : string) (a : attributes) : attributes :=
  {| tagName := tagName a; classList := classList a;
     contentEditable := contentEditable a; placeholder := Some s;
     backgroundColor := backgroundColor a |}.

Definition with_backgroundColor (s : string) (a : attributes) : attributes :=
  {| tagName := tagName a; classList := classList a;
     contentEditable := contentEditable a; placeholder := placeholder a;
     backgroundColor := s |}.

(** [document.createElement(tagName)]: a new element, not yet in any tree. *)
Definition new_element (tag : string) : element :=
  {| attrs := {| tagName := tag; classList := [];
                 contentEditable := "inherit"; placeholder := None;
                 backgroundColor := "" |};
     childNodes := []; clickListeners := [] |}.

Definition createElement (tag : string) (st : store) : ref * store :=
  (List.length st, st ++ [new_element tag]).

(** Dereference. A reference that names no element of the store stands
    for a value that is not an element: using it throws. *)
Definition element_at (st : store) (r : ref) : result element :=
  match st !! r with
  | Some e => Ok e
  | None => Throw TypeError
  end.

Definition update (r : ref) (f : element -> element) (st : store) : result store :=
  e ← element_at st r; Ok (<[r := f e]> st).

(** *** DOMTokenList *)

Definition ascii_whitespace (c : ascii) : bool :=
  bool_decide (nat_of_ascii c ∈ [9; 10; 12; 13; 32]).

Fixpoint has_whitespace (s : string) : bool :=
  match s with
  | EmptyString => false
  | String c s' => ascii_whitespace c || has_whitespace s'
  end.

Definition validate_token (t : string) : result unit :=
  if String.eqb t "" then Throw SyntaxError
  else if has_whitespace t then Throw InvalidCharacterError
  else Ok tt.

Definition add_token (cl : list string) (t : string) : list string :=
  if bool_decide (t ∈ cl) then cl else cl ++ [t].

Definition remove_token (cl : list string) (t : string) : list string :=
  List.filter (fun t' => negb (String.eqb t' t)) cl.

(** [el.classList.add(...tokens)]. *)
Definition classList_add (tokens : list string) (r : ref) (st : store)
  : result store :=
  _ ← forEach (fun _ t => validate_token t) tokens tt;
  update r (with_attrs (with_classList (fun cl => foldl add_token cl tokens))) st.

(** [el.classList.remove(token)]. *)
Definition classList_remove (t : string) (r : ref) (st : store) : result store :=
  _ ← validate_token t;
  update r (with_attrs (with_classList (fun cl => remove_token cl t))) st.

Definition has_class (c : string) (a : attributes) : bool :=
  bool_decide (c ∈ classList a).

(** *** Tree mutation and attributes *)

(** [parent.appendChild(el)] for a freshly created [el]. *)
Definition appendChild (parent el : ref) (st : store) : result store :=
  _ ← element_at st el;
  update parent (with_childNodes (fun cs => cs ++ [Appended el])) st.

(** [el.addEventListener("click", l)]. *)
Definition addClickListener (el : ref) (l : listener) (st : store) : result store :=
  update el (with_clickListeners (fun ls => ls ++ [l])) st.

(** [el.innerHTML = v]: the children are replaced by the parsed markup. *)
Definition set_innerHTML `{Browser} (el : ref) (v : value) (st : store)
  : result store :=
  update el (with_childNodes
               (fun _ => Parsed <$> parseHTML (to_string_null_empty v))) st.

(** [el.contentEditable = v]: one of the four keywords (compared as
    written), anything else is refused. *)
Definition set_contentEditable (el : ref) (v : value) (st : store) : result store :=
  let s := to_string v in
  if bool_decide (s ∈ ["true"; "false"; "plaintext-only"; "inherit"])
  then update el (with_attrs (with_contentEditable s)) st
  else Throw SyntaxError.

(** [el.dataset.placeholder = v]. *)
Definition set_placeholder (el : ref) (v : value) (st : store) : result store :=
  update el (with_attrs (with_placeholder (to_string v))) st.

(** [el.style.backgroundColor = v]: the empty string unsets the property,
    a value the CSS parser rejects leaves it as it was. *)
Definition set_backgroundColor `{Browser} (el : ref) (v : value) (st : store)
  : result store :=
  let s := to_string_null_empty v in
  if String.eqb s "" then update el (with_attrs (with_backgroundColor "")) st
  else match parseColor s with
       | Some c => update el (with_attrs (with_backgroundColor c)) st
       | None => _ ← element_at st el; Ok st
       end.

(** [el[attrName] = v] as [_make] performs it; a name that is no DOM
    attribute only records an own property on the object. *)
Definition set_property `{Browser} (el : ref) (attrName : string) (v : value)
    (st : store) : result store :=
  if String.eqb attrName "contentEditable" then set_contentEditable el v st
  else if String.eqb attrName "innerHTML" then set_innerHTML el v st
  else _ ← element_at st el; Ok st.

(** *** Reading the tree *)

(** The children of [e] as markup. [fuel] bounds the depth followed
    through references; a document is a tree, so the size of the store is
    enough. *)
Fixpoint subtree (fuel : nat) (st : store) (e : element) : list node :=
  flat_map (fun ch =>
    match ch with
    | Parsed n => [n]
    | Appended r =>
        match fuel with
        | 0 => []
        | S fuel' =>
            match st !! r with
            | Some e' => [Element (attrs e') (subtree fuel' st e')]
            | None => []
            end
        end
    end) (childNodes e).

(** First element in document order, [n] included, carrying class [c]. *)
Fixpoint find_class (c : string) (n : node) : option node :=
  match n with
  | Text _ => None
  | Element a kids =>
      if has_class c a then Some n
      else (fix first (l : list node) : option node :=
              match l with
              | [] => None
              | k :: l' =>
                  match find_class c k with
                  | Some m => Some m
                  | None => first l'
                  end
              end) kids
  end.

Fixpoint find_class_in (c : string) (l : list node) : option node :=
  match l with
  | [] => None
  | k :: l' =>
      match find_class c k with
      | Some m => Some m
      | None => find_class_in c l'
      end
  end.

Definition name_start (c : ascii) : bool :=
  let n := nat_of_ascii c in
  ((65 <=? n) && (n <=? 90) || (97 <=? n) && (n <=? 122) || (n =? 95))%nat.

Definition is_digit (c : ascii) : bool :=
  let n := nat_of_ascii c in ((48 <=? n) && (n <=? 57))%nat.

Definition is_hyphen (c : ascii) : bool := (nat_of_ascii c =? 45)%nat.

Fixpoint name_chars (s : string) : bool :=
  match s with
  | EmptyString => true
  | String c s' => (name_start c || is_digit c || is_hyphen c) && name_chars s'
  end.

(** An ASCII CSS identifier. *)
Definition css_ident (s : string) : bool :=
  match s with
  | EmptyString => false
  | String c s' =>
      if name_start c then name_chars s'
      else if is_hyphen c then
        match s' with
        | EmptyString => false
        | String c' s'' => (name_start c' || is_hyphen c') && name_chars s''
        end
      else false
  end.

(** The selectors the adapters build are a dot followed by a class name.
    The model reads exactly those; any other selector text is refused. *)
Definition class_selector (sel : string) : result string :=
  match sel with
  | String "." c => if css_ident c then Ok c else Throw SyntaxError
  | _ => Throw SyntaxError
  end.

(** [el.querySelector(sel)]: [null] or the first matching descendant,
    returned as the markup below it, which is all the callers read. *)
Definition querySelector (sel : string) (el : ref) (st : store)
  : result (option node) :=
  c ← class_selector sel;
  e ← element_at st el;
  Ok (find_class_in c (subtree (List.length st) st e)).

(** [found.innerHTML] on the result of [querySelector]. *)
Definition node_innerHTML `{Browser} (n : node) : string :=
  match n with
  | Text _ => ""
  | Element _ kids => serializeHTML kids
  end.

(** The elements below [r] that were appended by reference, in document
    order. *)
Fixpoint descendants (fuel : nat) (st : store) (r : ref) : list ref :=
  match fuel with
  | 0 => []
  | S fuel' =>
      match st !! r with
      | None => []
      | Some e =>
          flat_map (fun ch =>
            match ch with
            | Parsed _ => []
            | Appended r' => r' :: descendants fuel' st r'
            end) (childNodes e)
      end
  end.

Definition carries (st : store) (c : string) (r : ref) : bool :=
  match st !! r with
  | Some e => has_class c (attrs e)
  | None => false
  end.

(** [el.querySelectorAll(sel)] as the references its callers mutate.
    Elements inside parsed markup have no reference and are left out. *)
Definition querySelectorAll (sel : string) (el : ref) (st : store)
  : result (list ref) :=
  c ← class_selector sel;
  _ ← element_at st el;
  Ok (List.filter (carries st c) (descendants (List.length st) st el)).

End DOM.
Import DOM.

(** ** What the host passes to a constructor *)

Module Host.

(** [api.styles]: the class names the adapters ask the editor for. *)
Record Styles : Type := {
  block : string;
  input : string;
  settingsButton : string;
  settingsButtonActive : string;
}.

(** The part of the editor's API the adapters call. *)
Record API : Type := {
  styles : Styles;
  i18n_t : string -> string;
}.

(** The object destructured by every constructor; a property the host
    left out is [VUndefined]. *)
Record ConstructorArgs : Type := {
  data : value;
  config : value;
  api : API;
  readOnly : value;
}.

End Host.

(** ** [_make], the helper every class carries with the same body *)

(** The [classNames] parameter: [null], one name or an array of names. *)
Inductive classNames : Type :=
| ClassNull
| ClassName (s : string)
| ClassArray (l : list string).

Definition _make `{Browser} (tagName : string) (names : classNames)
    (attributes : list (string * value)) (st : store) : result (ref * store) :=
  let '(el, st) := createElement tagName st in
  st ← match names with
       | ClassArray l => classList_add l el st
       | ClassName s => if truthy (VString s) then classList_add [s] el st else Ok st
       | ClassNull => Ok st
       end;
  st ← forEach (fun st '(attrName, v) => set_property el attrName v st) attributes st;
  Ok (el, st).

(** [found?.innerHTML]. *)
Definition innerHTML_opt `{Browser} (found : option node) : value :=
  match found with
  | Some n => VString (node_innerHTML n)
  | None => VUndefined
  end.

(** [found.innerHTML]. *)
Definition innerHTML_of `{Browser} (found : option node) : result value :=
  match found with
  | Some n => Ok (VString (node_innerHTML n))
  | None => Throw TypeError
  end.

(** ** [Success] (src/index.js) *)

Module Success.

Module SuccessData.
Record t : Type := { title : value; message : value }.
Definition to_value (d : t) : value :=
  VObject [("title", title d); ("message", message d)].
End SuccessData.

Module SuccessCSS.
Record t : Type := {
  baseClass : string; wrapper : string; title : string;
  input : string; message : string;
}.
End SuccessCSS.

(** The fields of [this]. *)
Record t : Type := {
  api : Host.API;
  titlePlaceholder : value;
  messagePlaceholder : value;
  data : SuccessData.t;
}.

Definition toolbox_title : string := "Success".
Definition enableLineBreaks : bool := true.
Definition DEFAULT_TITLE_PLACEHOLDER : string := "Title".
Definition DEFAULT_MESSAGE_PLACEHOLDER : string := "Message".

Definition CSS (this : t) : SuccessCSS.t :=
  {| SuccessCSS.baseClass := Host.block (Host.styles (api this));
     SuccessCSS.wrapper := "cdx-success";
     SuccessCSS.title := "cdx-success__title";
     SuccessCSS.input := Host.input (Host.styles (api this));
     SuccessCSS.message := "cdx-success__message" |}.

Definition constructor (args : Host.ConstructorArgs) : result t :=
  tp ← get (Host.config args) "titlePlaceholder";
  mp ← get (Host.config args) "messagePlaceholder";
  title ← get (Host.data args) "title";
  message ← get (Host.data args) "message";
  Ok {| api := Host.api args;
        titlePlaceholder := logical_or tp (VString DEFAULT_TITLE_PLACEHOLDER);
        messagePlaceholder := logical_or mp (VString DEFAULT_MESSAGE_PLACEHOLDER);
        data := {| SuccessData.title := logical_or title (VString "");
                   SuccessData.message := logical_or message (VString "") |} |}.

Definition render `{Browser} (this : t) (st : store) : result (ref * store) :=
  let css := CSS this in
  '(container, st) ← _make "div"
      (ClassArray [SuccessCSS.baseClass css; SuccessCSS.wrapper css]) [] st;
  '(title, st) ← _make "div"
      (ClassArray [SuccessCSS.input css; SuccessCSS.title css])
      [("contentEditable", VBool true);
       ("innerHTML", SuccessData.title (data this))] st;
  '(message, st) ← _make "div"
      (ClassArray [SuccessCSS.input css; SuccessCSS.message css])
      [("contentEditable", VBool true);
       ("innerHTML", SuccessData.message (data this))] st;
  st ← set_placeholder title (titlePlaceholder this) st;
  st ← set_placeholder message (messagePlaceholder this) st;
  st ← appendChild container title st;
  st ← appendChild container message st;
  Ok (container, st).

(** [Object.assign(this.data, {...})] writes into [this.data] and returns
    it: the adapter comes back with the same record as the result. *)
Definition save `{Browser} (this : t) (successElement : ref) (st : store)
  : result (SuccessData.t * t) :=
  let css := CSS this in
  title ← querySelector ("." +:+ SuccessCSS.title css) successElement st;
  message ← querySelector ("." +:+ SuccessCSS.message css) successElement st;
  title_html ← innerHTML_of title;
  message_html ← innerHTML_of message;
  let d := {| SuccessData.title := title_html;
              SuccessData.message := message_html |} in
  Ok (d, {| api := api this; titlePlaceholder := titlePlaceholder this;
            messagePlaceholder := messagePlaceholder this; data := d |}).

Definition sanitize : value :=
  VObject [("title", VObject []); ("message", VObject [])].

End Success.

(** ** [Warning] (src/index.ts, title and message) *)

Module Warning.

Module WarningData.
Record t : Type := { title : value; message : value }.
Definition to_value (d : t) : value :=
  VObject [("title", title d); ("message", message d)].
End WarningData.

Module WarningCSS.
Record t : Type := {
  baseClass : string; wrapper : string; title : string;
  input : string; message : string;
}.
End WarningCSS.

(** The fields of [this]. *)
Record t : Type := {
  api : Host.API;
  data : WarningData.t;
  readOnly : value;
  titlePlaceholder : value;
  messagePlaceholder : value;
}.

Definition isReadOnlySupported : bool := true.
Definition toolbox_title : string := "Warning".
Definition enableLineBreaks : bool := true.
Definition DEFAULT_TITLE_PLACEHOLDER : string := "Title".
Definition DEFAULT_MESSAGE_PLACEHOLDER : string := "Message".

Definition CSS (this : t) : WarningCSS.t :=
  {| WarningCSS.baseClass := Host.block (Host.styles (api this));
     WarningCSS.wrapper := "cdx-warning";
     WarningCSS.title := "cdx-warning__title";
     WarningCSS.input := Host.input (Host.styles (api this));
     WarningCSS.message := "cdx-warning__message" |}.

Definition constructor (args : Host.ConstructorArgs) : result t :=
  tp ← get_opt (Host.config args) "titlePlaceholder";
  mp ← get_opt (Host.config args) "messagePlaceholder";
  title ← get (Host.data args) "title";
  message ← get (Host.data args) "message";
  Ok {| api := Host.api args;
        readOnly := Host.readOnly args;
        titlePlaceholder := logical_or tp (VString DEFAULT_TITLE_PLACEHOLDER);
        messagePlaceholder := logical_or mp (VString DEFAULT_MESSAGE_PLACEHOLDER);
        data := {| WarningData.title := logical_or title (VString "");
                   WarningData.message := logical_or message (VString "") |} |}.

Definition render `{Browser} (this : t) (st : store) : result (ref * store) :=
  let css := CSS this in
  '(container, st) ← _make "div"
      (ClassArray [WarningCSS.baseClass css; WarningCSS.wrapper css]) [] st;
  '(title, st) ← _make "div"
      (ClassArray [WarningCSS.input css; WarningCSS.title css])
      [("contentEditable", logical_not (readOnly this));
       ("innerHTML", WarningData.title (data this))] st;
  '(message, st) ← _make "div"
      (ClassArray [WarningCSS.input css; WarningCSS.message css])
      [("contentEditable", logical_not (readOnly this));
       ("innerHTML", WarningData.message (data this))] st;
  st ← set_placeholder title (titlePlaceholder this) st;
  st ← set_placeholder message (messagePlaceholder this) st;
  st ← appendChild container title st;
  st ← appendChild container message st;
  Ok (container, st).

(** [Object.assign(this.data, {...})] writes into [this.data] and returns
    it: the adapter comes back with the same record as the result. *)
Definition save `{Browser} (this : t) (warningElement : ref) (st : store)
  : result (WarningData.t * t) :=
  let css := CSS this in
  title ← querySelector ("." +:+ WarningCSS.title css) warningElement st;
  message ← querySelector ("." +:+ WarningCSS.message css) warningElement st;
  let d := {| WarningData.title := coalesce (innerHTML_opt title) (VString "");
              WarningData.message := coalesce (innerHTML_opt message) (VString "") |} in
  Ok (d, {| api := api this; data := d; readOnly := readOnly this;
            titlePlaceholder := titlePlaceholder this;
            messagePlaceholder := messagePlaceholder this |}).

Definition sanitize : value :=
  VObject [("title", VObject []); ("message", VObject [])].

End Warning.

(** ** [Warning] with a type (src/index.ts, type and message) *)

Module TypedWarning.

Module WarningData.
Record t : Type := { type : value; message : value }.
Definition to_value (d : t) : value :=
  VObject [("type", type d); ("message", message d)].
End WarningData.

(** [this.config]. *)
Module Config.
Record t : Type := { defaultType : value; typeColor : value }.
End Config.

Module WarningCSS.
Record t : Type := {
  baseClass : string;
  settingsButton : string;
  settingsButtonActive : string;
  wrapper : string;
  wrapperForType : value -> string;
  message : string;
  settingsContainer : string;
  title : string;
  background : string;
}.
End WarningCSS.

(** The fields of [this]; [background] and [container] are [None] until
    [render] assigns them. *)
Record t : Type := {
  api : Host.API;
  readOnly : value;
  messagePlaceholder : value;
  defaultType : value;
  config : Config.t;
  data : WarningData.t;
  background : option ref;
  container : option ref;
}.

Definition isReadOnlySupported : bool := true.
Definition toolbox_title : string := "Warning".
Definition enableLineBreaks : bool := true.
Definition DEFAULT_MESSAGE_PLACEHOLDER : string := "Message".

Definition CSS (this : t) : WarningCSS.t :=
  {| WarningCSS.baseClass := Host.block (Host.styles (api this));
     WarningCSS.settingsButton := Host.settingsButton (Host.styles (api this));
     WarningCSS.settingsButtonActive :=
       Host.settingsButtonActive (Host.styles (api this));
     WarningCSS.wrapper := "cdx-warning";
     WarningCSS.wrapperForType := fun type => "cdx-warning-" +:+ to_string type;
     WarningCSS.message := "cdx-warning__message";
     WarningCSS.settingsContainer := "settingsButton-wrapper";
     WarningCSS.title := "title";
     WarningCSS.background := "bg" |}.

Definition constructor (args : Host.ConstructorArgs) : result t :=
  mp ← get (Host.config args) "messagePlaceholder";
  defaultType ← get (Host.config args) "defaultType";
  typeColor ← get (Host.config args) "typeColor";
  recognized ← keys typeColor;
  type ← get (Host.data args) "type";
  message ← get (Host.data args) "message";
  Ok {| api := Host.api args;
        readOnly := Host.readOnly args;
        messagePlaceholder := logical_or mp (VString DEFAULT_MESSAGE_PLACEHOLDER);
        defaultType := defaultType;
        config := {| Config.defaultType := defaultType;
                     Config.typeColor := typeColor |};
        data := {| WarningData.type :=
                     if includes recognized type then type else defaultType;
                   WarningData.message := logical_or message (VString "") |};
        background := None;
        container := None |}.

Definition set_data (d : WarningData.t) (this : t) : t :=
  {| api := api this; readOnly := readOnly this;
     messagePlaceholder := messagePlaceholder this;
     defaultType := defaultType this; config := config this;
     data := d; background := background this; container := container this |}.

Definition set_elements (bg cont : option ref) (this : t) : t :=
  {| api := api this; readOnly := readOnly this;
     messagePlaceholder := messagePlaceholder this;
     defaultType := defaultType this; config := config this;
     data := data this; background := bg; container := cont |}.

(** Use of a field that holds an element, or [undefined]. *)
Definition element_field (f : option ref) : result ref :=
  match f with
  | Some r => Ok r
  | None => Throw TypeError
  end.

Definition render `{Browser} (this : t) (st : store) : result (ref * t * store) :=
  let css := CSS this in
  let containerClasses :=
    [WarningCSS.wrapper css;
     WarningCSS.wrapperForType css (WarningData.type (data this))] in
  '(messageEl, st) ← _make "div" (ClassArray [WarningCSS.message css])
      [("contentEditable", logical_not (readOnly this));
       ("innerHTML", WarningData.message (data this))] st;
  '(background, st) ← _make "div" (ClassArray [WarningCSS.background css]) [] st;
  st ← set_placeholder messageEl (messagePlaceholder this) st;
  '(container, st) ← _make "div" (ClassArray containerClasses) [] st;
  st ← appendChild container background st;
  st ← appendChild container messageEl st;
  st ← (if truthy (WarningData.type (data this)) then
          let calloutType := WarningData.type (data this) in
          colorCode ← get (Config.typeColor (config this)) (to_string calloutType);
          set_backgroundColor background colorCode st
        else Ok st);
  Ok (container, set_elements (Some background) (Some container) this, st).

(** The callback [renderSettings] runs for every recognized type. *)
Definition renderSettings_each `{Browser} (this : t) (settingsContainer : ref)
    (st : store) (type : string) : result store :=
  let css := CSS this in
  '(settingsButton, st) ← _make "div"
      (ClassArray [WarningCSS.settingsButton css; WarningCSS.wrapper css;
                   WarningCSS.wrapperForType css (VString type)])
      [("innerHTML", VString "A")] st;
  st ← (if strict_eq_string (WarningData.type (data this)) type
        then classList_add [WarningCSS.settingsButtonActive css] settingsButton st
        else Ok st);
  st ← addClickListener settingsButton
         {| captured_type := type;
            captured_settingsContainer := settingsContainer;
            captured_settingsButton := settingsButton |} st;
  appendChild settingsContainer settingsButton st.

Definition renderSettings `{Browser} (this : t) (st : store) : result (ref * store) :=
  let css := CSS this in
  '(settingsContainer, st) ← _make "div"
      (ClassArray [WarningCSS.settingsContainer css]) [] st;
  '(title, st) ← _make "div" (ClassArray [WarningCSS.title css]) [] st;
  st ← set_innerHTML title
         (VString (Host.i18n_t (api this) " Type" +:+ " ")) st;
  st ← appendChild settingsContainer title st;
  recognized ← keys (Config.typeColor (config this));
  st ← forEach (renderSettings_each this settingsContainer) recognized st;
  Ok (settingsContainer, st).

(** The callback [_changeAlertType] runs for every recognized type; [this]
    already holds the new type. *)
Definition _changeAlertType_each `{Browser} (this : t) (newType : string)
    (st : store) (type : string) : result store :=
  let css := CSS this in
  let warningClass := WarningCSS.wrapperForType css (VString type) in
  container ← element_field (container this);
  st ← classList_remove warningClass container st;
  if bool_decide (newType = type) then
    st ← classList_add [warningClass] container st;
    colorCode ← get (Config.typeColor (config this)) type;
    background ← element_field (background this);
    set_backgroundColor background colorCode st
  else Ok st.

Definition _changeAlertType `{Browser} (this : t) (newType : string) (st : store)
  : result (t * store) :=
  let this := set_data {| WarningData.type := VString newType;
                          WarningData.message := WarningData.message (data this) |}
                       this in
  recognized ← keys (Config.typeColor (config this));
  st ← forEach (_changeAlertType_each this newType) recognized st;
  Ok (this, st).

(** The body of the click listener registered by [renderSettings]. *)
Definition on_click `{Browser} (this : t) (l : listener) (st : store)
  : result (t * store) :=
  let css := CSS this in
  '(this, st) ← _changeAlertType this (captured_type l) st;
  buttons ← querySelectorAll ("." +:+ WarningCSS.settingsButton css)
              (captured_settingsContainer l) st;
  st ← forEach (fun st button =>
         classList_remove (WarningCSS.settingsButtonActive css) button st)
       buttons st;
  st ← classList_add [WarningCSS.settingsButtonActive css]
         (captured_settingsButton l) st;
  Ok (this, st).

(** A click on [el]: its listeners run in the order they were added. *)
Definition click `{Browser} (this : t) (el : ref) (st : store) : result (t * store) :=
  e ← element_at st el;
  forEach (fun '(this, st) l => on_click this l st) (clickListeners e) (this, st).

(** The spread builds a new object; [this.data] is not written. *)
Definition save `{Browser} (this : t) (warningElement : ref) (st : store)
  : result (WarningData.t * t) :=
  let css := CSS this in
  messageEl ← querySelector ("." +:+ WarningCSS.message css) warningElement st;
  message_html ← innerHTML_of messageEl;
  Ok ({| WarningData.type := WarningData.type (data this);
         WarningData.message := message_html |}, this).

Definition sanitize : value :=
  VObject [("type", VObject []); ("message", VObject [])].

End TypedWarning.

(** ** [Warning] (src/index.js, the older JavaScript class)

    The methods are those of [Success] with the [cdx-warning] class names;
    the class has no [sanitize] getter and declares [displayInToolbox] and
    [contentless] instead of [toolbox]. *)

Module LegacyWarning.

Module WarningData.
Record t : Type := { title : value; message : value }.
Definition to_value (d : t) : value :=
  VObject [("title", title d); ("message", message d)].
End WarningData.

Module WarningCSS.
Record t : Type := {
  baseClass : string; wrapper : string; title : string;
  input : string; message : string;
}.
End WarningCSS.

(** The fields of [this]. *)
Record t : Type := {
  api : Host.API;
  titlePlaceholder : value;
  messagePlaceholder : value;
  data : WarningData.t;
}.

Definition displayInToolbox : bool := true.
Definition contentless : bool := true.
Definition enableLineBreaks : bool := true.
Definition DEFAULT_TITLE_PLACEHOLDER : string := "Title".
Definition DEFAULT_MESSAGE_PLACEHOLDER : string := "Message".

Definition CSS (this : t) : WarningCSS.t :=
  {| WarningCSS.baseClass := Host.block (Host.styles (api this));
     WarningCSS.wrapper := "cdx-warning";
     WarningCSS.title := "cdx-warning__title";
     WarningCSS.input := Host.input (Host.styles (api this));
     WarningCSS.message := "cdx-warning__message" |}.

Definition constructor (args : Host.ConstructorArgs) : result t :=
  tp ← get (Host.config args) "titlePlaceholder";
  mp ← get (Host.config args) "messagePlaceholder";
  title ← get (Host.data args) "title";
  message ← get (Host.data args) "message";
  Ok {| api := Host.api args;
        titlePlaceholder := logical_or tp (VString DEFAULT_TITLE_PLACEHOLDER);
        messagePlaceholder := logical_or mp (VString DEFAULT_MESSAGE_PLACEHOLDER);
        data := {| WarningData.title := logical_or title (VString "");
                   WarningData.message := logical_or message (VString "") |} |}.

Definition render `{Browser} (this : t) (st : store) : result (ref * store) :=
  let css := CSS this in
  '(container, st) ← _make "div"
      (ClassArray [WarningCSS.baseClass css; WarningCSS.wrapper css]) [] st;
  '(title, st) ← _make "div"
      (ClassArray [WarningCSS.input css; WarningCSS.title css])
      [("contentEditable", VBool true);
       ("innerHTML", WarningData.title (data this))] st;
  '(message, st) ← _make "div"
      (ClassArray [WarningCSS.input css; WarningCSS.message css])
      [("contentEditable", VBool true);
       ("innerHTML", WarningData.message (data this))] st;
  st ← set_placeholder title (titlePlaceholder this) st;
  st ← set_placeholder message (messagePlaceholder this) st;
  st ← appendChild container title st;
  st ← appendChild container message st;
  Ok (container, st).

(** [Object.assign(this.data, {...})] writes into [this.data] and returns
    it: the adapter comes back with the same record as the result. *)
Definition save `{Browser} (this : t) (warningElement : ref) (st : store)
  : result (WarningData.t * t) :=
  let css := CSS this in
  title ← querySelector ("." +:+ WarningCSS.title css) warningElement st;
  message ← querySelector ("." +:+ WarningCSS.message css) warningElement st;
  title_html ← innerHTML_of title;
  message_html ← innerHTML_of message;
  let d := {| WarningData.title := title_html;
              WarningData.message := message_html |} in
  Ok (d, {| api := api this; titlePlaceholder := titlePlaceholder this;
            messagePlaceholder := messagePlaceholder this; data := d |}).

End LegacyWarning.

(** ** A browser for markup-free text

    Enough of a browser to run the adapters on plain text: the parser turns
    a non-empty string into one text node, the serializer writes text as it
    is and elements as bare tags, every colour is accepted as written. *)

Fixpoint plain_serialize (n : node) : string :=
  match n with
  | Text d => d
  | Element a kids =>
      "<" +:+ tagName a +:+ ">" +:+
      (fix all (l : list node) : string :=
         match l with
         | [] => ""
         | k :: l' => plain_serialize k +:+ all l'
         end) kids +:+
      "</" +:+ tagName a +:+ ">"
  end.

Definition plain_browser : Browser :=
  {| parseHTML := fun s => if String.eqb s "" then [] else [Text s];
     serializeHTML := fun l => String.concat "" (plain_serialize <$> l);
     parseColor := fun s => Some s |}.

(** A host API with the class names the editor ships. *)
Definition editor_api : Host.API :=
  {| Host.styles := {| Host.block := "cdx-block"; Host.input := "cdx-input";
                       Host.settingsButton := "cdx-settings-button";
                       Host.settingsButtonActive := "cdx-settings-button--active" |};
     Host.i18n_t := fun s => s |}.

(** ** A browser that escapes text

    As [plain_browser], with the character references of HTML: the
    serializer writes the characters [&], [<] and [>] of a text node as
    [&amp;], [&lt;] and [&gt;], and the parser reads these three references
    back. *)





(** ** Inputs and vocabulary of the statements *)

(** Data holding a title only, empty configuration. *)
Definition title_only_args : Host.ConstructorArgs :=
  {| Host.data := VObject [("title", VString "Mind the gap")];
     Host.config := VObject [];
     Host.api := editor_api;
     Host.readOnly := VBool false |}.

(** The example of the specification: type "danger" against a mapping that
    only knows "info". *)
Definition danger_args : Host.ConstructorArgs :=
  {| Host.data := VObject [("type", VString "danger"); ("message", VString "x")];
     Host.config := VObject [("typeColor", VObject [("info", VString "#eee")]);
                             ("defaultType", VString "info")];
     Host.api := editor_api;
     Host.readOnly := VBool false |}.

(** The two fields of a title-and-message record after construction from
    the values [title] and [message] read off the supplied data. *)
Definition normalized (supplied stored : value) : Prop :=
  (truthy supplied = false -> stored = VString "") /\
  (truthy supplied = true -> stored = supplied) /\
  stored <> VUndefined.

(** A class name [classList] accepts. *)
Definition valid_token (t : string) : Prop := validate_token t = Ok tt.

(** The effect of [classList.add(...tokens)] on one element. *)
Definition with_tokens (tokens : list string) : element -> element :=
  with_attrs (with_classList (fun cl => foldl add_token cl tokens)).

(** The [contentEditable] state after a boolean was assigned. *)
Definition editable (b : bool) : string := if b then "true" else "false".

(** The effect of [el[attrName] = v] on the element itself. *)
Definition property_on `{Browser} (attrName : string) (v : value) (e : element)
  : result element :=
  if String.eqb attrName "contentEditable" then
    if bool_decide (to_string v ∈ ["true"; "false"; "plaintext-only"; "inherit"])
    then Ok (with_attrs (with_contentEditable (to_string v)) e)
    else Throw SyntaxError
  else if String.eqb attrName "innerHTML" then
    Ok (with_childNodes (fun _ => Parsed <$> parseHTML (to_string_null_empty v)) e)
  else Ok e.

(** The element [_make] builds, before it is put in the store. *)
Definition made `{Browser} (tag : string) (tokens : list string)
    (attributes : list (string * value)) : result element :=
  forEach (fun e '(attrName, v) => property_on attrName v e) attributes
    (with_tokens tokens (new_element tag)).

(** The effect of [style.backgroundColor = v] on the element itself. *)
Definition painted `{Browser} (v : value) (e : element) : element :=
  let s := to_string_null_empty v in
  if String.eqb s "" then with_attrs (with_backgroundColor "") e
  else match parseColor s with
       | Some c => with_attrs (with_backgroundColor c) e
       | None => e
       end.

(** An editable region as [render] leaves it: classes, editability, parsed
    content, placeholder. *)
Definition region_element `{Browser} (tokens : list string) (ce : bool)
    (content placeholder : value) : element :=
  with_attrs (with_placeholder (to_string placeholder))
    (with_childNodes (fun _ => Parsed <$> parseHTML (to_string_null_empty content))
       (with_attrs (with_contentEditable (editable ce))
          (with_tokens tokens (new_element "div")))).

(** A container as [render] leaves it: classes and appended children. *)
Definition container_element (tokens : list string) (kids : list ref) : element :=
  with_childNodes (fun _ => Appended <$> kids) (with_tokens tokens (new_element "div")).

(** The elements appended under [r], in order. *)
Definition children_of (st : store) (r : ref) : list element :=
  match st !! r with
  | Some e =>
      omap (fun ch => match ch with
                      | Appended r' => st !! r'
                      | Parsed _ => None
                      end) (childNodes e)
  | None => []
  end.

(** Read-only inputs: a typed block under a read-only editor. *)
Definition readonly_typed_args : Host.ConstructorArgs :=
  {| Host.data := VObject [("type", VString "info"); ("message", VString "x")];
     Host.config := VObject [("typeColor", VObject [("info", VString "#eee")]);
                             ("defaultType", VString "info")];
     Host.api := editor_api;
     Host.readOnly := VBool true |}.

(** A saved title-and-message block, read-only editor. *)
Definition readonly_args : Host.ConstructorArgs :=
  {| Host.data := VObject [("title", VString "Note"); ("message", VString "Handle with care")];
     Host.config := VObject [("titlePlaceholder", VString "");
                             ("messagePlaceholder", VString "")];
     Host.api := editor_api;
     Host.readOnly := VBool true |}.

(** A sanitizer policy that allows no tag in any field: every property is
    the empty object. *)
Definition strips_all_tags (policy : value) : Prop :=
  match policy with
  | VObject props => Forall (fun kv => kv.2 = VObject []) props
  | _ => False
  end.

(** The data a title-and-message block was saved with. *)
Definition saved_block (title message : string) : value :=
  VObject [("title", VString title); ("message", VString message)].

(** A saved block, editor not read-only. *)
Definition saved_args : Host.ConstructorArgs :=
  {| Host.data := saved_block "Note" "Handle with care";
     Host.config := VObject [];
     Host.api := editor_api;
     Host.readOnly := VBool false |}.



(** A typed block whose configuration has no [typeColor]. *)
Definition no_typeColor_args : Host.ConstructorArgs :=
  {| Host.data := VObject [("message", VString "x")];
     Host.config := VObject [("defaultType", VString "info")];
     Host.api := editor_api;
     Host.readOnly := VBool false |}.

(** A document holding one [div] without children. *)
Definition bare_div : store := [new_element "div"].

(** A typed block constructed, rendered, and its message region edited to
    "y" by the user. *)
Definition typed_session : option (TypedWarning.t * ref * store) :=
  match TypedWarning.constructor danger_args with
  | Ok this =>
      match TypedWarning.render (H := plain_browser) this [] with
      | Ok (container, this1, st1) =>
          match set_innerHTML (H := plain_browser) 0 (VString "y") st1 with
          | Ok st2 => Some (this1, container, st2)
          | Throw _ => None
          end
      | Throw _ => None
      end
  | Throw _ => None
  end.

(** A [Success] block constructed and rendered. *)
Definition success_session : option (Success.t * ref * store) :=
  match Success.constructor saved_args with
  | Ok this =>
      match Success.render (H := plain_browser) this [] with
      | Ok (container, st1) => Some (this, container, st1)
      | Throw _ => None
      end
  | Throw _ => None
  end.

(** ** Vocabulary of the settings strip *)

(** A settings control as [renderSettings] leaves it: classes, the letter,
    the active marker when its type is the current one, the click listener. *)
Definition settings_button `{Browser} (this : TypedWarning.t) (settingsContainer r : ref)
    (k : string) : element :=
  let api := Host.styles (TypedWarning.api this) in
  (with_clickListeners
    (fun ls => ls ++ [ {| captured_type := k;
                          captured_settingsContainer := settingsContainer;
                          captured_settingsButton := r |} ])
    ((if strict_eq_string (TypedWarning.WarningData.type (TypedWarning.data this)) k
      then with_tokens [Host.settingsButtonActive api] else id)
       (with_childNodes (fun _ => Parsed <$> parseHTML "A")
          (with_tokens [Host.settingsButton api; "cdx-warning"; "cdx-warning-" +:+ k]
             (new_element "div"))))).

(** The title of the settings strip. *)
Definition settings_title `{Browser} (this : TypedWarning.t) : element :=
  with_childNodes
    (fun _ => Parsed <$> parseHTML (Host.i18n_t (TypedWarning.api this) " Type" +:+ " "))
    (with_tokens ["title"] (new_element "div")).

(** No element was appended under [e]. *)
Definition is_leaf (e : element) : bool :=
  forallb (fun ch => match ch with Parsed _ => true | Appended _ => false end)
    (childNodes e).

(** The recognized types paired with the references of their controls,
    which are created one after the other from [first] on. *)
Definition settings_controls (first : ref) (ks : list string) : list (string * ref) :=
  imap (fun i k => (k, first + i)) ks.

(** The element with its class list replaced. *)
Definition with_classes (cl : list string) : element -> element :=
  with_attrs (with_classList (fun _ => cl)).

(** One round of the loop of [_changeAlertType] on the class list of the
    container. *)
Definition retype_class (newType : string) (cl : list string) (type : string)
  : list string :=
  let warningClass := "cdx-warning-" +:+ type in
  let cl := remove_token cl warningClass in
  if bool_decide (newType = type) then add_token cl warningClass else cl.

(** One round of the loop of [_changeAlertType] on the background. *)
Definition retype_color `{Browser} (newType : string) (ps : list (string * value))
    (e : element) (type : string) : element :=
  if bool_decide (newType = type) then painted (default VUndefined (assoc type ps)) e
  else e.

(** The browser takes [v] for the colour [colour] when it is assigned to
    [style.backgroundColor]. *)
Definition accepts `{Browser} (v : value) (colour : string) : Prop :=
  to_string_null_empty v <> "" /\ parseColor (to_string_null_empty v) = Some colour.

(** The state of a rendered block and one of its settings strips: the
    adapter holds container [c] and background [b]; strip [sc] holds the
    title and then one control per recognized type, each with the listener
    [renderSettings] gave it; and unless the two class names coincide every
    control carries the class the click handler selects by. *)
Definition settings_ready (this : TypedWarning.t) (st : store)
    (ps : list (string * value)) (c b sc title : ref)
    (ctrls : list (string * ref)) : Prop :=
  let sb := Host.settingsButton (Host.styles (TypedWarning.api this)) in
  let ac := Host.settingsButtonActive (Host.styles (TypedWarning.api this)) in
  TypedWarning.Config.typeColor (TypedWarning.config this) = VObject ps /\
  TypedWarning.container this = Some c /\
  TypedWarning.background this = Some b /\
  is_Some (st !! c) /\
  is_Some (st !! b) /\
  ctrls.*1 = ps.*1 /\
  NoDup (c :: b :: sc :: title :: ctrls.*2) /\
  (exists e, st !! sc = Some e /\
             childNodes e = Appended title :: (Appended <$> ctrls.*2)) /\
  (exists e, st !! title = Some e /\ is_leaf e = true /\ clickListeners e = []) /\
  (forall k r, (k, r) ∈ ctrls ->
     exists e, st !! r = Some e /\ is_leaf e = true /\
               clickListeners e =
                 [ {| captured_type := k; captured_settingsContainer := sc;
                      captured_settingsButton := r |} ]) /\
  (sb <> ac -> forall k r, (k, r) ∈ ctrls -> carries st sb r = true).

(** The adapter after [this.data.type = newType]. *)
Definition retyped (this : TypedWarning.t) (newType : string) : TypedWarning.t :=
  TypedWarning.set_data
    {| TypedWarning.WarningData.type := VString newType;
       TypedWarning.WarningData.message :=
         TypedWarning.WarningData.message (TypedWarning.data this) |} this.

(** The references appended under [e]. *)
Definition appended (e : element) : list ref :=
  omap (fun ch => match ch with Appended r => Some r | Parsed _ => None end)
    (childNodes e).

(** [r] has a click listener. *)
Definition listens (st : store) (r : ref) : bool :=
  match st !! r with
  | Some e => match clickListeners e with [] => false | _ => true end
  | None => false
  end.

(** [r] has a click listener that selects type [k]. *)
Definition listens_for (st : store) (k : string) (r : ref) : bool :=
  match st !! r with
  | Some e => existsb (fun l => String.eqb (captured_type l) k) (clickListeners e)
  | None => false
  end.

(** The settings controls of a strip: its children that listen to clicks. *)
Definition controls (st : store) (settingsContainer : ref) : list ref :=
  match st !! settingsContainer with
  | Some e => List.filter (listens st) (appended e)
  | None => []
  end.

(** The control of type [k] in a strip. *)
Definition control_of (st : store) (settingsContainer : ref) (k : string) : option ref :=
  List.find (listens_for st k) (controls st settingsContainer).

(** The user selects type [k] in a strip: a click on its control. *)
Definition select `{Browser} (settingsContainer : ref) (s : TypedWarning.t * store)
    (k : string) : result (TypedWarning.t * store) :=
  match control_of s.2 settingsContainer k with
  | Some r => TypedWarning.click s.1 r s.2
  | None => Ok s
  end.

(** A typed block with two recognized types. *)
Definition two_types_args : Host.ConstructorArgs :=
  {| Host.data := VObject [];
     Host.config := VObject [("typeColor", VObject [("info", VString "#eee");
                                                   ("danger", VString "#fdd")]);
                             ("defaultType", VString "info")];
     Host.api := editor_api;
     Host.readOnly := VBool false |}.

(** A configuration whose [defaultType] is no key of [typeColor]. *)
Definition unrecognized_default_args : Host.ConstructorArgs :=
  {| Host.data := VObject [];
     Host.config := VObject [("typeColor", VObject [("info", VString "#eee")]);
                             ("defaultType", VString "note")];
     Host.api := editor_api;
     Host.readOnly := VBool false |}.

(** What a click leaves of an element of the settings strip: the active
    marker [ac] is taken off the elements answering to the selector of
    [sb], and put on the clicked one. *)
Definition unhighlighted (sb ac : string) (e : element) : element :=
  if has_class sb (attrs e)
  then with_classes (remove_token (classList (attrs e)) ac) e
  else e.

Definition after_click (sb ac : string) (rB r : ref) (e : element) : element :=
  if bool_decide (r = rB)
  then with_classes (add_token (classList (attrs (unhighlighted sb ac e))) ac)
         (unhighlighted sb ac e)
  else unhighlighted sb ac e.

Definition two_types : list (string * value) :=
  [("info", VString "#eee"); ("danger", VString "#fdd")].

(** The adapter the constructor builds from [two_types_args]. *)
Definition two_types_adapter : TypedWarning.t :=
  {| TypedWarning.api := editor_api;
     TypedWarning.readOnly := VBool false;
     TypedWarning.messagePlaceholder := VString "Message";
     TypedWarning.defaultType := VString "info";
     TypedWarning.config :=
       {| TypedWarning.Config.defaultType := VString "info";
          TypedWarning.Config.typeColor := VObject two_types |};
     TypedWarning.data :=
       {| TypedWarning.WarningData.type := VString "info";
          TypedWarning.WarningData.message := VString "" |};
     TypedWarning.background := None;
     TypedWarning.container := None |}.

(** ** Vocabulary of the further properties *)

(** The class names [_make] passes to [classList.add] for each form of
    its [classNames] argument; a single empty name counts as none. *)
Definition names_of (names : classNames) : list string :=
  match names with
  | ClassNull => []
  | ClassName s => if String.eqb s "" then [] else [s]
  | ClassArray l => l
  end.

(** A typed block saved with a recognized type that is not the default. *)
Definition recognized_args : Host.ConstructorArgs :=
  {| Host.data := VObject [("type", VString "danger"); ("message", VString "x")];
     Host.config := VObject [("typeColor", VObject two_types);
                             ("defaultType", VString "info")];
     Host.api := editor_api;
     Host.readOnly := VBool false |}.

(** A typed block whose default type holds a space. *)
Definition spaced_default_args : Host.ConstructorArgs :=
  {| Host.data := VObject [("message", VString "x")];
     Host.config := VObject [("typeColor", VObject [("info", VString "#eee")]);
                             ("defaultType", VString "high risk")];
     Host.api := editor_api;
     Host.readOnly := VBool false |}.

(** A typed block configured without [defaultType], created empty. *)
Definition no_defaultType_args : Host.ConstructorArgs :=
  {| Host.data := VObject [];
     Host.config := VObject [("typeColor", VObject [("info", VString "#eee")])];
     Host.api := editor_api;
     Host.readOnly := VBool false |}.

(** Markup whose only element carries the message class of [Warning]. *)
Definition nested_message_markup : string :=
  "<span class='cdx-warning__message'>gap</span>".

(** A serializer that writes the class attribute of an element. *)
Fixpoint class_serialize (n : node) : string :=
  match n with
  | Text d => d
  | Element a kids =>
      "<" +:+ tagName a +:+
      match classList a with
      | [] => ""
      | cl => " class='" +:+ String.concat " " cl +:+ "'"
      end +:+ ">" +:+
      (fix all (l : list node) : string :=
         match l with
         | [] => ""
         | k :: l' => class_serialize k +:+ all l'
         end) kids +:+
      "</" +:+ tagName a +:+ ">"
  end.

(** A browser for plain text that also reads that one piece of markup. *)
Definition span_browser : Browser :=
  {| parseHTML := fun s =>
       if String.eqb s nested_message_markup
       then [Element {| tagName := "span"; classList := ["cdx-warning__message"];
                        contentEditable := "inherit"; placeholder := None;
                        backgroundColor := "" |} [Text "gap"]]
       else if String.eqb s "" then [] else [Text s];
     serializeHTML := fun l => String.concat "" (class_serialize <$> l);
     parseColor := fun s => Some s |}.

(** A block whose title holds that markup. *)
Definition nested_message_args : Host.ConstructorArgs :=
  {| Host.data := saved_block nested_message_markup "Handle with care";
     Host.config := VObject [];
     Host.api := editor_api;
     Host.readOnly := VBool false |}.

(** The data a typed block was saved with. *)
Definition saved_typed_block (type message : string) : value :=
  VObject [("type", VString type); ("message", VString message)].

(** A typed block one of whose recognized types holds a space. *)
Definition spaced_key_args : Host.ConstructorArgs :=
  {| Host.data := VObject [("message", VString "x")];
     Host.config := VObject [("typeColor", VObject [("info", VString "#eee");
                                                   ("high risk", VString "#f00")]);
                             ("defaultType", VString "info")];
     Host.api := editor_api;
     Host.readOnly := VBool false |}.

(** A class list without the class of any of the types [ks]. *)
Definition without_type_classes (ks : list string) (cl : list string) : list string :=
  List.filter
    (fun x => forallb (fun k => negb (String.eqb x ("cdx-warning-" +:+ k))) ks) cl.

(** The class list of an element of the settings strip after a click:
    the active marker [ac] is taken off when the element answers to the
    selector of [sb], and the clicked element gets it (back) at the end. *)
Definition click_classes (sb ac : string) (clicked : bool) (cl : list string)
  : list string :=
  let rest := if bool_decide (sb ∈ cl) then remove_token cl ac else cl in
  if clicked then add_token rest ac else rest.

(** The block of two recognized types, rendered in an empty document. *)
Definition two_types_session : option (TypedWarning.t * ref * store) :=
  match TypedWarning.render (H := plain_browser) two_types_adapter [] with
  | Ok (container, this1, st1) => Some (this1, container, st1)
  | Throw _ => None
  end.


(** * Properties *)

(** ** JavaScript helpers *)

Lemma get_total (v : value) (k : string) :
  nullish v = false -> exists w, get v k = Ok w.
Proof.
  destruct v; simpl; try discriminate; intros _; eauto.
  destruct (String.eqb k "length"); eauto.
Qed.

Lemma get_nullish_throws (v : value) (k : string) :
  nullish v = true -> get v k = Throw TypeError.
Proof. destruct v; simpl; congruence. Qed.

Lemma get_opt_total (v : value) (k : string) : exists w, get_opt v k = Ok w.
Proof.
  unfold get_opt. destruct (nullish v) eqn:E; eauto using get_total.
Qed.

Lemma or_falsy (a b : value) : truthy a = false -> logical_or a b = b.
Proof. unfold logical_or. intros ->. reflexivity. Qed.

Lemma or_truthy (a b : value) : truthy a = true -> logical_or a b = a.
Proof. unfold logical_or. intros ->. reflexivity. Qed.

Lemma or_string_defined (a : value) (s : string) :
  logical_or a (VString s) <> VUndefined.
Proof.
  unfold logical_or. destruct (truthy a) eqn:E; [intros -> | ]; discriminate.
Qed.

Lemma includes_spec (ks : list string) (v : value) :
  includes ks v = true <-> exists k, v = VString k /\ k ∈ ks.
Proof.
  destruct v; simpl; split; try discriminate; try (intros (k & ? & _); discriminate).
  - intros Hk. apply bool_decide_eq_true in Hk. eauto.
  - intros (k & [= ->] & Hk). apply bool_decide_eq_true. exact Hk.
Qed.

(** ** Construction *)

Section Construction.

Variable args : Host.ConstructorArgs.

Let data := Host.data args.
Let config := Host.config args.

(** [data.title] and [data.message] as the constructors read them. *)
Lemma data_fields :
  nullish data = false ->
  exists title message,
    get data "title" = Ok title /\ get data "message" = Ok message.
Proof.
  intros Hd.
  destruct (get_total data "title" Hd) as [t Ht].
  destruct (get_total data "message" Hd) as [m Hm]. eauto.
Qed.

Lemma Warning_constructor_ok :
  nullish data = false ->
  exists tp mp title message,
    get_opt config "titlePlaceholder" = Ok tp /\
    get_opt config "messagePlaceholder" = Ok mp /\
    get data "title" = Ok title /\
    get data "message" = Ok message /\
    Warning.constructor args =
      Ok {| Warning.api := Host.api args;
            Warning.readOnly := Host.readOnly args;
            Warning.titlePlaceholder := logical_or tp (VString "Title");
            Warning.messagePlaceholder := logical_or mp (VString "Message");
            Warning.data :=
              {| Warning.WarningData.title := logical_or title (VString "");
                 Warning.WarningData.message := logical_or message (VString "") |} |}.
Proof.
  intros Hd.
  destruct (data_fields Hd) as (t & m & Ht & Hm).
  destruct (get_opt_total config "titlePlaceholder") as [tp Htp].
  destruct (get_opt_total config "messagePlaceholder") as [mp Hmp].
  exists tp, mp, t, m. repeat split; try assumption.
  unfold Warning.constructor. fold data config.
  rewrite Htp, Hmp, Ht, Hm. reflexivity.
Qed.

Lemma Success_constructor_ok :
  nullish data = false ->
  nullish config = false ->
  exists tp mp title message,
    get config "titlePlaceholder" = Ok tp /\
    get config "messagePlaceholder" = Ok mp /\
    get data "title" = Ok title /\
    get data "message" = Ok message /\
    Success.constructor args =
      Ok {| Success.api := Host.api args;
            Success.titlePlaceholder := logical_or tp (VString "Title");
            Success.messagePlaceholder := logical_or mp (VString "Message");
            Success.data :=
              {| Success.SuccessData.title := logical_or title (VString "");
                 Success.SuccessData.message := logical_or message (VString "") |} |}.
Proof.
  intros Hd Hc.
  destruct (data_fields Hd) as (t & m & Ht & Hm).
  destruct (get_total config "titlePlaceholder" Hc) as [tp Htp].
  destruct (get_total config "messagePlaceholder" Hc) as [mp Hmp].
  exists tp, mp, t, m. repeat split; try assumption.
  unfold Success.constructor. fold data config.
  rewrite Htp, Hmp, Ht, Hm. reflexivity.
Qed.

Lemma TypedWarning_constructor_ok (typeColor : value) :
  nullish data = false ->
  get config "typeColor" = Ok typeColor ->
  nullish typeColor = false ->
  exists mp defaultType recognized type message,
    get config "messagePlaceholder" = Ok mp /\
    get config "defaultType" = Ok defaultType /\
    keys typeColor = Ok recognized /\
    get data "type" = Ok type /\
    get data "message" = Ok message /\
    TypedWarning.constructor args =
      Ok {| TypedWarning.api := Host.api args;
            TypedWarning.readOnly := Host.readOnly args;
            TypedWarning.messagePlaceholder := logical_or mp (VString "Message");
            TypedWarning.defaultType := defaultType;
            TypedWarning.config :=
              {| TypedWarning.Config.defaultType := defaultType;
                 TypedWarning.Config.typeColor := typeColor |};
            TypedWarning.data :=
              {| TypedWarning.WarningData.type :=
                   if includes recognized type then type else defaultType;
                 TypedWarning.WarningData.message := logical_or message (VString "") |};
            TypedWarning.background := None;
            TypedWarning.container := None |}.
Proof.
  intros Hd Htc Hn.
  assert (Hc : nullish config = false).
  { destruct config; simpl in *; congruence. }
  destruct (get_total data "type" Hd) as [ty Hty].
  destruct (get_total data "message" Hd) as [m Hm].
  destruct (get_total config "messagePlaceholder" Hc) as [mp Hmp].
  destruct (get_total config "defaultType" Hc) as [dt Hdt].
  assert (Hk : exists ks, keys typeColor = Ok ks).
  { destruct typeColor; simpl in *; try discriminate; eauto. }
  destruct Hk as [ks Hk].
  exists mp, dt, ks, ty, m. repeat split; try assumption.
  unfold TypedWarning.constructor. fold data config.
  rewrite Hmp, Hdt, Htc. simpl. rewrite Hk. simpl. rewrite Hty, Hm. reflexivity.
Qed.

End Construction.

Lemma or_normalized (v : value) : normalized v (logical_or v (VString "")).
Proof.
  repeat split; auto using or_falsy, or_truthy, or_string_defined.
Qed.

(** C5. Title-and-message constructors, data with [title] and/or [message]
    missing: construction returns, both fields are present in the internal
    data and every missing one is the empty string. [Warning] needs nothing
    of the configuration; [Success] reads [config.titlePlaceholder] first
    and so needs a configuration object. *)
Theorem constructor_missing_fields_are_empty (args : Host.ConstructorArgs) :
  nullish (Host.data args) = false ->
  (exists this, Warning.constructor args = Ok this /\
     let d := Warning.data this in
     (get (Host.data args) "title" = Ok VUndefined ->
        Warning.WarningData.title d = VString "") /\
     (get (Host.data args) "message" = Ok VUndefined ->
        Warning.WarningData.message d = VString "") /\
     Warning.WarningData.title d <> VUndefined /\
     Warning.WarningData.message d <> VUndefined) /\
  (nullish (Host.config args) = false ->
   exists this, Success.constructor args = Ok this /\
     let d := Success.data this in
     (get (Host.data args) "title" = Ok VUndefined ->
        Success.SuccessData.title d = VString "") /\
     (get (Host.data args) "message" = Ok VUndefined ->
        Success.SuccessData.message d = VString "") /\
     Success.SuccessData.title d <> VUndefined /\
     Success.SuccessData.message d <> VUndefined).
Proof.
  intros Hd. split.
  - destruct (Warning_constructor_ok args Hd)
      as (tp & mp & t & m & _ & _ & Ht & Hm & ->).
    eexists; split; [reflexivity | simpl].
    repeat split; try apply or_string_defined.
    + rewrite Ht. intros [= ->]. reflexivity.
    + rewrite Hm. intros [= ->]. reflexivity.
  - intros Hc.
    destruct (Success_constructor_ok args Hd Hc)
      as (tp & mp & t & m & _ & _ & Ht & Hm & ->).
    eexists; split; [reflexivity | simpl].
    repeat split; try apply or_string_defined.
    + rewrite Ht. intros [= ->]. reflexivity.
    + rewrite Hm. intros [= ->]. reflexivity.
Qed.

Lemma constructor_missing_fields_are_empty_witness :
  (exists this, Warning.constructor title_only_args = Ok this /\
     Warning.WarningData.message (Warning.data this) = VString "") /\
  (exists this, Success.constructor title_only_args = Ok this /\
     Success.SuccessData.message (Success.data this) = VString "").
Proof.
  destruct (constructor_missing_fields_are_empty title_only_args eq_refl)
    as [(w & Hw & _ & Hm & _) Hs].
  destruct (Hs eq_refl) as (s & Hs' & _ & Hm' & _).
  split; [exists w | exists s]; split; auto.
Defined.

(** C4. Typed constructor, a [typeColor] mapping configured and a supplied
    type that is none of its keys: the internal type is the configured
    [defaultType]. *)
Theorem typed_constructor_falls_back_to_defaultType
    (args : Host.ConstructorArgs) (typeColor : list (string * value))
    (supplied : value) :
  nullish (Host.data args) = false ->
  get (Host.config args) "typeColor" = Ok (VObject typeColor) ->
  get (Host.data args) "type" = Ok supplied ->
  (forall k, supplied = VString k -> k ∉ typeColor.*1) ->
  exists this defaultType,
    TypedWarning.constructor args = Ok this /\
    get (Host.config args) "defaultType" = Ok defaultType /\
    TypedWarning.WarningData.type (TypedWarning.data this) = defaultType.
Proof.
  intros Hd Htc Hty Hnot.
  destruct (TypedWarning_constructor_ok args (VObject typeColor) Hd Htc eq_refl)
    as (mp & dt & ks & ty & m & _ & Hdt & Hks & Hty' & _ & ->).
  simpl in Hks. injection Hks as <-.
  rewrite Hty in Hty'. injection Hty' as <-.
  eexists; exists dt. split; [reflexivity | split; [assumption | simpl]].
  destruct (includes (typeColor.*1) supplied) eqn:E; [ | reflexivity].
  apply includes_spec in E as (k & -> & Hk).
  exfalso. exact (Hnot k eq_refl Hk).
Qed.

Lemma typed_constructor_falls_back_to_defaultType_witness :
  exists this,
    TypedWarning.constructor danger_args = Ok this /\
    TypedWarning.WarningData.type (TypedWarning.data this) = VString "info".
Proof.
  destruct (typed_constructor_falls_back_to_defaultType danger_args
              [("info", VString "#eee")] (VString "danger")
              eq_refl eq_refl eq_refl) as (this & dt & Hc & Hdt & Hty).
  - intros k [= <-]. simpl. rewrite list_elem_of_singleton. discriminate.
  - exists this. split; [exact Hc | ].
    rewrite Hty. simpl in Hdt. injection Hdt as <-. reflexivity.
Defined.

(** A supplied type that is a key is kept. *)
Lemma typed_constructor_keeps_recognized
    (args : Host.ConstructorArgs) (typeColor : list (string * value)) (k : string) :
  nullish (Host.data args) = false ->
  get (Host.config args) "typeColor" = Ok (VObject typeColor) ->
  get (Host.data args) "type" = Ok (VString k) ->
  k ∈ typeColor.*1 ->
  exists this,
    TypedWarning.constructor args = Ok this /\
    TypedWarning.WarningData.type (TypedWarning.data this) = VString k.
Proof.
  intros Hd Htc Hty Hk.
  destruct (TypedWarning_constructor_ok args (VObject typeColor) Hd Htc eq_refl)
    as (mp & dt & ks & ty & m & _ & Hdt & Hks & Hty' & _ & ->).
  simpl in Hks. injection Hks as <-.
  rewrite Hty in Hty'. injection Hty' as <-.
  eexists. split; [reflexivity | simpl].
  rewrite bool_decide_eq_true_2 by assumption. reflexivity.
Qed.

(** ** The store under the DOM operations

    Every operation is stated on a store [st ++ ext]: [st] is the document
    as the adapter found it, [ext] the elements created since, addressed
    as [length st + i]. *)

Ltac step :=
  cbn [mbind result_bind mret result_ret fst snd List.length app
       lookup list_lookup insert list_insert].

Ltac bind_step := cbn [mbind result_bind mret result_ret].

Section Frame.

Context `{Browser}.
Variable st : store.

Lemma element_at_app (ext : store) (i : nat) :
  element_at (st ++ ext) (List.length st + i) =
  match ext !! i with Some e => Ok e | None => Throw TypeError end.
Proof.
  unfold element_at. rewrite lookup_app_r by lia.
  replace (List.length st + i - List.length st) with i by lia. reflexivity.
Qed.

Lemma update_app (ext : store) (i : nat) (f : element -> element) :
  update (List.length st + i) f (st ++ ext) =
  match ext !! i with
  | Some e => Ok (st ++ <[i := f e]> ext)
  | None => Throw TypeError
  end.
Proof.
  unfold update. rewrite element_at_app.
  destruct (ext !! i) eqn:E; simpl; [ | reflexivity].
  rewrite insert_app_r. reflexivity.
Qed.

Lemma forEach_validate (tokens : list string) :
  Forall valid_token tokens ->
  forEach (fun _ t => validate_token t) tokens tt = Ok tt.
Proof.
  induction 1 as [ | t ts Ht _ IH]; simpl; [reflexivity | ].
  rewrite Ht. exact IH.
Qed.

Lemma classList_add_app (tokens : list string) (ext : store) (i : nat) :
  Forall valid_token tokens ->
  classList_add tokens (List.length st + i) (st ++ ext) =
  match ext !! i with
  | Some e => Ok (st ++ <[i := with_tokens tokens e]> ext)
  | None => Throw TypeError
  end.
Proof.
  intros Hv. unfold classList_add. rewrite forEach_validate by assumption.
  apply update_app.
Qed.

Lemma classList_remove_app (t : string) (ext : store) (i : nat) :
  valid_token t ->
  classList_remove t (List.length st + i) (st ++ ext) =
  match ext !! i with
  | Some e =>
      Ok (st ++ <[i := with_attrs (with_classList (fun cl => remove_token cl t)) e]> ext)
  | None => Throw TypeError
  end.
Proof. intros Hv. unfold classList_remove. rewrite Hv. apply update_app. Qed.

Lemma set_innerHTML_app (v : value) (ext : store) (i : nat) :
  set_innerHTML (List.length st + i) v (st ++ ext) =
  match ext !! i with
  | Some e =>
      Ok (st ++ <[i := with_childNodes
                          (fun _ => Parsed <$> parseHTML (to_string_null_empty v)) e]> ext)
  | None => Throw TypeError
  end.
Proof. apply update_app. Qed.

Lemma set_placeholder_app (v : value) (ext : store) (i : nat) :
  set_placeholder (List.length st + i) v (st ++ ext) =
  match ext !! i with
  | Some e => Ok (st ++ <[i := with_attrs (with_placeholder (to_string v)) e]> ext)
  | None => Throw TypeError
  end.
Proof. apply update_app. Qed.

Lemma set_backgroundColor_app (v : value) (ext : store) (i : nat) :
  set_backgroundColor (List.length st + i) v (st ++ ext) =
  match ext !! i with
  | Some e => Ok (st ++ <[i := painted v e]> ext)
  | None => Throw TypeError
  end.
Proof.
  unfold set_backgroundColor, painted.
  destruct (String.eqb (to_string_null_empty v) ""); [apply update_app | ].
  destruct (parseColor (to_string_null_empty v)); [apply update_app | ].
  rewrite element_at_app. destruct (ext !! i) eqn:E; [ | reflexivity].
  step. rewrite list_insert_id by assumption. reflexivity.
Qed.

Lemma appendChild_app (ext : store) (i j : nat) :
  appendChild (List.length st + i) (List.length st + j) (st ++ ext) =
  match ext !! j with
  | Some _ =>
      match ext !! i with
      | Some e =>
          Ok (st ++ <[i := with_childNodes
                              (fun cs => cs ++ [Appended (List.length st + j)]) e]> ext)
      | None => Throw TypeError
      end
  | None => Throw TypeError
  end.
Proof.
  unfold appendChild. rewrite element_at_app.
  destruct (ext !! j); [ | reflexivity]. apply update_app.
Qed.

Lemma addClickListener_app (l : listener) (ext : store) (i : nat) :
  addClickListener (List.length st + i) l (st ++ ext) =
  match ext !! i with
  | Some e => Ok (st ++ <[i := with_clickListeners (fun ls => ls ++ [l]) e]> ext)
  | None => Throw TypeError
  end.
Proof. apply update_app. Qed.

Lemma set_property_app (attrName : string) (v : value) (ext : store) (i : nat)
    (e : element) :
  ext !! i = Some e ->
  set_property (List.length st + i) attrName v (st ++ ext) =
  e' ← property_on attrName v e; Ok (st ++ <[i := e']> ext).
Proof.
  intros He. unfold set_property, property_on.
  destruct (String.eqb attrName "contentEditable").
  - unfold set_contentEditable. case_bool_decide; [ | reflexivity].
    rewrite update_app, He. reflexivity.
  - destruct (String.eqb attrName "innerHTML").
    + rewrite set_innerHTML_app, He. reflexivity.
    + rewrite element_at_app, He. step.
      rewrite list_insert_id by assumption. reflexivity.
Qed.

Lemma forEach_set_property (attributes : list (string * value)) :
  forall (ext : store) (e : element),
    forEach (fun st' '(attrName, v) =>
               set_property (List.length st + List.length ext) attrName v st')
      attributes (st ++ (ext ++ [e])) =
    e' ← forEach (fun e '(attrName, v) => property_on attrName v e) attributes e;
    Ok (st ++ (ext ++ [e'])).
Proof.
  induction attributes as [ | [n v] rest IH]; intros ext e; [reflexivity | ].
  cbn [forEach].
  rewrite (set_property_app n v (ext ++ [e]) (List.length ext) e).
  2:{ rewrite lookup_app_r by lia. rewrite Nat.sub_diag. reflexivity. }
  destruct (property_on n v e) as [e1 | err]; [ | reflexivity]. step.
  rewrite insert_app_r_alt by lia. rewrite Nat.sub_diag. cbn [insert list_insert].
  apply IH.
Qed.

(** [_make] appends exactly one element and touches nothing else. *)
Lemma _make_app (tag : string) (tokens : list string)
    (attributes : list (string * value)) (ext : store) :
  Forall valid_token tokens ->
  _make tag (ClassArray tokens) attributes (st ++ ext) =
  e ← made tag tokens attributes;
  Ok (List.length st + List.length ext, st ++ (ext ++ [e])).
Proof.
  intros Hv. unfold _make, createElement, made.
  rewrite length_app, <- app_assoc.
  step. rewrite classList_add_app by assumption.
  rewrite lookup_app_r by lia. rewrite Nat.sub_diag. step.
  rewrite insert_app_r_alt by lia. rewrite Nat.sub_diag. cbn [insert list_insert].
  rewrite forEach_set_property.
  destruct (forEach _ attributes _); reflexivity.
Qed.

Lemma _make_base (tag : string) (tokens : list string)
    (attributes : list (string * value)) :
  Forall valid_token tokens ->
  _make tag (ClassArray tokens) attributes st =
  e ← made tag tokens attributes; Ok (List.length st + 0, st ++ [e]).
Proof.
  intros Hv. rewrite <- (app_nil_r st) at 1. rewrite _make_app by assumption.
  reflexivity.
Qed.

Lemma made_plain (tag : string) (tokens : list string) :
  made tag tokens [] = Ok (with_tokens tokens (new_element tag)).
Proof. reflexivity. Qed.

Lemma made_region (tag : string) (tokens : list string) (b : bool) (v : value) :
  made tag tokens [("contentEditable", VBool b); ("innerHTML", v)] =
  Ok (with_childNodes (fun _ => Parsed <$> parseHTML (to_string_null_empty v))
        (with_attrs (with_contentEditable (editable b))
           (with_tokens tokens (new_element tag)))).
Proof. destruct b; reflexivity. Qed.

Lemma made_html (tag : string) (tokens : list string) (v : value) :
  made tag tokens [("innerHTML", v)] =
  Ok (with_childNodes (fun _ => Parsed <$> parseHTML (to_string_null_empty v))
        (with_tokens tokens (new_element tag))).
Proof. reflexivity. Qed.

End Frame.

(** ** Class lists *)

Lemma elem_of_add_token (cl : list string) (t c : string) :
  c ∈ add_token cl t <-> c ∈ cl \/ c = t.
Proof.
  unfold add_token. case_bool_decide as Ht.
  - split; [auto | intros [? | ->]; assumption].
  - rewrite elem_of_app, list_elem_of_singleton. reflexivity.
Qed.

Lemma elem_of_add_tokens (tokens : list string) :
  forall (cl : list string) (c : string),
    c ∈ foldl add_token cl tokens <-> c ∈ cl \/ c ∈ tokens.
Proof.
  induction tokens as [ | t ts IH]; intros cl c; simpl.
  - rewrite elem_of_nil. tauto.
  - rewrite IH, elem_of_add_token, elem_of_cons. tauto.
Qed.

Lemma elem_of_remove_token (cl : list string) (t c : string) :
  c ∈ remove_token cl t <-> c ∈ cl /\ c <> t.
Proof.
  unfold remove_token. rewrite list_elem_of_In, filter_In, <- list_elem_of_In.
  rewrite negb_true_iff, String.eqb_neq. reflexivity.
Qed.


Lemma has_whitespace_app (a b : string) :
  has_whitespace (a +:+ b) = has_whitespace a || has_whitespace b.
Proof.
  induction a as [ | c a IH]; simpl; [reflexivity | ].
  rewrite IH, orb_assoc. reflexivity.
Qed.

Lemma valid_token_wrapperForType (s : string) :
  has_whitespace s = false -> valid_token ("cdx-warning-" +:+ s).
Proof.
  intros Hs. unfold valid_token, validate_token.
  rewrite has_whitespace_app, Hs. reflexivity.
Qed.

Lemma valid_token_no_whitespace (t : string) :
  valid_token t -> has_whitespace t = false.
Proof.
  unfold valid_token, validate_token.
  destruct (String.eqb t ""); [discriminate | ].
  destruct (has_whitespace t); [discriminate | reflexivity].
Qed.

(** ** What [render] builds *)

Section Rendering.

Context `{Browser}.
Variable st : store.

Lemma Warning_render_spec (this : Warning.t) :
  valid_token (Host.block (Host.styles (Warning.api this))) ->
  valid_token (Host.input (Host.styles (Warning.api this))) ->
  Warning.render this st =
  Ok (List.length st,
      st ++ [container_element
               [Host.block (Host.styles (Warning.api this)); "cdx-warning"]
               [List.length st + 1; List.length st + 2];
             region_element
               [Host.input (Host.styles (Warning.api this)); "cdx-warning__title"]
               (negb (truthy (Warning.readOnly this)))
               (Warning.WarningData.title (Warning.data this))
               (Warning.titlePlaceholder this);
             region_element
               [Host.input (Host.styles (Warning.api this)); "cdx-warning__message"]
               (negb (truthy (Warning.readOnly this)))
               (Warning.WarningData.message (Warning.data this))
               (Warning.messagePlaceholder this)]).
Proof.
  intros Hb Hi.
  unfold Warning.render, logical_not.
  cbn [Warning.CSS Warning.WarningCSS.baseClass Warning.WarningCSS.wrapper
       Warning.WarningCSS.title Warning.WarningCSS.input
       Warning.WarningCSS.message].
  rewrite _make_base by (repeat constructor; assumption).
  rewrite made_plain. step.
  rewrite _make_app by (repeat constructor; assumption).
  rewrite made_region. step.
  rewrite _make_app by (repeat constructor; assumption).
  rewrite made_region. step.
  rewrite set_placeholder_app. step.
  rewrite set_placeholder_app. step.
  rewrite appendChild_app. step.
  rewrite appendChild_app. step.
  rewrite Nat.add_0_r. reflexivity.
Qed.

Lemma Success_render_spec (this : Success.t) :
  valid_token (Host.block (Host.styles (Success.api this))) ->
  valid_token (Host.input (Host.styles (Success.api this))) ->
  Success.render this st =
  Ok (List.length st,
      st ++ [container_element
               [Host.block (Host.styles (Success.api this)); "cdx-success"]
               [List.length st + 1; List.length st + 2];
             region_element
               [Host.input (Host.styles (Success.api this)); "cdx-success__title"]
               true
               (Success.SuccessData.title (Success.data this))
               (Success.titlePlaceholder this);
             region_element
               [Host.input (Host.styles (Success.api this)); "cdx-success__message"]
               true
               (Success.SuccessData.message (Success.data this))
               (Success.messagePlaceholder this)]).
Proof.
  intros Hb Hi.
  unfold Success.render.
  cbn [Success.CSS Success.SuccessCSS.baseClass Success.SuccessCSS.wrapper
       Success.SuccessCSS.title Success.SuccessCSS.input
       Success.SuccessCSS.message].
  rewrite _make_base by (repeat constructor; assumption).
  rewrite made_plain. step.
  rewrite _make_app by (repeat constructor; assumption).
  rewrite made_region. step.
  rewrite _make_app by (repeat constructor; assumption).
  rewrite made_region. step.
  rewrite set_placeholder_app. step.
  rewrite set_placeholder_app. step.
  rewrite appendChild_app. step.
  rewrite appendChild_app. step.
  rewrite Nat.add_0_r. reflexivity.
Qed.

(** The typed variant creates the message region, the background and the
    container, in that order, and keeps the last two. *)
Lemma TypedWarning_render_spec (this : TypedWarning.t) (colorCode : value) :
  let type := TypedWarning.WarningData.type (TypedWarning.data this) in
  has_whitespace (to_string type) = false ->
  get (TypedWarning.Config.typeColor (TypedWarning.config this)) (to_string type)
    = Ok colorCode ->
  TypedWarning.render this st =
  Ok (List.length st + 2,
      TypedWarning.set_elements (Some (List.length st + 1))
        (Some (List.length st + 2)) this,
      st ++ [region_element ["cdx-warning__message"]
               (negb (truthy (TypedWarning.readOnly this)))
               (TypedWarning.WarningData.message (TypedWarning.data this))
               (TypedWarning.messagePlaceholder this);
             (if truthy type then painted colorCode else id)
               (with_tokens ["bg"] (new_element "div"));
             container_element
               ["cdx-warning"; "cdx-warning-" +:+ to_string type]
               [List.length st + 1; List.length st + 0]]).
Proof.
  intros type Hws Hcolor.
  unfold TypedWarning.render, logical_not.
  cbn [TypedWarning.CSS TypedWarning.WarningCSS.wrapper
       TypedWarning.WarningCSS.wrapperForType TypedWarning.WarningCSS.message
       TypedWarning.WarningCSS.background].
  fold type.
  rewrite _make_base by (repeat constructor).
  rewrite made_region. step.
  rewrite _make_app by (repeat constructor).
  rewrite made_plain. step.
  rewrite set_placeholder_app. step.
  rewrite _make_app
    by (repeat constructor; auto using valid_token_wrapperForType).
  rewrite made_plain. step.
  rewrite appendChild_app. step.
  rewrite appendChild_app. step.
  destruct (truthy type).
  - rewrite Hcolor. step. rewrite set_backgroundColor_app. step. reflexivity.
  - step. reflexivity.
Qed.

End Rendering.

(** ** Reading a rendered block back *)

Section Reading.

Context `{Browser}.
Variable st : store.

Lemma lookup_base (e : element) (ext : store) :
  (st ++ e :: ext) !! List.length st = Some e.
Proof. rewrite lookup_app_r by lia. rewrite Nat.sub_diag. reflexivity. Qed.

Lemma lookup_ext (ext : store) (i : nat) :
  (st ++ ext) !! (List.length st + i) = ext !! i.
Proof.
  rewrite lookup_app_r by lia.
  replace (List.length st + i - List.length st) with i by lia. reflexivity.
Qed.

Lemma subtree_parsed (fuel : nat) (st' : store) (e : element) (l : list node) :
  childNodes e = Parsed <$> l -> subtree fuel st' e = l.
Proof.
  intros He.
  assert (Hflat : forall (f : child -> list node) (l0 : list node),
             (forall n, f (Parsed n) = [n]) -> flat_map f (Parsed <$> l0) = l0).
  { intros f l0 Hf. induction l0 as [ | n l' IH]; simpl; [reflexivity | ].
    rewrite Hf. simpl. f_equal. exact IH. }
  destruct fuel; simpl; rewrite He; apply Hflat; reflexivity.
Qed.

Lemma subtree_empty (fuel : nat) (st' : store) (e : element) :
  childNodes e = [] -> subtree fuel st' e = [].
Proof. apply (subtree_parsed fuel st' e []). Qed.

Lemma subtree_pair (fuel : nat) (st' : store) (e ea eb : element) (a b : ref) :
  childNodes e = [Appended a; Appended b] ->
  st' !! a = Some ea ->
  st' !! b = Some eb ->
  subtree (S fuel) st' e =
  [Element (attrs ea) (subtree fuel st' ea); Element (attrs eb) (subtree fuel st' eb)].
Proof. intros He Ha Hb. simpl. rewrite He. simpl. rewrite Ha, Hb. reflexivity. Qed.

Lemma find_class_element (c : string) (a : attributes) (kids : list node) :
  find_class c (Element a kids) =
  if has_class c a then Some (Element a kids) else find_class_in c kids.
Proof.
  simpl. destruct (has_class c a); [reflexivity | ].
  induction kids as [ | k kids IH]; simpl; [reflexivity | ].
  destruct (find_class c k); [reflexivity | exact IH].
Qed.

Lemma children_of_rendered (e ea eb : element) (i j : nat) (ext : store) :
  childNodes e = [Appended (List.length st + i); Appended (List.length st + j)] ->
  (e :: ext) !! i = Some ea ->
  (e :: ext) !! j = Some eb ->
  children_of (st ++ e :: ext) (List.length st) = [ea; eb].
Proof.
  intros He Ha Hb. unfold children_of.
  rewrite lookup_base, He. simpl. rewrite !lookup_ext, Ha, Hb. reflexivity.
Qed.

(** What [querySelector] sees below a container holding two elements. *)
Lemma querySelector_pair (c : string) (e ea eb : element) (i j : nat) (ext : store) :
  css_ident c = true ->
  childNodes e = [Appended (List.length st + i); Appended (List.length st + j)] ->
  (e :: ext) !! i = Some ea ->
  (e :: ext) !! j = Some eb ->
  querySelector ("." +:+ c) (List.length st) (st ++ e :: ext) =
  Ok (find_class_in c
        [Element (attrs ea) (subtree (List.length st + List.length ext)
                               (st ++ e :: ext) ea);
         Element (attrs eb) (subtree (List.length st + List.length ext)
                               (st ++ e :: ext) eb)]).
Proof.
  intros Hc He Ha Hb. unfold querySelector.
  change ("." +:+ c) with (String "." c). cbn [class_selector]. rewrite Hc. step.
  unfold element_at. rewrite lookup_base. step.
  rewrite length_app. cbn [List.length]. rewrite Nat.add_succ_r.
  erewrite subtree_pair; [reflexivity | eassumption | | ].
  - rewrite lookup_ext. exact Ha.
  - rewrite lookup_ext. exact Hb.
Qed.

End Reading.

(** ** [save] *)

Section Saving.

Context `{Browser}.

Lemma class_selector_literal (c : string) :
  css_ident c = true -> class_selector ("." +:+ c) = Ok c.
Proof. intros Hc. change ("." +:+ c) with (String "." c). simpl. rewrite Hc. reflexivity. Qed.

Lemma querySelector_total (c : string) (root : ref) (st : store) :
  css_ident c = true ->
  is_Some (st !! root) ->
  exists found, querySelector ("." +:+ c) root st = Ok found.
Proof.
  intros Hc [e He]. unfold querySelector, element_at.
  rewrite class_selector_literal by assumption. rewrite He. simpl. eauto.
Qed.

(** The TypeScript [save] returns whatever the element holds. *)
Lemma Warning_save_reads (this : Warning.t) (root : ref) (st : store) :
  is_Some (st !! root) ->
  exists title message,
    querySelector ("." +:+ "cdx-warning__title") root st = Ok title /\
    querySelector ("." +:+ "cdx-warning__message") root st = Ok message /\
    let d := {| Warning.WarningData.title :=
                  coalesce (innerHTML_opt title) (VString "");
                Warning.WarningData.message :=
                  coalesce (innerHTML_opt message) (VString "") |} in
    Warning.save this root st =
    Ok (d, {| Warning.api := Warning.api this; Warning.data := d;
              Warning.readOnly := Warning.readOnly this;
              Warning.titlePlaceholder := Warning.titlePlaceholder this;
              Warning.messagePlaceholder := Warning.messagePlaceholder this |}).
Proof.
  intros Hroot.
  destruct (querySelector_total "cdx-warning__title" root st eq_refl Hroot)
    as [qt Hqt].
  destruct (querySelector_total "cdx-warning__message" root st eq_refl Hroot)
    as [qm Hqm].
  exists qt, qm. repeat split; try assumption.
  unfold Warning.save.
  cbn [Warning.CSS Warning.WarningCSS.title Warning.WarningCSS.message].
  rewrite Hqt. step. rewrite Hqm. reflexivity.
Qed.

Lemma coalesce_innerHTML_opt (found : option node) :
  coalesce (innerHTML_opt found) (VString "") =
  VString (match found with Some n => node_innerHTML n | None => "" end).
Proof. destruct found; reflexivity. Qed.

(** The JavaScript [save] of [Success] reads [innerHTML] off the result of
    each query without a test. *)
Lemma Success_save_reads (this : Success.t) (root : ref) (st : store)
    (title message : option node) :
  querySelector ("." +:+ "cdx-success__title") root st = Ok title ->
  querySelector ("." +:+ "cdx-success__message") root st = Ok message ->
  Success.save this root st =
  match title, message with
  | Some t, Some m =>
      let d := {| Success.SuccessData.title := VString (node_innerHTML t);
                  Success.SuccessData.message := VString (node_innerHTML m) |} in
      Ok (d, {| Success.api := Success.api this;
                Success.titlePlaceholder := Success.titlePlaceholder this;
                Success.messagePlaceholder := Success.messagePlaceholder this;
                Success.data := d |})
  | _, _ => Throw TypeError
  end.
Proof.
  intros Hqt Hqm. unfold Success.save.
  cbn [Success.CSS Success.SuccessCSS.title Success.SuccessCSS.message].
  rewrite Hqt. step. rewrite Hqm. step.
  destruct title, message; reflexivity.
Qed.

(** So does the [save] of the typed variant, which leaves [this] alone. *)
Lemma TypedWarning_save_reads (this : TypedWarning.t) (root : ref) (st : store)
    (message : option node) :
  querySelector ("." +:+ "cdx-warning__message") root st = Ok message ->
  TypedWarning.save this root st =
  match message with
  | Some m =>
      Ok ({| TypedWarning.WarningData.type :=
               TypedWarning.WarningData.type (TypedWarning.data this);
             TypedWarning.WarningData.message := VString (node_innerHTML m) |},
          this)
  | None => Throw TypeError
  end.
Proof.
  intros Hqm. unfold TypedWarning.save.
  cbn [TypedWarning.CSS TypedWarning.WarningCSS.message].
  rewrite Hqm. step. destruct message; reflexivity.
Qed.

End Saving.

(** ** [render] followed by [save] *)

Section RoundTrip.

Context `{Browser}.

Lemma has_class_region (c : string) (tokens : list string) (ce : bool)
    (content placeholder : value) :
  has_class c (attrs (region_element tokens ce content placeholder)) =
  bool_decide (c ∈ tokens).
Proof.
  unfold has_class. simpl. apply bool_decide_ext.
  rewrite elem_of_add_tokens, elem_of_nil. tauto.
Qed.

Lemma subtree_region (fuel : nat) (st : store) (tokens : list string) (ce : bool)
    (content placeholder : value) :
  subtree fuel st (region_element tokens ce content placeholder) =
  parseHTML (to_string_null_empty content).
Proof. apply subtree_parsed. reflexivity. Qed.


End RoundTrip.




(** C1 (what the code does where the claim fails). On an element holding
    neither sub-element, the TypeScript [save] returns two empty strings;
    the [save] of [Success] and the [save] of the typed variant throw a
    [TypeError]. *)
Theorem save_on_element_without_regions `{Browser} :
  (exists this d this',
     Warning.constructor title_only_args = Ok this /\
     Warning.save this 0 bare_div = Ok (d, this') /\
     d = {| Warning.WarningData.title := VString "";
            Warning.WarningData.message := VString "" |}) /\
  (exists this,
     Success.constructor title_only_args = Ok this /\
     Success.save this 0 bare_div = Throw TypeError) /\
  (exists this,
     TypedWarning.constructor danger_args = Ok this /\
     TypedWarning.save this 0 bare_div = Throw TypeError).
Proof.
  repeat split; repeat eexists; reflexivity.
Qed.


(** C9. Each class declares a sanitizer policy whose properties are the
    fields of the data its [save] returns, each mapped to the empty object. *)
Theorem sanitize_strips_every_saved_field :
  (forall d, keys Success.sanitize = keys (Success.SuccessData.to_value d)) /\
  strips_all_tags Success.sanitize /\
  (forall d, keys Warning.sanitize = keys (Warning.WarningData.to_value d)) /\
  strips_all_tags Warning.sanitize /\
  (forall d, keys TypedWarning.sanitize = keys (TypedWarning.WarningData.to_value d)) /\
  strips_all_tags TypedWarning.sanitize.
Proof.
  repeat split; simpl; repeat constructor.
Qed.

(** C7 (counterexample). The typed constructor throws when the
    configuration has no [typeColor]. *)
Lemma typed_constructor_without_typeColor_throws :
  get (Host.config no_typeColor_args) "typeColor" = Ok VUndefined /\
  TypedWarning.constructor no_typeColor_args = Throw TypeError.
Proof. split; reflexivity. Qed.

(** C7 (amended). Construction returns, with the fallback values, for every
    input whose data is not [null] or [undefined]: [Warning] whatever the
    configuration; the typed variant when the configuration holds a
    [typeColor] that is not [null] or [undefined]; [Success] when the
    configuration is not [null] or [undefined]. *)
Theorem constructors_fall_back_without_throwing (args : Host.ConstructorArgs) :
  nullish (Host.data args) = false ->
  (exists this title message,
     Warning.constructor args = Ok this /\
     get (Host.data args) "title" = Ok title /\
     get (Host.data args) "message" = Ok message /\
     normalized title (Warning.WarningData.title (Warning.data this)) /\
     normalized message (Warning.WarningData.message (Warning.data this))) /\
  (forall typeColor,
     get (Host.config args) "typeColor" = Ok typeColor ->
     nullish typeColor = false ->
     exists this recognized type defaultType message,
       TypedWarning.constructor args = Ok this /\
       keys typeColor = Ok recognized /\
       get (Host.data args) "type" = Ok type /\
       get (Host.config args) "defaultType" = Ok defaultType /\
       get (Host.data args) "message" = Ok message /\
       TypedWarning.WarningData.type (TypedWarning.data this) =
         (if includes recognized type then type else defaultType) /\
       normalized message
         (TypedWarning.WarningData.message (TypedWarning.data this))) /\
  (nullish (Host.config args) = false ->
   exists this title message,
     Success.constructor args = Ok this /\
     get (Host.data args) "title" = Ok title /\
     get (Host.data args) "message" = Ok message /\
     normalized title (Success.SuccessData.title (Success.data this)) /\
     normalized message (Success.SuccessData.message (Success.data this))).
Proof.
  intros Hd. split; [ | split].
  - destruct (Warning_constructor_ok args Hd)
      as (tp & mp & t & m & _ & _ & Ht & Hm & ->).
    eexists; exists t, m. split; [reflexivity | ].
    split; [exact Ht | ]. split; [exact Hm | ]. split; apply or_normalized.
  - intros tc Htc Hn.
    destruct (TypedWarning_constructor_ok args tc Hd Htc Hn)
      as (mp & dt & ks & ty & m & _ & Hdt & Hks & Hty & Hm & ->).
    eexists; exists ks, ty, dt, m. split; [reflexivity | ].
    repeat (split; [assumption | ]). split; [reflexivity | apply or_normalized].
  - intros Hc.
    destruct (Success_constructor_ok args Hd Hc)
      as (tp & mp & t & m & _ & _ & Ht & Hm & ->).
    eexists; exists t, m. split; [reflexivity | ].
    split; [exact Ht | ]. split; [exact Hm | ]. split; apply or_normalized.
Qed.

Lemma constructors_fall_back_without_throwing_witness :
  (exists this,
     Warning.constructor title_only_args = Ok this /\
     Warning.WarningData.message (Warning.data this) = VString "") /\
  (exists this,
     TypedWarning.constructor danger_args = Ok this /\
     TypedWarning.WarningData.type (TypedWarning.data this) = VString "info") /\
  (exists this,
     Success.constructor title_only_args = Ok this /\
     Success.SuccessData.message (Success.data this) = VString "").
Proof.
  destruct (constructors_fall_back_without_throwing title_only_args eq_refl)
    as ((w & t & m & Hw & _ & Hm & _ & Hnm & _) & _ & Hs).
  destruct (constructors_fall_back_without_throwing danger_args eq_refl)
    as (_ & Ht & _).
  destruct (Ht (VObject [("info", VString "#eee")]) eq_refl eq_refl)
    as (tw & ks & ty & dt & m' & Htw & Hks & Hty & Hdt & _ & Htype & _).
  destruct (Hs eq_refl) as (sw & t' & m'' & Hsw & _ & Hm'' & _ & Hnm' & _).
  simpl in Hm, Hks, Hty, Hdt, Hm''.
  injection Hm as <-. injection Hks as <-. injection Hty as <-.
  injection Hdt as <-. injection Hm'' as <-.
  split; [ | split].
  - exists w. split; [exact Hw | exact (Hnm eq_refl)].
  - exists tw. split; [exact Htw | exact Htype].
  - exists sw. split; [exact Hsw | exact (Hnm' eq_refl)].
Defined.


(** ** Editability of the rendered regions *)

Section Editability.

Context `{Browser}.
Variable st : store.

Lemma TypedWarning_get_color (this : TypedWarning.t) (k : string) :
  nullish (TypedWarning.Config.typeColor (TypedWarning.config this)) = false ->
  exists colorCode,
    get (TypedWarning.Config.typeColor (TypedWarning.config this)) k = Ok colorCode.
Proof. apply get_total. Qed.

Lemma Warning_regions (this : Warning.t) :
  valid_token (Host.block (Host.styles (Warning.api this))) ->
  valid_token (Host.input (Host.styles (Warning.api this))) ->
  exists container st' title message,
    Warning.render this st = Ok (container, st') /\
    children_of st' container = [title; message] /\
    has_class "cdx-warning__title" (attrs title) = true /\
    has_class "cdx-warning__message" (attrs message) = true /\
    contentEditable (attrs title) = editable (negb (truthy (Warning.readOnly this))) /\
    contentEditable (attrs message) = editable (negb (truthy (Warning.readOnly this))) /\
    placeholder (attrs title) = Some (to_string (Warning.titlePlaceholder this)) /\
    placeholder (attrs message) = Some (to_string (Warning.messagePlaceholder this)).
Proof.
  intros Hb Hi. do 4 eexists.
  split; [apply Warning_render_spec; assumption | ].
  split; [eapply children_of_rendered; reflexivity | ].
  rewrite !has_class_region.
  repeat split; try reflexivity; apply bool_decide_eq_true_2;
    rewrite !elem_of_cons; auto.
Qed.

Lemma Success_regions (this : Success.t) :
  valid_token (Host.block (Host.styles (Success.api this))) ->
  valid_token (Host.input (Host.styles (Success.api this))) ->
  exists container st' title message,
    Success.render this st = Ok (container, st') /\
    children_of st' container = [title; message] /\
    has_class "cdx-success__title" (attrs title) = true /\
    has_class "cdx-success__message" (attrs message) = true /\
    contentEditable (attrs title) = "true" /\
    contentEditable (attrs message) = "true" /\
    placeholder (attrs title) = Some (to_string (Success.titlePlaceholder this)) /\
    placeholder (attrs message) = Some (to_string (Success.messagePlaceholder this)).
Proof.
  intros Hb Hi. do 4 eexists.
  split; [apply Success_render_spec; assumption | ].
  split; [eapply children_of_rendered; reflexivity | ].
  rewrite !has_class_region.
  repeat split; try reflexivity; apply bool_decide_eq_true_2;
    rewrite !elem_of_cons; auto.
Qed.

Lemma TypedWarning_regions (this : TypedWarning.t) :
  has_whitespace (to_string (TypedWarning.WarningData.type (TypedWarning.data this)))
    = false ->
  nullish (TypedWarning.Config.typeColor (TypedWarning.config this)) = false ->
  exists container this' st' background message,
    TypedWarning.render this st = Ok (container, this', st') /\
    children_of st' container = [background; message] /\
    has_class "cdx-warning__message" (attrs message) = true /\
    contentEditable (attrs message) =
      editable (negb (truthy (TypedWarning.readOnly this))).
Proof.
  intros Hws Hn.
  destruct (TypedWarning_get_color this
              (to_string (TypedWarning.WarningData.type (TypedWarning.data this))) Hn)
    as [colorCode Hcolor].
  do 5 eexists.
  split; [apply TypedWarning_render_spec; eassumption | ].
  split.
  - unfold children_of.
    rewrite (lookup_ext st _ 2). cbn [lookup list_lookup].
    cbn [container_element with_childNodes childNodes fmap list_fmap omap list_omap].
    rewrite !lookup_ext. reflexivity.
  - rewrite has_class_region. split; [ | reflexivity].
    apply bool_decide_eq_true_2. rewrite !elem_of_cons; auto.
Qed.

End Editability.

(** C2 (counterexample). A typed block constructed with the read-only flag
    set: the message region [render] produces is not editable. *)
Lemma typed_message_region_honours_readOnly :
  exists this container this' st' background message,
    TypedWarning.constructor readonly_typed_args = Ok this /\
    TypedWarning.readOnly this = VBool true /\
    TypedWarning.render (H := plain_browser) this [] = Ok (container, this', st') /\
    children_of st' container = [background; message] /\
    has_class "cdx-warning__message" (attrs message) = true /\
    contentEditable (attrs message) = "false" /\
    contentEditable (attrs message) <> "true".
Proof.
  do 6 eexists. repeat split; try reflexivity. discriminate.
Qed.

(** The other half fails on [Success]: it takes no read-only flag and its
    regions are editable whatever the host passes. *)
Lemma success_regions_ignore_readOnly :
  exists this container st' title message,
    Success.constructor readonly_args = Ok this /\
    Success.render (H := plain_browser) this [] = Ok (container, st') /\
    children_of st' container = [title; message] /\
    contentEditable (attrs title) = "true" /\
    contentEditable (attrs message) = "true".
Proof.
  do 5 eexists. repeat split; reflexivity.
Qed.

(** C2 (amended). [Warning] and the typed variant make each region they
    render editable exactly when the read-only flag is falsy, so a set flag
    makes the title and message regions of [Warning] and the message region
    of the typed variant non-editable; [Success] reads no flag and renders
    both regions editable. *)
Theorem readOnly_decides_editability `{Browser} (st : store) :
  (forall this : Warning.t,
     valid_token (Host.block (Host.styles (Warning.api this))) ->
     valid_token (Host.input (Host.styles (Warning.api this))) ->
     exists container st' title message,
       Warning.render this st = Ok (container, st') /\
       children_of st' container = [title; message] /\
       has_class "cdx-warning__title" (attrs title) = true /\
       has_class "cdx-warning__message" (attrs message) = true /\
       contentEditable (attrs title) =
         (if truthy (Warning.readOnly this) then "false" else "true") /\
       contentEditable (attrs message) =
         (if truthy (Warning.readOnly this) then "false" else "true")) /\
  (forall this : TypedWarning.t,
     has_whitespace
       (to_string (TypedWarning.WarningData.type (TypedWarning.data this))) = false ->
     nullish (TypedWarning.Config.typeColor (TypedWarning.config this)) = false ->
     exists container this' st' background message,
       TypedWarning.render this st = Ok (container, this', st') /\
       children_of st' container = [background; message] /\
       has_class "cdx-warning__message" (attrs message) = true /\
       contentEditable (attrs message) =
         (if truthy (TypedWarning.readOnly this) then "false" else "true")) /\
  (forall this : Success.t,
     valid_token (Host.block (Host.styles (Success.api this))) ->
     valid_token (Host.input (Host.styles (Success.api this))) ->
     exists container st' title message,
       Success.render this st = Ok (container, st') /\
       children_of st' container = [title; message] /\
       has_class "cdx-success__title" (attrs title) = true /\
       has_class "cdx-success__message" (attrs message) = true /\
       contentEditable (attrs title) = "true" /\
       contentEditable (attrs message) = "true").
Proof.
  split; [ | split].
  - intros this Hb Hi.
    destruct (Warning_regions st this Hb Hi)
      as (c & st' & t & m & Hr & Hk & Ht & Hm & Het & Hem & _).
    exists c, st', t, m. rewrite Het, Hem.
    repeat split; try assumption; destruct (truthy (Warning.readOnly this)); reflexivity.
  - intros this Hws Hn.
    destruct (TypedWarning_regions st this Hws Hn)
      as (c & this' & st' & b & m & Hr & Hk & Hm & Hem).
    exists c, this', st', b, m. rewrite Hem.
    repeat split; try assumption.
    destruct (truthy (TypedWarning.readOnly this)); reflexivity.
  - intros this Hb Hi.
    destruct (Success_regions st this Hb Hi)
      as (c & st' & t & m & Hr & Hk & Ht & Hm & Het & Hem & _).
    exists c, st', t, m. repeat split; assumption.
Qed.

Lemma readOnly_decides_editability_witness :
  (exists this container st' title message,
     Warning.constructor readonly_args = Ok this /\
     Warning.render (H := plain_browser) this [] = Ok (container, st') /\
     children_of st' container = [title; message] /\
     contentEditable (attrs title) = "false" /\
     contentEditable (attrs message) = "false") /\
  (exists this container this' st' background message,
     TypedWarning.constructor readonly_typed_args = Ok this /\
     TypedWarning.render (H := plain_browser) this [] = Ok (container, this', st') /\
     children_of st' container = [background; message] /\
     contentEditable (attrs message) = "false") /\
  (exists this container st' title message,
     Success.constructor readonly_args = Ok this /\
     Success.render (H := plain_browser) this [] = Ok (container, st') /\
     children_of st' container = [title; message] /\
     contentEditable (attrs title) = "true" /\
     contentEditable (attrs message) = "true").
Proof.
  destruct (readOnly_decides_editability (H := plain_browser) []) as (HW & HT & HS).
  split; [ | split].
  - eexists. 
    edestruct HW as (c & st' & t & m & Hr & Hk & _ & _ & Het & Hem);
      [ | | exists c, st', t, m;
            split; [reflexivity | split; [exact Hr | split; [exact Hk | ]]];
            split; [exact Het | exact Hem]]; reflexivity.
  - eexists.
    edestruct HT as (c & this' & st' & b & m & Hr & Hk & _ & Hem);
      [ | | exists c, this', st', b, m;
            split; [reflexivity | split; [exact Hr | split; [exact Hk | exact Hem]]]];
      reflexivity.
  - eexists.
    edestruct HS as (c & st' & t & m & Hr & Hk & _ & _ & Het & Hem);
      [ | | exists c, st', t, m;
            split; [reflexivity | split; [exact Hr | split; [exact Hk | ]]];
            split; [exact Het | exact Hem]]; reflexivity.
Defined.


(** ** Placeholders *)

Lemma get_opt_of_get (v : value) (k : string) (w : value) :
  get v k = Ok w -> get_opt v k = Ok w.
Proof.
  unfold get_opt. destruct (nullish v) eqn:E; [ | auto].
  rewrite get_nullish_throws by assumption. discriminate.
Qed.

Lemma get_not_nullish (v : value) (k : string) (w : value) :
  get v k = Ok w -> nullish v = false.
Proof. destruct v; simpl; congruence. Qed.

(** C10. A configured placeholder that is the empty string is replaced by
    the built-in one: the adapter holds "Title" (resp. "Message") and
    [render] puts that on the region. *)
Theorem empty_placeholder_is_replaced_by_default `{Browser}
    (args : Host.ConstructorArgs) (st : store) :
  nullish (Host.data args) = false ->
  valid_token (Host.block (Host.styles (Host.api args))) ->
  valid_token (Host.input (Host.styles (Host.api args))) ->
  (get (Host.config args) "titlePlaceholder" = Ok (VString "") ->
   (exists this container st' title message,
      Warning.constructor args = Ok this /\
      Warning.titlePlaceholder this = VString "Title" /\
      Warning.render this st = Ok (container, st') /\
      children_of st' container = [title; message] /\
      placeholder (attrs title) = Some "Title") /\
   (exists this container st' title message,
      Success.constructor args = Ok this /\
      Success.titlePlaceholder this = VString "Title" /\
      Success.render this st = Ok (container, st') /\
      children_of st' container = [title; message] /\
      placeholder (attrs title) = Some "Title")) /\
  (get (Host.config args) "messagePlaceholder" = Ok (VString "") ->
   (exists this container st' title message,
      Warning.constructor args = Ok this /\
      Warning.messagePlaceholder this = VString "Message" /\
      Warning.render this st = Ok (container, st') /\
      children_of st' container = [title; message] /\
      placeholder (attrs message) = Some "Message") /\
   (exists this container st' title message,
      Success.constructor args = Ok this /\
      Success.messagePlaceholder this = VString "Message" /\
      Success.render this st = Ok (container, st') /\
      children_of st' container = [title; message] /\
      placeholder (attrs message) = Some "Message")).
Proof.
  intros Hd Hb Hi.
  destruct (Warning_constructor_ok args Hd)
    as (tp & mp & t & m & Htp & Hmp & _ & _ & HW).
  split; intros Hcfg;
    pose proof (get_not_nullish _ _ _ Hcfg) as Hc;
    destruct (Success_constructor_ok args Hd Hc)
      as (tp' & mp' & t' & m' & Htp' & Hmp' & _ & _ & HS);
    pose proof (get_opt_of_get _ _ _ Hcfg) as Hcfg'.
  - rewrite Hcfg' in Htp. injection Htp as <-.
    rewrite Hcfg in Htp'. injection Htp' as <-.
    split.
    + edestruct (Warning_regions st) as (c & st' & et & em & Hr & Hk & _ & _ & _ & _ & Hp & _);
        [ | | eexists; exists c, st', et, em;
              split; [exact HW | split; [reflexivity | ]];
              split; [exact Hr | split; [exact Hk | exact Hp]]]; assumption.
    + edestruct (Success_regions st) as (c & st' & et & em & Hr & Hk & _ & _ & _ & _ & Hp & _);
        [ | | eexists; exists c, st', et, em;
              split; [exact HS | split; [reflexivity | ]];
              split; [exact Hr | split; [exact Hk | exact Hp]]]; assumption.
  - rewrite Hcfg' in Hmp. injection Hmp as <-.
    rewrite Hcfg in Hmp'. injection Hmp' as <-.
    split.
    + edestruct (Warning_regions st) as (c & st' & et & em & Hr & Hk & _ & _ & _ & _ & _ & Hp);
        [ | | eexists; exists c, st', et, em;
              split; [exact HW | split; [reflexivity | ]];
              split; [exact Hr | split; [exact Hk | exact Hp]]]; assumption.
    + edestruct (Success_regions st) as (c & st' & et & em & Hr & Hk & _ & _ & _ & _ & _ & Hp);
        [ | | eexists; exists c, st', et, em;
              split; [exact HS | split; [reflexivity | ]];
              split; [exact Hr | split; [exact Hk | exact Hp]]]; assumption.
Qed.

Lemma empty_placeholder_is_replaced_by_default_witness :
  (exists this container st' title message,
     Warning.constructor readonly_args = Ok this /\
     Warning.render (H := plain_browser) this [] = Ok (container, st') /\
     children_of st' container = [title; message] /\
     placeholder (attrs title) = Some "Title" /\
     placeholder (attrs message) = Some "Message") /\
  (exists this container st' title message,
     Success.constructor readonly_args = Ok this /\
     Success.render (H := plain_browser) this [] = Ok (container, st') /\
     children_of st' container = [title; message] /\
     placeholder (attrs title) = Some "Title" /\
     placeholder (attrs message) = Some "Message").
Proof.
  destruct (empty_placeholder_is_replaced_by_default (H := plain_browser)
              readonly_args [] eq_refl eq_refl eq_refl) as (Ht & Hm).
  destruct (Ht eq_refl) as ((w & c & st' & t & m & Hw & _ & Hr & Hk & Hp) &
                            (s & c' & st'' & t' & m' & Hs & _ & Hr' & Hk' & Hp')).
  split.
  - exists w, c, st', t, m. repeat split; try assumption.
    + injection Hw as <-. vm_compute in Hr, Hk. injection Hr as <- <-.
      injection Hk as <- <-. reflexivity.
  - exists s, c', st'', t', m'. repeat split; try assumption.
    + injection Hs as <-. vm_compute in Hr', Hk'. injection Hr' as <- <-.
      injection Hk' as <- <-. reflexivity.
Defined.

(** The typed variant treats its message placeholder the same way. *)
Lemma typed_message_placeholder_default
    (args : Host.ConstructorArgs) (typeColor : value) :
  nullish (Host.data args) = false ->
  get (Host.config args) "typeColor" = Ok typeColor ->
  nullish typeColor = false ->
  get (Host.config args) "messagePlaceholder" = Ok (VString "") ->
  exists this,
    TypedWarning.constructor args = Ok this /\
    TypedWarning.messagePlaceholder this = VString "Message".
Proof.
  intros Hd Htc Hn Hmp.
  destruct (TypedWarning_constructor_ok args typeColor Hd Htc Hn)
    as (mp & dt & ks & ty & m & Hmp' & _ & _ & _ & _ & ->).
  rewrite Hmp in Hmp'. injection Hmp' as <-.
  eexists. split; reflexivity.
Qed.


(** ** What [save] does to the adapter *)

(** C8 (counterexample). A typed block rendered with message "x", the
    message region then edited to "y": [save] returns "y" and the adapter
    still holds "x". *)
Lemma typed_save_leaves_internal_message :
  exists this container this1 st1 st2 d this2,
    TypedWarning.constructor danger_args = Ok this /\
    TypedWarning.render (H := plain_browser) this [] = Ok (container, this1, st1) /\
    set_innerHTML (H := plain_browser) 0 (VString "y") st1 = Ok st2 /\
    TypedWarning.save (H := plain_browser) this1 container st2 = Ok (d, this2) /\
    TypedWarning.WarningData.message d = VString "y" /\
    TypedWarning.WarningData.message (TypedWarning.data this2) = VString "x".
Proof.
  do 7 eexists. repeat split; reflexivity.
Qed.

(** C8 (amended). [save] of [Warning] and of [Success] writes the values it
    read into the adapter's data and returns that data; [save] of the typed
    variant returns the internal type with the message it read and leaves
    the adapter, message included, as it was. *)
Theorem save_writes_internal_data_except_typed `{Browser} (root : ref) (st : store) :
  is_Some (st !! root) ->
  (forall this : Warning.t,
     exists title message d this',
       querySelector ("." +:+ "cdx-warning__title") root st = Ok title /\
       querySelector ("." +:+ "cdx-warning__message") root st = Ok message /\
       Warning.save this root st = Ok (d, this') /\
       Warning.data this' = d /\
       Warning.WarningData.title d =
         VString (match title with Some n => node_innerHTML n | None => "" end) /\
       Warning.WarningData.message d =
         VString (match message with Some n => node_innerHTML n | None => "" end) /\
       Warning.api this' = Warning.api this /\
       Warning.readOnly this' = Warning.readOnly this /\
       Warning.titlePlaceholder this' = Warning.titlePlaceholder this /\
       Warning.messagePlaceholder this' = Warning.messagePlaceholder this) /\
  (forall (this : Success.t) (title message : node),
     querySelector ("." +:+ "cdx-success__title") root st = Ok (Some title) ->
     querySelector ("." +:+ "cdx-success__message") root st = Ok (Some message) ->
     exists d this',
       Success.save this root st = Ok (d, this') /\
       Success.data this' = d /\
       Success.SuccessData.title d = VString (node_innerHTML title) /\
       Success.SuccessData.message d = VString (node_innerHTML message) /\
       Success.api this' = Success.api this /\
       Success.titlePlaceholder this' = Success.titlePlaceholder this /\
       Success.messagePlaceholder this' = Success.messagePlaceholder this) /\
  (forall (this : TypedWarning.t) (message : node),
     querySelector ("." +:+ "cdx-warning__message") root st = Ok (Some message) ->
     exists d,
       TypedWarning.save this root st = Ok (d, this) /\
       TypedWarning.WarningData.type d =
         TypedWarning.WarningData.type (TypedWarning.data this) /\
       TypedWarning.WarningData.message d = VString (node_innerHTML message)).
Proof.
  intros Hroot. split; [ | split].
  - intros this.
    destruct (Warning_save_reads this root st Hroot) as (qt & qm & Hqt & Hqm & Hs).
    cbv zeta in Hs. rewrite !coalesce_innerHTML_opt in Hs.
    exists qt, qm. do 2 eexists.
    split; [exact Hqt | split; [exact Hqm | split; [exact Hs | ]]].
    repeat split.
  - intros this t m Hqt Hqm.
    rewrite (Success_save_reads this root st _ _ Hqt Hqm).
    do 2 eexists. repeat split.
  - intros this m Hqm.
    rewrite (TypedWarning_save_reads this root st _ Hqm).
    eexists. repeat split.
Qed.

Lemma save_writes_internal_data_except_typed_witness :
  (exists this container st,
     typed_session = Some (this, container, st) /\
     exists d,
       TypedWarning.save (H := plain_browser) this container st = Ok (d, this) /\
       TypedWarning.WarningData.message d = VString "y") /\
  (exists this container st,
     success_session = Some (this, container, st) /\
     exists d this',
       Success.save (H := plain_browser) this container st = Ok (d, this') /\
       Success.data this' = d /\
       Success.SuccessData.title d = VString "Note").
Proof.
  split.
  - do 3 eexists. split; [vm_compute; reflexivity | ].
    match goal with
    | |- exists d, TypedWarning.save ?a ?r ?s = _ /\ _ =>
        destruct (save_writes_internal_data_except_typed (H := plain_browser) r s)
          as (_ & _ & HT); [eexists; vm_compute; reflexivity | ];
        edestruct (HT a) as (d & Hs & _ & Hm); [vm_compute; reflexivity | ]
    end.
    exists d. split; [exact Hs | exact Hm].
  - do 3 eexists. split; [vm_compute; reflexivity | ].
    match goal with
    | |- exists d this', Success.save ?a ?r ?s = _ /\ _ =>
        destruct (save_writes_internal_data_except_typed (H := plain_browser) r s)
          as (_ & HS & _); [eexists; vm_compute; reflexivity | ];
        edestruct (HS a) as (d & this' & Hs & Hd & Ht & _);
          [vm_compute; reflexivity | vm_compute; reflexivity | ]
    end.
    exists d, this'. split; [exact Hs | split; [exact Hd | exact Ht]].
Defined.

(** ** The settings strip and the type switch *)

Section Established.
Context `{Browser}.

Lemma imap_const_seq {A B : Type} (f : nat -> B) (l : list A) :
  imap (fun i _ => f i) l = f <$> seq 0 (List.length l).
Proof.
  revert f. induction l as [ | x l IH]; intros f; [reflexivity | ].
  rewrite imap_cons. cbn [List.length seq fmap list_fmap]. f_equal.
  rewrite <- fmap_S_seq, <- list_fmap_compose. apply (IH (f ∘ S)).
Qed.

Lemma settings_controls_fst (first : ref) (ks : list string) :
  (settings_controls first ks).*1 = ks.
Proof.
  unfold settings_controls. revert first.
  induction ks as [ | k ks IH]; intros first; [reflexivity | ].
  rewrite imap_cons. cbn [fmap list_fmap fst]. f_equal.
  rewrite <- (IH (S first)) at 2. f_equal. apply imap_ext. intros i x _. cbn.
  f_equal. lia.
Qed.

Lemma settings_controls_snd (first : ref) (ks : list string) :
  (settings_controls first ks).*2 = (fun i => first + i) <$> seq 0 (List.length ks).
Proof.
  rewrite <- imap_const_seq. unfold settings_controls. revert first.
  induction ks as [ | k ks IH]; intros first; [reflexivity | ].
  rewrite !imap_cons. cbn [fmap list_fmap snd]. f_equal.
  etransitivity; [ | etransitivity; [apply (IH (S first)) | ] ].
  - f_equal. apply imap_ext. intros i x _. cbn. f_equal. lia.
  - apply imap_ext. intros i x _. cbn. lia.
Qed.

Lemma elem_of_settings_controls (first : ref) (ks : list string) (k : string) (r : ref) :
  (k, r) ∈ settings_controls first ks <->
  exists i, ks !! i = Some k /\ r = first + i.
Proof.
  unfold settings_controls. rewrite elem_of_lookup_imap. split.
  - intros (i & y & [= -> ->] & Hy). eauto.
  - intros (i & Hi & ->). exists i, k. auto.
Qed.

Lemma NoDup_settings_refs (L n : nat) :
  NoDup (L + 2 :: L + 1 :: L + 3 :: L + 3 + 1
           :: ((fun i => L + 3 + 2 + i) <$> seq 0 n)).
Proof.
  repeat (apply NoDup_cons; split;
          [rewrite ?elem_of_cons, list_elem_of_fmap;
           intros Hx; repeat (destruct Hx as [Hx | Hx]; [lia | ]);
           destruct Hx as (i & Hi & _); lia | ]).
  apply NoDup_fmap; [intros i j; lia | apply NoDup_seq].
Qed.

Lemma is_leaf_parsed (e : element) (l : list node) :
  childNodes e = Parsed <$> l -> is_leaf e = true.
Proof.
  unfold is_leaf. intros ->. induction l as [ | n l IH]; [reflexivity | exact IH].
Qed.

Lemma settings_button_facts (this : TypedWarning.t) (sc r : ref) (k : string) :
  let e := settings_button this sc r k in
  is_leaf e = true /\
  clickListeners e = [ {| captured_type := k; captured_settingsContainer := sc;
                          captured_settingsButton := r |} ] /\
  has_class (Host.settingsButton (Host.styles (TypedWarning.api this))) (attrs e) = true.
Proof.
  unfold settings_button.
  destruct (strict_eq_string _ k); cbn zeta.
  - split; [eapply is_leaf_parsed; reflexivity | split; [reflexivity | ]].
    unfold has_class. apply bool_decide_eq_true_2.
    apply (elem_of_add_tokens [_]). left.
    apply (elem_of_add_tokens [_; _; _]). right. left.
  - split; [eapply is_leaf_parsed; reflexivity | split; [reflexivity | ]].
    unfold has_class. apply bool_decide_eq_true_2.
    apply (elem_of_add_tokens [_; _; _]). right. left.
Qed.
End Established.

Section Settings.
Context `{Browser}.
Variable this : TypedWarning.t.
Variable st : store.
Let api := Host.styles (TypedWarning.api this).
Hypothesis Hsb : valid_token (Host.settingsButton api).
Hypothesis Hac : valid_token (Host.settingsButtonActive api).

Lemma lookup_last (ext : store) (e : element) :
  (ext ++ [e]) !! List.length ext = Some e.
Proof. rewrite lookup_app_r by lia. rewrite Nat.sub_diag. reflexivity. Qed.

Lemma insert_last (ext : store) (e e' : element) :
  <[List.length ext := e']> (ext ++ [e]) = ext ++ [e'].
Proof. rewrite insert_app_r_alt by lia. rewrite Nat.sub_diag. reflexivity. Qed.

Lemma appendChild_base (e0 : element) (rest : store) (j : nat) :
  is_Some ((e0 :: rest) !! j) ->
  appendChild (List.length st) (List.length st + j) (st ++ e0 :: rest) =
  Ok (st ++ with_childNodes (fun cs => cs ++ [Appended (List.length st + j)]) e0 :: rest).
Proof.
  intros [e He].
  rewrite <- (Nat.add_0_r (List.length st)) at 1.
  rewrite appendChild_app, He. reflexivity.
Qed.

Lemma renderSettings_each_spec (e0 : element) (rest : store) (k : string) :
  has_whitespace k = false ->
  TypedWarning.renderSettings_each this (List.length st) (st ++ e0 :: rest) k =
  Ok (st ++ with_childNodes
              (fun cs => cs ++ [Appended (List.length st + S (List.length rest))]) e0
            :: rest ++
            [settings_button this (List.length st)
               (List.length st + S (List.length rest)) k]).
Proof.
  intros Hk. unfold TypedWarning.renderSettings_each.
  cbn [TypedWarning.CSS TypedWarning.WarningCSS.settingsButton
       TypedWarning.WarningCSS.wrapper TypedWarning.WarningCSS.wrapperForType
       TypedWarning.WarningCSS.settingsButtonActive to_string].
  fold api.
  rewrite _make_app
    by (repeat constructor; auto using valid_token_wrapperForType).
  rewrite made_html. bind_step.
  assert (Hstep : forall e : element,
    addClickListener (List.length st + List.length (e0 :: rest))
      {| captured_type := k; captured_settingsContainer := List.length st;
         captured_settingsButton := List.length st + List.length (e0 :: rest) |}
      (st ++ (e0 :: rest) ++ [e])
    ≫= appendChild (List.length st) (List.length st + List.length (e0 :: rest)) =
    Ok (st ++ with_childNodes
                (fun cs => cs ++ [Appended (List.length st + S (List.length rest))]) e0
              :: rest ++
              [with_clickListeners
                 (fun ls => ls ++ [ {| captured_type := k;
                        captured_settingsContainer := List.length st;
                        captured_settingsButton := List.length st + S (List.length rest) |} ]) e])).
  { intros e. rewrite addClickListener_app, lookup_last, insert_last. bind_step.
    change ((e0 :: rest) ++ ?l) with (e0 :: (rest ++ l)).
    rewrite appendChild_base; [reflexivity | ].
    change (e0 :: (rest ++ ?l)) with ((e0 :: rest) ++ l).
    rewrite lookup_last. eauto. }
  unfold settings_button. fold api.
  destruct (strict_eq_string _ k) eqn:E.
  - rewrite classList_add_app by (repeat constructor; assumption).
    rewrite lookup_last, insert_last. bind_step. apply Hstep.
  - bind_step. apply Hstep.
Qed.
Lemma with_childNodes_twice (f g : list child -> list child) (e : element) :
  with_childNodes g (with_childNodes f e) = with_childNodes (fun cs => g (f cs)) e.
Proof. reflexivity. Qed.

Lemma with_childNodes_ext (f g : list child -> list child) (e : element) :
  f (childNodes e) = g (childNodes e) -> with_childNodes f e = with_childNodes g e.
Proof. unfold with_childNodes. intros ->. reflexivity. Qed.

Lemma renderSettings_loop (ks : list string) :
  forall (e0 : element) (rest : store),
    Forall (fun k => has_whitespace k = false) ks ->
    forEach (TypedWarning.renderSettings_each this (List.length st)) ks
      (st ++ e0 :: rest) =
    Ok (st ++ with_childNodes
                (fun cs => cs ++ (Appended <$>
                   imap (fun i _ => List.length st + S (List.length rest + i)) ks)) e0
              :: rest ++
              imap (fun i k => settings_button this (List.length st)
                                 (List.length st + S (List.length rest + i)) k) ks).
Proof.
  induction ks as [ | k ks IH]; intros e0 rest Hks.
  - cbn [forEach imap fmap list_fmap]. rewrite app_nil_r.
    f_equal. f_equal. f_equal. destruct e0. unfold with_childNodes. cbn.
    rewrite app_nil_r. reflexivity.
  - inversion Hks as [ | ? ? Hk Hks']; subst.
    cbn [forEach]. rewrite renderSettings_each_spec by assumption. bind_step.
    rewrite IH by assumption.
    rewrite with_childNodes_twice. rewrite !imap_cons.
    rewrite length_app. cbn [List.length].
    rewrite <- app_assoc. cbn [app].
    rewrite !Nat.add_0_r.
    do 3 f_equal.
    + apply with_childNodes_ext. rewrite <- app_assoc. cbn [app fmap list_fmap].
      do 3 f_equal. apply imap_ext. intros i x _. cbn. f_equal. lia.
    + do 2 f_equal. apply imap_ext. intros i x _. cbn. f_equal. lia.
Qed.

Lemma TypedWarning_renderSettings_spec (ps : list (string * value)) :
  TypedWarning.Config.typeColor (TypedWarning.config this) = VObject ps ->
  Forall (fun k => has_whitespace k = false) ps.*1 ->
  TypedWarning.renderSettings this st =
  Ok (List.length st,
      st ++ container_element ["settingsButton-wrapper"]
              (List.length st + 1 :: (settings_controls (List.length st + 2) ps.*1).*2)
            :: settings_title this
            :: imap (fun i k => settings_button this (List.length st)
                                  (List.length st + 2 + i) k) ps.*1).
Proof.
  intros Hps Hks. unfold TypedWarning.renderSettings.
  cbn [TypedWarning.CSS TypedWarning.WarningCSS.settingsContainer
       TypedWarning.WarningCSS.title].
  rewrite _make_base by (repeat constructor).
  rewrite made_plain. step.
  rewrite _make_app by (repeat constructor).
  rewrite made_plain. step.
  rewrite set_innerHTML_app. step.
  rewrite appendChild_app. step.
  rewrite Hps. cbn [keys]. bind_step. rewrite Nat.add_0_r.
  rewrite renderSettings_loop by assumption. bind_step.
  cbn [app List.length]. do 3 f_equal. f_equal; [ | f_equal].
  - unfold container_element. rewrite with_childNodes_twice.
    apply with_childNodes_ext. cbn [app fmap list_fmap]. do 2 f_equal.
    rewrite settings_controls_snd, <- imap_const_seq.
    apply imap_ext. intros i x _. cbn. lia.
  - apply imap_ext. intros i x _. cbn. f_equal. lia.
Qed.
End Settings.

Section Pointwise.
Context `{Browser}.

Lemma update_lookup (st : store) (r : ref) (e : element) (f : element -> element) :
  st !! r = Some e -> update r f st = Ok (<[r := f e]> st).
Proof. intros He. unfold update, element_at. rewrite He. reflexivity. Qed.

Lemma classList_remove_lookup (st : store) (r : ref) (e : element) (t : string) :
  valid_token t -> st !! r = Some e ->
  classList_remove t r st =
  Ok (<[r := with_classes (remove_token (classList (attrs e)) t) e]> st).
Proof.
  intros Ht He. unfold classList_remove. rewrite Ht. bind_step.
  rewrite (update_lookup _ _ _ _ He). reflexivity.
Qed.

Lemma classList_add_lookup (st : store) (r : ref) (e : element) (t : string) :
  valid_token t -> st !! r = Some e ->
  classList_add [t] r st =
  Ok (<[r := with_classes (add_token (classList (attrs e)) t) e]> st).
Proof.
  intros Ht He. unfold classList_add. cbn [forEach]. rewrite Ht. bind_step.
  rewrite (update_lookup _ _ _ _ He). reflexivity.
Qed.

Lemma set_backgroundColor_lookup (st : store) (r : ref) (e : element) (v : value) :
  st !! r = Some e ->
  set_backgroundColor r v st = Ok (<[r := painted v e]> st).
Proof.
  intros He. unfold set_backgroundColor, painted.
  destruct (String.eqb (to_string_null_empty v) "");
    [apply update_lookup; assumption | ].
  destruct (parseColor (to_string_null_empty v));
    [apply update_lookup; assumption | ].
  unfold element_at. rewrite He. bind_step.
  rewrite list_insert_id by assumption. reflexivity.
Qed.

Lemma lookup_insert_same (st : store) (r : ref) (e e' : element) :
  st !! r = Some e -> <[r := e']> st !! r = Some e'.
Proof. intros He. apply list_lookup_insert_eq. eapply lookup_lt_Some; eassumption. Qed.
End Pointwise.

Section Retype.
Context `{Browser}.
Variable this : TypedWarning.t.
Variable ps : list (string * value).
Variables c b : ref.
Variable newType : string.
Hypothesis Hps : TypedWarning.Config.typeColor (TypedWarning.config this) = VObject ps.
Hypothesis Hc : TypedWarning.container this = Some c.
Hypothesis Hb : TypedWarning.background this = Some b.
Hypothesis Hcb : c <> b.

Lemma changeAlertType_each_spec (st : store) (ec eb : element) (k : string) :
  has_whitespace k = false ->
  st !! c = Some ec ->
  st !! b = Some eb ->
  TypedWarning._changeAlertType_each this newType st k =
  Ok (<[b := retype_color newType ps eb k]>
        (<[c := with_classes (retype_class newType (classList (attrs ec)) k) ec]> st)).
Proof.
  intros Hk Hec Heb. unfold TypedWarning._changeAlertType_each.
  cbn [TypedWarning.CSS TypedWarning.WarningCSS.wrapperForType to_string].
  rewrite Hc. cbn [TypedWarning.element_field]. bind_step.
  rewrite (classList_remove_lookup _ _ _ _ (valid_token_wrapperForType _ Hk) Hec).
  bind_step. unfold retype_class, retype_color.
  case_bool_decide as E.
  - erewrite classList_add_lookup;
      [ | apply valid_token_wrapperForType; assumption
        | eapply lookup_insert_same; eassumption ].
    bind_step. rewrite list_insert_insert_eq.
    rewrite Hps. cbn [get]. bind_step. rewrite Hb. cbn [TypedWarning.element_field].
    bind_step.
    erewrite set_backgroundColor_lookup; [reflexivity | ].
    rewrite list_lookup_insert_ne by assumption. exact Heb.
  - rewrite (list_insert_id _ b eb); [reflexivity | ].
    rewrite list_lookup_insert_ne by assumption. exact Heb.
Qed.

Lemma changeAlertType_loop (ks : list string) :
  forall (st : store) (ec eb : element),
    Forall (fun k => has_whitespace k = false) ks ->
    st !! c = Some ec ->
    st !! b = Some eb ->
    forEach (TypedWarning._changeAlertType_each this newType) ks st =
    Ok (<[b := foldl (retype_color newType ps) eb ks]>
          (<[c := with_classes (foldl (retype_class newType) (classList (attrs ec)) ks)
                    ec]> st)).
Proof.
  induction ks as [ | k ks IH]; intros st ec eb Hks Hec Heb.
  - cbn [forEach foldl]. f_equal.
    rewrite (list_insert_id _ b eb).
    + rewrite list_insert_id; [reflexivity | ]. rewrite Hec. destruct ec as [[] ? ?]; reflexivity.
    + rewrite list_lookup_insert_ne by assumption. exact Heb.
  - inversion Hks as [ | ? ? Hk Hks']; subst.
    cbn [forEach foldl]. rewrite (changeAlertType_each_spec st ec eb) by assumption.
    bind_step.
    erewrite IH; [ | assumption | | ].
    2:{ rewrite list_lookup_insert_ne by auto. eapply lookup_insert_same; eassumption. }
    2:{ apply list_lookup_insert_eq. rewrite length_insert.
        eapply lookup_lt_Some; eassumption. }
    f_equal.
    rewrite (list_insert_insert_ne _ c b) by assumption.
    rewrite !list_insert_insert_eq. reflexivity.
Qed.
End Retype.


Section RetypeFacts.
Context `{Browser}.
Variable newType : string.

Lemma wrapperForType_inj (a b : string) :
  "cdx-warning-" +:+ a = "cdx-warning-" +:+ b -> a = b.
Proof. intros E. unfold String.append in E. simpl in E. congruence. Qed.

Lemma elem_of_retype_class (cl : list string) (k x : string) :
  x ∈ retype_class newType cl k <->
  (x = "cdx-warning-" +:+ newType /\ newType = k) \/
  (x ∈ cl /\ x <> "cdx-warning-" +:+ k).
Proof.
  unfold retype_class. case_bool_decide as E.
  - subst k. rewrite elem_of_add_token, elem_of_remove_token. tauto.
  - rewrite elem_of_remove_token. tauto.
Qed.

Lemma elem_of_retyped (ks : list string) :
  forall (cl : list string) (x : string),
    x ∈ foldl (retype_class newType) cl ks <->
    (x = "cdx-warning-" +:+ newType /\ newType ∈ ks) \/
    (x ∈ cl /\ forall k, k ∈ ks -> x <> "cdx-warning-" +:+ k).
Proof.
  induction ks as [ | k ks IH]; intros cl x; cbn [foldl].
  - split; [intros Hx; right; split; [exact Hx | intros k Hk; inversion Hk] | ].
    intros [[_ Hin] | [Hx _]]; [inversion Hin | exact Hx].
  - rewrite IH, elem_of_retype_class. split.
    + intros [[-> Hin] | [[[-> ->] | [Hx Hne]] Hall]].
      * left. split; [reflexivity | right; exact Hin].
      * left. split; [reflexivity | left].
      * right. split; [exact Hx | ]. intros k' Hk'. inversion Hk'; subst; auto.
    + intros [[-> Hin] | [Hx Hall]].
      * destruct (decide (newType ∈ ks)) as [Hks | Hks]; [left; auto | ].
        right. split.
        -- left. split; [reflexivity | ].
           inversion Hin; subst; [reflexivity | contradiction].
        -- intros k' Hk' E. apply wrapperForType_inj in E. subst k'. contradiction.
      * right. split.
        -- right. split; [exact Hx | apply Hall; left].
        -- intros k' Hk'. apply Hall. right. exact Hk'.
Qed.

Lemma retyped_color_absent (ps : list (string * value)) (ks : list string) :
  forall e : element, newType ∉ ks -> foldl (retype_color newType ps) e ks = e.
Proof.
  induction ks as [ | k ks IH]; intros e Hnot; cbn [foldl]; [reflexivity | ].
  rewrite not_elem_of_cons in Hnot. destruct Hnot as [Hne Hnot].
  unfold retype_color at 2. rewrite bool_decide_eq_false_2 by assumption.
  apply IH. exact Hnot.
Qed.

Lemma retyped_color (ps : list (string * value)) (ks : list string) :
  forall e : element,
    NoDup ks -> newType ∈ ks ->
    foldl (retype_color newType ps) e ks =
    painted (default VUndefined (assoc newType ps)) e.
Proof.
  induction ks as [ | k ks IH]; intros e Hnd Hin; [inversion Hin | ].
  apply NoDup_cons in Hnd as [Hk Hnd]. cbn [foldl].
  destruct (decide (newType = k)) as [E | Hne].
  - subst k. unfold retype_color at 2. rewrite bool_decide_eq_true_2 by reflexivity.
    apply retyped_color_absent. exact Hk.
  - unfold retype_color at 2. rewrite bool_decide_eq_false_2 by assumption.
    apply IH; [exact Hnd | ]. inversion Hin; subst; [contradiction | assumption].
Qed.

Lemma painted_accepts (v : value) (colour : string) (e : element) :
  accepts v colour -> backgroundColor (attrs (painted v e)) = colour.
Proof.
  intros [Hne Hc]. unfold painted.
  destruct (String.eqb_spec (to_string_null_empty v) ""); [contradiction | ].
  rewrite Hc. reflexivity.
Qed.

Lemma painted_structure (v : value) (e : element) :
  childNodes (painted v e) = childNodes e /\
  clickListeners (painted v e) = clickListeners e /\
  classList (attrs (painted v e)) = classList (attrs e).
Proof.
  unfold painted. destruct (String.eqb _ ""); [repeat split | ].
  destruct (parseColor _); repeat split.
Qed.
End RetypeFacts.

Section Strip.
Context `{Browser}.

Lemma descendants_leaf (fuel : nat) (st : store) (r : ref) (e : element) :
  st !! r = Some e -> is_leaf e = true -> descendants fuel st r = [].
Proof.
  intros He Hleaf. destruct fuel; [reflexivity | ]. cbn [descendants]. rewrite He.
  unfold is_leaf in Hleaf. induction (childNodes e) as [ | ch l IH]; [reflexivity | ].
  cbn [forallb] in Hleaf. apply andb_true_iff in Hleaf as [Hch Hl].
  destruct ch; [ | discriminate]. cbn [flat_map app]. auto.
Qed.

Lemma descendants_strip (st : store) (sc title : ref) (refs : list ref) (e : element) :
  st !! sc = Some e ->
  childNodes e = Appended title :: (Appended <$> refs) ->
  (exists et, st !! title = Some et /\ is_leaf et = true) ->
  (forall r, r ∈ refs -> exists er, st !! r = Some er /\ is_leaf er = true) ->
  descendants (List.length st) st sc = title :: refs.
Proof.
  intros He Hkids (et & Het & Hlt) Hrefs.
  pose proof (lookup_lt_Some _ _ _ He) as Hlen.
  destruct (List.length st) as [ | fuel]; [lia | ].
  cbn [descendants]. rewrite He, Hkids.
  cbn [flat_map]. rewrite (descendants_leaf _ _ _ _ Het Hlt). cbn [app]. f_equal.
  clear Hkids. induction refs as [ | r refs IH]; [reflexivity | ].
  cbn [fmap list_fmap flat_map].
  destruct (Hrefs r) as (er & Her & Hlr); [left | ].
  rewrite (descendants_leaf _ _ _ _ Her Hlr). cbn [app]. f_equal.
  apply IH. intros r' Hr'. apply Hrefs. right. exact Hr'.
Qed.

Lemma unhighlight (t : string) (refs : list ref) :
  forall st : store,
    valid_token t ->
    NoDup refs ->
    (forall r, r ∈ refs -> is_Some (st !! r)) ->
    exists st',
      forEach (fun st r => classList_remove t r st) refs st = Ok st' /\
      forall r,
        st' !! r =
        if bool_decide (r ∈ refs)
        then (fun e => with_classes (remove_token (classList (attrs e)) t) e) <$> st !! r
        else st !! r.
Proof.
  induction refs as [ | r0 refs IH]; intros st Ht Hnd Hall.
  - exists st. split; [reflexivity | ]. intros r.
    rewrite bool_decide_eq_false_2; [reflexivity | apply not_elem_of_nil].
  - apply NoDup_cons in Hnd as [Hr0 Hnd].
    destruct (Hall r0) as [e0 He0]; [left | ].
    cbn [forEach]. rewrite (classList_remove_lookup _ _ _ _ Ht He0). bind_step.
    destruct (IH (<[r0 := with_classes (remove_token (classList (attrs e0)) t) e0]> st))
      as (st' & Hrun & Hst'); [assumption | assumption | | ].
    { intros r Hr. rewrite list_lookup_insert_is_Some. apply Hall. right. exact Hr. }
    exists st'. split; [exact Hrun | ]. intros r. rewrite Hst'.
    destruct (decide (r = r0)) as [-> | Hne].
    + rewrite (bool_decide_eq_false_2 (r0 ∈ refs)) by assumption.
      rewrite (bool_decide_eq_true_2 (r0 ∈ r0 :: refs)) by left.
      rewrite (lookup_insert_same _ _ _ _ He0), He0. reflexivity.
    + rewrite list_lookup_insert_ne by auto.
      apply (f_equal (fun (b : bool) => if b then _ else _)).
      apply bool_decide_ext. rewrite elem_of_cons. tauto.
Qed.
End Strip.

Section Click.
Context `{Browser}.
Variable this : TypedWarning.t.
Variable st : store.
Variable ps : list (string * value).
Variables c b sc title : ref.
Variable ctrls : list (string * ref).

Let sb := Host.settingsButton (Host.styles (TypedWarning.api this)).
Let ac := Host.settingsButtonActive (Host.styles (TypedWarning.api this)).

Hypothesis Hready : settings_ready this st ps c b sc title ctrls.
Hypothesis Hsb : valid_token sb.
Hypothesis Hac : valid_token ac.
Hypothesis Hident : css_ident sb = true.
Hypothesis Hnodup : NoDup ps.*1.
Hypothesis Hkeys : Forall (fun k => has_whitespace k = false) ps.*1.

Lemma changeAlertType_spec (newType : string) :
  newType ∈ ps.*1 ->
  exists ec eb,
    st !! c = Some ec /\
    st !! b = Some eb /\
    TypedWarning._changeAlertType this newType st =
    Ok (retyped this newType,
        <[b := painted (default VUndefined (assoc newType ps)) eb]>
          (<[c := with_classes
                    (foldl (retype_class newType) (classList (attrs ec)) ps.*1) ec]>
             st)).
Proof.
  intros Hin.
  destruct Hready as (Hps & Hc & Hb & [ec Hec] & [eb Heb] & _ & Hnd & _).
  exists ec, eb. split; [exact Hec | split; [exact Heb | ]].
  unfold TypedWarning._changeAlertType. fold (retyped this newType).
  cbn [retyped TypedWarning.set_data TypedWarning.config]. rewrite Hps.
  cbn [keys]. bind_step.
  erewrite (changeAlertType_loop _ ps c b newType); try eassumption; try reflexivity.
  - bind_step. rewrite retyped_color by assumption. reflexivity.
  - apply NoDup_cons in Hnd as [Hnot _]. intros ->. apply Hnot. left.
Qed.

Local Abbreviation unhighlighted := (unhighlighted sb ac).
Local Abbreviation after_click := (after_click sb ac).

Lemma unhighlighted_structure (e : element) :
  childNodes (unhighlighted e) = childNodes e /\
  clickListeners (unhighlighted e) = clickListeners e.
Proof. unfold unhighlighted. destruct (has_class sb (attrs e)); split; reflexivity. Qed.

Lemma after_click_structure (rB r : ref) (e : element) :
  childNodes (after_click rB r e) = childNodes e /\
  clickListeners (after_click rB r e) = clickListeners e.
Proof.
  unfold after_click. destruct (bool_decide (r = rB)); cbn;
    apply unhighlighted_structure.
Qed.

Lemma click_store (newType : string) (rB : ref) :
  (newType, rB) ∈ ctrls ->
  exists st' ec eb,
    TypedWarning.click this rB st = Ok (retyped this newType, st') /\
    st !! c = Some ec /\
    st !! b = Some eb /\
    st' !! c = Some (with_classes
                       (foldl (retype_class newType) (classList (attrs ec)) ps.*1) ec) /\
    st' !! b = Some (painted (default VUndefined (assoc newType ps)) eb) /\
    st' !! sc = st !! sc /\
    (forall r e, r ∈ title :: ctrls.*2 -> st !! r = Some e ->
                 st' !! r = Some (after_click rB r e)).
Proof.
  intros Hsel.
  pose proof Hready as
    (Hps & Hc & Hb & _ & _ & Hk & Hnd & (esc & Hsc & Hkids) & (et & Het & Hlt & _)
     & Hctrl & HJ).
  assert (Hin : newType ∈ ps.*1).
  { rewrite <- Hk. apply list_elem_of_fmap. exists (newType, rB). split; auto. }
  destruct (changeAlertType_spec newType Hin) as (ec & eb & Hec & Heb & Hchange).
  destruct (Hctrl newType rB Hsel) as (eB & HeB & HlB & HlistB).
  assert (HrB : rB ∈ title :: ctrls.*2).
  { right. apply list_elem_of_fmap. exists (newType, rB). split; auto. }
  (* distinctness *)
  apply NoDup_cons in Hnd as [Hc_fresh Hnd].
  apply NoDup_cons in Hnd as [Hb_fresh Hnd].
  apply NoDup_cons in Hnd as [Hsc_fresh Hnd].
  assert (Hcb : c <> b) by (intros ->; apply Hc_fresh; left).
  assert (Hstrip : forall r, r ∈ sc :: title :: ctrls.*2 -> r <> c /\ r <> b).
  { intros r Hr. split; intros ->; [apply Hc_fresh | apply Hb_fresh; trivial];
      right; exact Hr. }
  assert (Hsub : forall r, r ∈ title :: ctrls.*2 -> r <> c /\ r <> b /\ r <> sc).
  { intros r Hr. destruct (Hstrip r) as [? ?]; [right; exact Hr | ].
    repeat split; try assumption. intros ->. contradiction. }
  set (st1 := <[b := painted (default VUndefined (assoc newType ps)) eb]>
                (<[c := with_classes
                          (foldl (retype_class newType) (classList (attrs ec)) ps.*1)
                          ec]> st)) in *.
  assert (Hst1 : forall r, r <> c -> r <> b -> st1 !! r = st !! r).
  { intros r Hrc Hrb. unfold st1. rewrite !list_lookup_insert_ne by auto. reflexivity. }
  assert (Hst1c : st1 !! c =
                  Some (with_classes
                          (foldl (retype_class newType) (classList (attrs ec)) ps.*1) ec)).
  { unfold st1. rewrite list_lookup_insert_ne by auto.
    eapply lookup_insert_same; eassumption. }
  assert (Hst1b : st1 !! b = Some (painted (default VUndefined (assoc newType ps)) eb)).
  { unfold st1. apply list_lookup_insert_eq. rewrite length_insert.
    eapply lookup_lt_Some; eassumption. }
  assert (Hall : forall r, r ∈ title :: ctrls.*2 ->
                   exists e, st !! r = Some e /\ is_leaf e = true).
  { intros r Hr. apply elem_of_cons in Hr as [-> | Hr]; [eauto | ].
    apply list_elem_of_fmap in Hr as ([k r'] & -> & Hkr).
    destruct (Hctrl k r' Hkr) as (e & He & Hl & _). eauto. }
  (* the query *)
  assert (Hdesc : descendants (List.length st1) st1 sc = title :: ctrls.*2).
  { destruct (Hstrip sc) as [? ?]; [left | ].
    eapply descendants_strip.
    - rewrite Hst1 by assumption. exact Hsc.
    - exact Hkids.
    - destruct (Hsub title) as (? & ? & _); [left | ].
      exists et. rewrite Hst1 by assumption. auto.
    - intros r Hr. destruct (Hsub r) as (? & ? & _); [right; exact Hr | ].
      rewrite Hst1 by assumption. apply Hall. right. exact Hr. }
  set (buttons := List.filter (carries st1 sb) (title :: ctrls.*2)).
  assert (Hquery : querySelectorAll ("." +:+ sb) sc st1 = Ok buttons).
  { unfold querySelectorAll. rewrite class_selector_literal by assumption.
    bind_step. unfold element_at.
    destruct (Hstrip sc) as [? ?]; [left | ].
    rewrite Hst1, Hsc by assumption. bind_step. rewrite Hdesc. reflexivity. }
  assert (Hbuttons : forall r, r ∈ buttons <->
                               carries st1 sb r = true /\ r ∈ title :: ctrls.*2).
  { intros r. unfold buttons. rewrite !list_elem_of_In, filter_In, <- !list_elem_of_In.
    tauto. }
  destruct (unhighlight ac buttons st1) as (st2 & Hrun2 & Hst2).
  { exact Hac. }
  { unfold buttons. apply NoDup_ListNoDup, List.NoDup_filter, NoDup_ListNoDup. exact Hnd. }
  { intros r Hr. apply Hbuttons in Hr as [_ Hr].
    destruct (Hsub r Hr) as (? & ? & _). rewrite Hst1 by assumption.
    destruct (Hall r Hr) as (e & -> & _). eauto. }
  assert (Hst2s : forall r e, r ∈ title :: ctrls.*2 -> st !! r = Some e ->
                    st2 !! r = Some (unhighlighted e)).
  { intros r e Hr He. destruct (Hsub r Hr) as (? & ? & _).
    rewrite Hst2, Hst1, He by assumption. unfold unhighlighted.
    assert (Hcar : carries st1 sb r = has_class sb (attrs e)).
    { unfold carries. rewrite Hst1, He by assumption. reflexivity. }
    destruct (has_class sb (attrs e)) eqn:E.
    - rewrite bool_decide_eq_true_2; [reflexivity | ]. apply Hbuttons. auto.
    - rewrite bool_decide_eq_false_2; [reflexivity | ].
      rewrite Hbuttons. intros [Hcar' _]. congruence. }
  assert (Hst2o : forall r, r ∉ title :: ctrls.*2 -> st2 !! r = st1 !! r).
  { intros r Hr. rewrite Hst2. rewrite bool_decide_eq_false_2; [reflexivity | ].
    rewrite Hbuttons. tauto. }
  pose proof (Hst2s rB eB HrB HeB) as He2.
  exists (<[rB := with_classes (add_token (classList (attrs (unhighlighted eB))) ac)
                   (unhighlighted eB)]> st2), ec, eb.
  assert (HrBc : rB <> c /\ rB <> b /\ rB <> sc) by (apply Hsub; exact HrB).
  destruct HrBc as (HrBc & HrBb & HrBsc).
  assert (Hnotin : forall r, r = c \/ r = b \/ r = sc -> r ∉ title :: ctrls.*2).
  { intros r Hr Hin'. destruct (Hsub r Hin') as (? & ? & ?).
    destruct Hr as [-> | [-> | ->]]; contradiction. }
  split; [ | split; [exact Hec | split; [exact Heb | ]]].
  - unfold TypedWarning.click, element_at. rewrite HeB. bind_step. rewrite HlistB.
    cbn [forEach]. unfold TypedWarning.on_click.
    cbn [captured_type captured_settingsContainer captured_settingsButton
         TypedWarning.CSS TypedWarning.WarningCSS.settingsButton
         TypedWarning.WarningCSS.settingsButtonActive].
    fold sb ac. rewrite Hchange. bind_step.
    cbn [retyped TypedWarning.set_data TypedWarning.api]. fold sb ac.
    rewrite Hquery. bind_step. rewrite Hrun2. bind_step.
    rewrite (classList_add_lookup _ _ _ _ Hac He2). reflexivity.
  - split; [ | split; [ | split]].
    + rewrite list_lookup_insert_ne by auto.
      rewrite Hst2o by (apply Hnotin; auto). exact Hst1c.
    + rewrite list_lookup_insert_ne by auto.
      rewrite Hst2o by (apply Hnotin; auto). exact Hst1b.
    + rewrite list_lookup_insert_ne by auto.
      rewrite Hst2o by (apply Hnotin; auto).
      destruct (Hstrip sc) as [? ?]; [left | ]. apply Hst1; assumption.
    + intros r e Hr He. unfold after_click. case_bool_decide as E.
      * subst r. rewrite HeB in He. injection He as <-.
        eapply lookup_insert_same. exact He2.
      * rewrite list_lookup_insert_ne by auto. apply Hst2s; assumption.
Qed.

Lemma has_class_with_classes (x : string) (cl : list string) (e : element) :
  has_class x (attrs (with_classes cl e)) = bool_decide (x ∈ cl).
Proof. reflexivity. Qed.

Lemma has_class_unhighlighted (x : string) (e : element) :
  x <> ac -> has_class x (attrs (unhighlighted e)) = has_class x (attrs e).
Proof.
  intros Hx. unfold unhighlighted. destruct (has_class sb (attrs e)); [ | reflexivity].
  rewrite has_class_with_classes. unfold has_class. apply bool_decide_ext.
  rewrite elem_of_remove_token. tauto.
Qed.

Lemma has_class_after_click_other (x : string) (rB r : ref) (e : element) :
  x <> ac -> has_class x (attrs (after_click rB r e)) = has_class x (attrs e).
Proof.
  intros Hx. unfold after_click. case_bool_decide.
  - rewrite has_class_with_classes.
    rewrite <- (has_class_unhighlighted x e Hx). unfold has_class.
    apply bool_decide_ext. rewrite elem_of_add_token. tauto.
  - apply has_class_unhighlighted. exact Hx.
Qed.

Lemma active_after_click (rB r : ref) (e : element) :
  (has_class ac (attrs e) = true -> has_class sb (attrs e) = true) ->
  has_class ac (attrs (after_click rB r e)) = bool_decide (r = rB).
Proof.
  intros Himp. unfold after_click. case_bool_decide as E.
  - rewrite has_class_with_classes. apply bool_decide_eq_true_2.
    rewrite elem_of_add_token. auto.
  - unfold unhighlighted. destruct (has_class sb (attrs e)) eqn:Esb.
    + rewrite has_class_with_classes. apply bool_decide_eq_false_2.
      rewrite elem_of_remove_token. tauto.
    + destruct (has_class ac (attrs e)) eqn:Eac; [ | reflexivity].
      specialize (Himp eq_refl). discriminate.
Qed.

Lemma click_ready (newType : string) (rB : ref) :
  (newType, rB) ∈ ctrls ->
  exists st' ec eb ec' eb',
    TypedWarning.click this rB st = Ok (retyped this newType, st') /\
    settings_ready (retyped this newType) st' ps c b sc title ctrls /\
    st !! c = Some ec /\
    st !! b = Some eb /\
    st' !! c = Some ec' /\
    classList (attrs ec') =
      foldl (retype_class newType) (classList (attrs ec)) ps.*1 /\
    st' !! b = Some eb' /\
    eb' = painted (default VUndefined (assoc newType ps)) eb /\
    (forall k r, (k, r) ∈ ctrls -> carries st' ac r = bool_decide (r = rB)).
Proof.
  intros Hsel.
  destruct (click_store newType rB Hsel)
    as (st' & ec & eb & Hclick & Hec & Heb & Hc' & Hb' & Hsc' & Hstrip').
  pose proof Hready as
    (Hps & Hc & Hb & _ & _ & Hk & Hnd & (esc & Hsc & Hkids)
     & (et & Het & Hlt & Hnl) & Hctrl & HJ).
  fold sb ac in HJ.
  assert (Hmem : forall k r, (k, r) ∈ ctrls -> r ∈ title :: ctrls.*2).
  { intros k r Hkr. right. apply list_elem_of_fmap. exists (k, r). split; auto. }
  assert (Himp : forall k r e, (k, r) ∈ ctrls -> st !! r = Some e ->
                   has_class ac (attrs e) = true -> has_class sb (attrs e) = true).
  { intros k r e Hkr He Hacr. destruct (decide (sb = ac)) as [E | E].
    - rewrite E. exact Hacr.
    - specialize (HJ E k r Hkr). unfold carries in HJ. rewrite He in HJ. exact HJ. }
  exists st', ec, eb. do 2 eexists.
  split; [exact Hclick | ].
  split; [ | split; [exact Hec | split; [exact Heb | split; [exact Hc' | ]]]].
  - unfold settings_ready.
    cbn [retyped TypedWarning.set_data TypedWarning.config TypedWarning.container
         TypedWarning.background TypedWarning.api].
    fold sb ac.
    split; [exact Hps | split; [exact Hc | split; [exact Hb | ]]].
    split; [rewrite Hc'; eauto | split; [rewrite Hb'; eauto | ]].
    split; [exact Hk | split; [exact Hnd | ]].
    split; [exists esc; rewrite Hsc'; auto | ].
    split.
    { exists (after_click rB title et).
      split; [apply Hstrip'; [left | exact Het] | ].
      unfold is_leaf.
      destruct (after_click_structure rB title et) as [-> ->]. auto. }
    split.
    { intros k r Hkr. destruct (Hctrl k r Hkr) as (e & He & Hl & Hls).
      exists (after_click rB r e).
      split; [apply Hstrip'; [eapply Hmem; eassumption | exact He] | ].
      unfold is_leaf.
      destruct (after_click_structure rB r e) as [-> ->]. auto. }
    intros Hne k r Hkr. destruct (Hctrl k r Hkr) as (e & He & _).
    unfold carries. rewrite (Hstrip' r e (Hmem k r Hkr) He).
    rewrite has_class_after_click_other by assumption.
    specialize (HJ Hne k r Hkr). unfold carries in HJ. rewrite He in HJ. exact HJ.
  - split; [reflexivity | split; [exact Hb' | split; [reflexivity | ]]].
    intros k r Hkr. destruct (Hctrl k r Hkr) as (e & He & _).
    unfold carries. rewrite (Hstrip' r e (Hmem k r Hkr) He).
    apply active_after_click. eapply Himp; eassumption.
Qed.
End Click.

Lemma find_control (st : store) (k : string) (r : ref) (ctrls : list (string * ref)) :
  NoDup ctrls.*1 ->
  (forall k' r', (k', r') ∈ ctrls -> listens_for st k r' = bool_decide (k' = k)) ->
  (k, r) ∈ ctrls ->
  List.find (listens_for st k) ctrls.*2 = Some r.
Proof.
  induction ctrls as [ | [k0 r0] rest IH]; intros Hnd Hl Hkr; [inversion Hkr | ].
  cbn [fmap list_fmap List.find snd fst] in *.
  rewrite (Hl k0 r0) by left.
  apply NoDup_cons in Hnd as [Hk0 Hnd].
  apply elem_of_cons in Hkr as [[= <- <-] | Hkr].
  - rewrite bool_decide_eq_true_2 by reflexivity. reflexivity.
  - rewrite bool_decide_eq_false_2.
    + apply IH; [assumption | | assumption].
      intros k' r' Hkr'. apply Hl. right. exact Hkr'.
    + intros E. subst k0. apply Hk0. apply list_elem_of_fmap. exists (k, r). split; auto.
Qed.

Section Controls.
Context `{Browser}.
Variable this : TypedWarning.t.
Variable st : store.
Variable ps : list (string * value).
Variables c b sc title : ref.
Variable ctrls : list (string * ref).
Hypothesis Hready : settings_ready this st ps c b sc title ctrls.

Lemma appended_fmap (refs : list ref) :
  omap (fun ch => match ch with Appended r => Some r | Parsed _ => None end)
    (Appended <$> refs) = refs.
Proof. induction refs as [ | r refs IH]; cbn; [reflexivity | ]. rewrite IH. reflexivity. Qed.

Lemma controls_ready : controls st sc = ctrls.*2.
Proof.
  destruct Hready as (_ & _ & _ & _ & _ & _ & _ & (esc & Hsc & Hkids)
                      & (et & Het & _ & Hnl) & Hctrl & _).
  unfold controls, appended. rewrite Hsc, Hkids. cbn [omap list_omap].
  rewrite appended_fmap. cbn [List.filter].
  unfold listens at 1. rewrite Het, Hnl.
  assert (Hall : forall r, r ∈ ctrls.*2 -> listens st r = true).
  { intros r Hr. apply list_elem_of_fmap in Hr as ([k r'] & -> & Hkr).
    destruct (Hctrl k r' Hkr) as (e & He & _ & Hls).
    unfold listens. cbn. rewrite He, Hls. reflexivity. }
  revert Hall. generalize (ctrls.*2) as refs.
  induction refs as [ | r refs IH]; intros Hall; [reflexivity | ].
  cbn [List.filter]. rewrite Hall by left. f_equal. apply IH.
  intros r' Hr'. apply Hall. right. exact Hr'.
Qed.

Lemma control_of_ready (k : string) (r : ref) :
  NoDup ps.*1 -> (k, r) ∈ ctrls -> control_of st sc k = Some r.
Proof.
  intros Hnd Hkr. unfold control_of. rewrite controls_ready.
  destruct Hready as (_ & _ & _ & _ & _ & Hk & _ & _ & _ & Hctrl & _).
  rewrite <- Hk in Hnd.
  apply find_control; try assumption.
  intros k' r' Hkr'. destruct (Hctrl k' r' Hkr') as (e & He & _ & Hls).
  unfold listens_for. rewrite He, Hls. cbn.
  destruct (String.eqb_spec k' k).
  - rewrite bool_decide_eq_true_2 by assumption. reflexivity.
  - rewrite bool_decide_eq_false_2 by assumption. reflexivity.
Qed.

Lemma control_exists (k : string) : k ∈ ps.*1 -> exists r, (k, r) ∈ ctrls.
Proof.
  destruct Hready as (_ & _ & _ & _ & _ & Hk & _).
  rewrite <- Hk. intros Hin. apply list_elem_of_fmap in Hin as ([k' r] & -> & Hkr).
  exists r. exact Hkr.
Qed.
End Controls.



Section Run.
Context `{Browser}.
Variable this : TypedWarning.t.
Variable st : store.
Variable ps : list (string * value).

Let sb := Host.settingsButton (Host.styles (TypedWarning.api this)).
Let ac := Host.settingsButtonActive (Host.styles (TypedWarning.api this)).
Let type := TypedWarning.WarningData.type (TypedWarning.data this).
Let L := List.length st.

Hypothesis Hps : TypedWarning.Config.typeColor (TypedWarning.config this) = VObject ps.
Hypothesis Hnodup : NoDup ps.*1.
Hypothesis Hkeys : Forall (fun k => has_whitespace k = false) ps.*1.
Hypothesis Htype : has_whitespace (to_string type) = false.
Hypothesis Hsb : valid_token sb.
Hypothesis Hac : valid_token ac.
Hypothesis Hident : css_ident sb = true.

Lemma ready_after_renderSettings :
  exists this1 st1 st2 ec,
    TypedWarning.render this st = Ok (L + 2, this1, st1) /\
    TypedWarning.renderSettings this1 st1 = Ok (L + 3, st2) /\
    this1 = TypedWarning.set_elements (Some (L + 1)) (Some (L + 2)) this /\
    settings_ready this1 st2 ps (L + 2) (L + 1) (L + 3) (L + 3 + 1)
      (settings_controls (L + 3 + 2) ps.*1) /\
    st2 !! (L + 2) = Some ec /\
    classList (attrs ec) =
      foldl add_token [] ["cdx-warning"; "cdx-warning-" +:+ to_string type].
Proof.
  destruct (get_total (VObject ps) (to_string type) eq_refl) as [colorCode Hcolor].
  pose proof (TypedWarning_render_spec st this colorCode) as Hrender.
  cbv zeta in Hrender. fold type L in Hrender.
  rewrite Hps in Hrender. specialize (Hrender Htype Hcolor).
  set (this1 := TypedWarning.set_elements (Some (L + 1)) (Some (L + 2)) this) in *.
  match type of Hrender with _ = Ok (_, _, ?s) => set (st1 := s) in * end.
  assert (Hlen1 : List.length st1 = L + 3).
  { unfold st1. rewrite length_app. reflexivity. }
  pose proof (TypedWarning_renderSettings_spec this1 st1 Hsb Hac ps Hps Hkeys)
    as Hsettings.
  rewrite Hlen1 in Hsettings.
  match type of Hsettings with _ = Ok (_, ?s) => set (st2 := s) in * end.
  assert (Hold : forall i e, i < 3 -> st1 !! (L + i) = Some e -> st2 !! (L + i) = Some e).
  { intros i e Hi He. unfold st2. rewrite lookup_app_l by lia. exact He. }
  assert (Hnew : forall i, st2 !! (L + 3 + i) =
                   (container_element ["settingsButton-wrapper"]
                      (L + 3 + 1 :: (settings_controls (L + 3 + 2) ps.*1).*2)
                    :: settings_title this1
                    :: imap (fun i k => settings_button this1 (L + 3) (L + 3 + 2 + i) k)
                         ps.*1) !! i).
  { intros i. unfold st2. rewrite <- Hlen1. apply lookup_ext. }
  eexists this1, st1, st2, _.
  split; [exact Hrender | split; [exact Hsettings | split; [reflexivity | ]]].
  split; [ | split; [apply (Hold 2); [lia | unfold st1, L; rewrite lookup_ext; reflexivity] | reflexivity]].
  unfold settings_ready. fold sb ac.
  split; [exact Hps | split; [reflexivity | split; [reflexivity | ]]].
  split; [eexists; apply (Hold 2); [lia | unfold st1, L; rewrite lookup_ext; reflexivity] | ].
  split; [eexists; apply (Hold 1); [lia | unfold st1, L; rewrite lookup_ext; reflexivity] | ].
  split; [apply settings_controls_fst | ].
  split; [rewrite settings_controls_snd; apply NoDup_settings_refs | ].
  split.
  { eexists. split; [rewrite <- (Nat.add_0_r (L + 3)), Hnew; reflexivity | reflexivity]. }
  split.
  { eexists. split; [rewrite (Hnew 1); reflexivity | ].
    split; [eapply is_leaf_parsed; reflexivity | reflexivity]. }
  assert (Hbutton : forall k r, (k, r) ∈ settings_controls (L + 3 + 2) ps.*1 ->
                      st2 !! r = Some (settings_button this1 (L + 3) r k)).
  { intros k r Hkr. apply elem_of_settings_controls in Hkr as (i & Hi & ->).
    replace (L + 3 + 2 + i) with (L + 3 + (2 + i)) at 1 by lia.
    rewrite Hnew.
    match goal with
    | |- (?a :: ?b :: ?l) !! (2 + i) = _ => change ((a :: b :: l) !! (2 + i)) with (l !! i)
    end.
    rewrite list_lookup_imap, Hi. reflexivity. }
  split.
  - intros k r Hkr. exists (settings_button this1 (L + 3) r k).
    split; [apply Hbutton; exact Hkr | ].
    destruct (settings_button_facts this1 (L + 3) r k) as (Hl & Hls & _). auto.
  - intros _ k r Hkr. unfold carries. rewrite (Hbutton k r Hkr).
    apply settings_button_facts.
Qed.
End Run.

Section Selections.
Context `{Browser}.
Variable api : Host.API.
Variable ps : list (string * value).
Variables c b sc title : ref.
Variable ctrls : list (string * ref).

Let sb := Host.settingsButton (Host.styles api).
Let ac := Host.settingsButtonActive (Host.styles api).

Hypothesis Hsb : valid_token sb.
Hypothesis Hac : valid_token ac.
Hypothesis Hident : css_ident sb = true.
Hypothesis Hnodup : NoDup ps.*1.
Hypothesis Hkeys : Forall (fun k => has_whitespace k = false) ps.*1.

Lemma filter_only (rB : ref) (refs : list ref) (f : ref -> bool) :
  NoDup refs -> rB ∈ refs ->
  (forall r, r ∈ refs -> f r = bool_decide (r = rB)) ->
  List.filter f refs = [rB].
Proof.
  induction refs as [ | r refs IH]; intros Hnd Hin Hf; [inversion Hin | ].
  apply NoDup_cons in Hnd as [Hr Hnd]. cbn [List.filter]. rewrite Hf by left.
  case_bool_decide as E.
  - subst r. f_equal.
    assert (Hnone : forall l, (forall r, r ∈ l -> f r = false) -> List.filter f l = []).
    { intros l. induction l as [ | x l IHl]; intros Hl; [reflexivity | ].
      cbn [List.filter]. rewrite Hl by left. apply IHl.
      intros y Hy. apply Hl. right. exact Hy. }
    apply Hnone. intros r Hr'. rewrite Hf by (right; exact Hr').
    apply bool_decide_eq_false_2. intros ->. contradiction.
  - apply IH; [exact Hnd | | ].
    + apply elem_of_cons in Hin as [-> | Hin]; [contradiction | exact Hin].
    + intros r' Hr'. apply Hf. right. exact Hr'.
Qed.

(** One selection from a ready state. *)
Lemma select_ready (this : TypedWarning.t) (st : store) (k : string) :
  TypedWarning.api this = api ->
  settings_ready this st ps c b sc title ctrls ->
  k ∈ ps.*1 ->
  exists control st' ec eb ec',
    control_of st sc k = Some control /\
    TypedWarning.click this control st = Ok (retyped this k, st') /\
    select sc (this, st) k = Ok (retyped this k, st') /\
    settings_ready (retyped this k) st' ps c b sc title ctrls /\
    st !! c = Some ec /\
    st !! b = Some eb /\
    st' !! c = Some ec' /\
    classList (attrs ec') = foldl (retype_class k) (classList (attrs ec)) ps.*1 /\
    st' !! b = Some (painted (default VUndefined (assoc k ps)) eb) /\
    List.filter (carries st' ac) (controls st' sc) = [control].
Proof.
  intros Hapi Hready Hk.
  destruct (control_exists this st ps c b sc title ctrls Hready k Hk) as [r Hkr].
  pose proof (control_of_ready this st ps c b sc title ctrls Hready k r Hnodup Hkr)
    as Hcontrol.
  destruct (click_ready this st ps c b sc title ctrls Hready) with (newType := k) (rB := r)
    as (st' & ec & eb & ec' & eb' & Hclick & Hready' & Hec & Heb & Hec' & Hcl & Heb'
        & -> & Hactive);
    try (rewrite Hapi; assumption); try assumption.
  exists r, st', ec, eb, ec'.
  split; [exact Hcontrol | split; [exact Hclick | ]].
  split; [unfold select; cbn [fst snd]; rewrite Hcontrol; exact Hclick | ].
  split; [exact Hready' | ].
  repeat (split; [assumption | ]).
  rewrite (controls_ready _ _ _ _ _ _ _ _ Hready').
  pose proof Hready as (_ & _ & _ & _ & _ & _ & Hnd & _).
  apply filter_only.
  - do 4 apply NoDup_cons in Hnd as [_ Hnd]. exact Hnd.
  - apply list_elem_of_fmap. exists (k, r). split; auto.
  - intros r' Hr'. apply list_elem_of_fmap in Hr' as ([k' r''] & -> & Hkr').
    unfold ac. rewrite <- Hapi. apply (Hactive k' r'' Hkr').
Qed.

(** Any number of selections keeps the state ready. *)
Lemma select_all_ready (selections : list string) :
  forall (this : TypedWarning.t) (st : store),
    TypedWarning.api this = api ->
    settings_ready this st ps c b sc title ctrls ->
    Forall (fun k => k ∈ ps.*1) selections ->
    exists this' st',
      forEach (select sc) selections (this, st) = Ok (this', st') /\
      TypedWarning.api this' = api /\
      settings_ready this' st' ps c b sc title ctrls.
Proof.
  induction selections as [ | k ks IH]; intros this st Hapi Hready Hall.
  - exists this, st. split; [reflexivity | split; assumption].
  - apply Forall_cons in Hall as [Hk Hks].
    destruct (select_ready this st k Hapi Hready Hk)
      as (r & st' & _ & _ & _ & _ & _ & Hsel & Hready' & _).
    destruct (IH (retyped this k) st' Hapi Hready' Hks)
      as (this'' & st'' & Hrun & Hapi'' & Hready'').
    exists this'', st''. split; [ | split; assumption].
    cbn [forEach]. rewrite Hsel. exact Hrun.
Qed.
End Selections.

(** C6 (counterexample). A configuration whose [defaultType] "note" is not a
    key of [typeColor], data without a type: the current type is "note";
    after the control of "info" is clicked the container still carries the
    modifier class of "note". *)
Lemma stale_class_of_unrecognized_default :
  exists this container this1 st1 settings st2 control thisB stB ec,
    TypedWarning.constructor unrecognized_default_args = Ok this /\
    TypedWarning.WarningData.type (TypedWarning.data this) = VString "note" /\
    TypedWarning.render (H := plain_browser) this [] = Ok (container, this1, st1) /\
    TypedWarning.renderSettings (H := plain_browser) this1 st1 = Ok (settings, st2) /\
    control_of st2 settings "info" = Some control /\
    TypedWarning.click (H := plain_browser) this1 control st2 = Ok (thisB, stB) /\
    TypedWarning.WarningData.type (TypedWarning.data thisB) = VString "info" /\
    stB !! container = Some ec /\
    classList (attrs ec) = ["cdx-warning"; "cdx-warning-note"; "cdx-warning-info"].
Proof.
  do 10 eexists.
  split; [vm_compute; reflexivity | ].
  split; [vm_compute; reflexivity | ].
  split; [vm_compute; reflexivity | ].
  split; [vm_compute; reflexivity | ].
  split; [vm_compute; reflexivity | ].
  split; [vm_compute; reflexivity | ].
  split; [vm_compute; reflexivity | ].
  split; [vm_compute; reflexivity | ].
  vm_compute; reflexivity.
Qed.

(** C6 (amended). A typed adapter whose [typeColor] is a mapping, rendered,
    its settings rendered, any recognized types selected one after the
    other, and then the control of a recognized type [B] clicked: the click
    returns; the internal type is [B]; the container carries the modifier
    class of [B] and of no other recognized type (so the class of the type
    that was current is gone whenever that type is a recognized one); the
    background has the colour the browser reads in [typeColor[B]]; and the
    controls of the strip that carry the active marker are exactly the
    control of [B]. The class names must be ones [classList] and the
    selector accept. *)
Theorem selecting_a_recognized_type `{Browser}
    (this : TypedWarning.t) (st : store) (ps : list (string * value))
    (selections : list string) (B colour : string) :
  let styles := Host.styles (TypedWarning.api this) in
  let active := Host.settingsButtonActive styles in
  TypedWarning.Config.typeColor (TypedWarning.config this) = VObject ps ->
  NoDup ps.*1 ->
  Forall (fun k => has_whitespace k = false) ps.*1 ->
  has_whitespace
    (to_string (TypedWarning.WarningData.type (TypedWarning.data this))) = false ->
  valid_token (Host.settingsButton styles) ->
  css_ident (Host.settingsButton styles) = true ->
  valid_token active ->
  Forall (fun k => k ∈ ps.*1) selections ->
  B ∈ ps.*1 ->
  accepts (default VUndefined (assoc B ps)) colour ->
  exists container this1 st1 settings st2 thisA stA control thisB stB
         background ec eb,
    TypedWarning.render this st = Ok (container, this1, st1) /\
    TypedWarning.renderSettings this1 st1 = Ok (settings, st2) /\
    forEach (select settings) selections (this1, st2) = Ok (thisA, stA) /\
    control_of stA settings B = Some control /\
    TypedWarning.click thisA control stA = Ok (thisB, stB) /\
    TypedWarning.WarningData.type (TypedWarning.data thisB) = VString B /\
    stB !! container = Some ec /\
    "cdx-warning-" +:+ B ∈ classList (attrs ec) /\
    (forall k, k ∈ ps.*1 -> k <> B -> "cdx-warning-" +:+ k ∉ classList (attrs ec)) /\
    TypedWarning.background thisB = Some background /\
    stB !! background = Some eb /\
    backgroundColor (attrs eb) = colour /\
    List.filter (carries stB active) (controls stB settings) = [control].
Proof.
  intros styles active Hps Hnd Hkeys Htype Hsb Hident Hac Hsel HB Hcolour.
  destruct (ready_after_renderSettings this st ps Hps Hkeys Htype Hsb Hac)
    as (this1 & st1 & st2 & ec0 & Hrender & Hsettings & Hthis1 & Hready & _).
  assert (Hapi1 : TypedWarning.api this1 = TypedWarning.api this)
    by (rewrite Hthis1; reflexivity).
  edestruct (select_all_ready (TypedWarning.api this) ps)
    with (selections := selections) (this := this1) (st := st2)
    as (thisA & stA & Hrun & HapiA & HreadyA); try eassumption.
  edestruct (select_ready (TypedWarning.api this) ps)
    with (this := thisA) (st := stA) (k := B)
    as (control & stB & ec & eb & ec' & Hcontrol & Hclick & _ & HreadyB & Hec & Heb
        & Hec' & Hcl & Heb' & Hactive); try eassumption.
  pose proof HreadyB as (_ & _ & Hbg & _).
  do 13 eexists.
  split; [exact Hrender | split; [exact Hsettings | split; [exact Hrun | ]]].
  split; [exact Hcontrol | split; [exact Hclick | split; [reflexivity | ]]].
  split; [exact Hec' | ]. rewrite Hcl.
  split; [apply elem_of_retyped; left; auto | ].
  split.
  { intros k Hk Hne Hin. apply elem_of_retyped in Hin as [[E _] | [_ Hall]].
    - apply wrapperForType_inj in E. contradiction.
    - exact (Hall k Hk eq_refl). }
  split; [exact Hbg | split; [exact Heb' | ]].
  split; [apply painted_accepts; exact Hcolour | exact Hactive].
Qed.

Lemma selecting_a_recognized_type_witness :
  TypedWarning.constructor two_types_args = Ok two_types_adapter /\
  exists container this1 st1 settings st2 thisA stA control thisB stB
         background ec eb,
    TypedWarning.render (H := plain_browser) two_types_adapter [] =
      Ok (container, this1, st1) /\
    TypedWarning.renderSettings (H := plain_browser) this1 st1 = Ok (settings, st2) /\
    forEach (select (H := plain_browser) settings) ["danger"] (this1, st2) =
      Ok (thisA, stA) /\
    control_of stA settings "info" = Some control /\
    TypedWarning.click (H := plain_browser) thisA control stA = Ok (thisB, stB) /\
    TypedWarning.WarningData.type (TypedWarning.data thisB) = VString "info" /\
    stB !! container = Some ec /\
    "cdx-warning-info" ∈ classList (attrs ec) /\
    ("cdx-warning-danger" ∉ classList (attrs ec)) /\
    TypedWarning.background thisB = Some background /\
    stB !! background = Some eb /\
    backgroundColor (attrs eb) = "#eee" /\
    List.filter (carries stB "cdx-settings-button--active") (controls stB settings) =
      [control].
Proof.
  split; [reflexivity | ].
  assert (Hinfo : "info" ∈ two_types.*1) by (cbn; rewrite !elem_of_cons; auto).
  assert (Hdanger : "danger" ∈ two_types.*1) by (cbn; rewrite !elem_of_cons; auto).
  destruct (selecting_a_recognized_type (H := plain_browser) two_types_adapter []
              two_types ["danger"] "info" "#eee")
    as (c & this1 & st1 & sc & st2 & thisA & stA & r & thisB & stB & bg & ec & eb
        & Hrender & Hsettings & Hrun & Hcontrol & Hclick & Htype & Hec & Hin & Hout
        & Hbg & Heb & Hcolour & Hactive).
  - reflexivity.
  - cbn. apply NoDup_cons.
    split; [rewrite list_elem_of_singleton; discriminate | apply NoDup_singleton].
  - repeat constructor.
  - reflexivity.
  - reflexivity.
  - reflexivity.
  - reflexivity.
  - repeat constructor.
  - exact Hinfo.
  - split; [discriminate | reflexivity].
  - exists c, this1, st1, sc, st2, thisA, stA, r, thisB, stB, bg, ec, eb.
    repeat (split; [assumption | ]).
    split; [exact (Hout "danger" Hdanger ltac:(discriminate)) | ].
    repeat (split; [assumption | ]). exact Hactive.
Defined.

(** * Further properties of the adapters *)

(** ** Constructors and the arguments they need *)

Lemma get_cases (v : value) (k : string) :
  (nullish v = true /\ get v k = Throw TypeError) \/
  (nullish v = false /\ exists w, get v k = Ok w).
Proof.
  destruct (nullish v) eqn:E.
  - left. split; [reflexivity | apply get_nullish_throws; exact E].
  - right. split; [reflexivity | apply get_total; exact E].
Qed.

Lemma keys_cases (v : value) :
  (nullish v = true /\ keys v = Throw TypeError) \/
  (nullish v = false /\ exists ks, keys v = Ok ks).
Proof. destruct v; simpl; eauto. Qed.

Lemma LegacyWarning_constructor_ok (args : Host.ConstructorArgs) :
  nullish (Host.data args) = false ->
  nullish (Host.config args) = false ->
  exists tp mp title message,
    get (Host.config args) "titlePlaceholder" = Ok tp /\
    get (Host.config args) "messagePlaceholder" = Ok mp /\
    get (Host.data args) "title" = Ok title /\
    get (Host.data args) "message" = Ok message /\
    LegacyWarning.constructor args =
      Ok {| LegacyWarning.api := Host.api args;
            LegacyWarning.titlePlaceholder := logical_or tp (VString "Title");
            LegacyWarning.messagePlaceholder := logical_or mp (VString "Message");
            LegacyWarning.data :=
              {| LegacyWarning.WarningData.title := logical_or title (VString "");
                 LegacyWarning.WarningData.message :=
                   logical_or message (VString "") |} |}.
Proof.
  intros Hd Hc.
  destruct (get_total _ "titlePlaceholder" Hc) as [tp Htp].
  destruct (get_total _ "messagePlaceholder" Hc) as [mp Hmp].
  destruct (get_total _ "title" Hd) as [t Ht].
  destruct (get_total _ "message" Hd) as [m Hm].
  exists tp, mp, t, m. repeat (split; [assumption | ]).
  unfold LegacyWarning.constructor. rewrite Htp, Hmp, Ht, Hm. reflexivity.
Qed.

(** X1. Which arguments a constructor cannot do without. The TypeScript
    [Warning] returns exactly when [data] is neither [null] nor
    [undefined], whatever [config] is; [Success] and the older [Warning]
    also need [config]; the typed variant needs, besides, a [typeColor]
    that is neither [null] nor [undefined]. A constructor that does not
    return throws a [TypeError]. *)
Theorem constructors_return_exactly_when_arguments_are_present
    (args : Host.ConstructorArgs) :
  ((exists this, Warning.constructor args = Ok this) <->
     nullish (Host.data args) = false) /\
  ((exists this, Success.constructor args = Ok this) <->
     nullish (Host.data args) = false /\ nullish (Host.config args) = false) /\
  ((exists this, LegacyWarning.constructor args = Ok this) <->
     nullish (Host.data args) = false /\ nullish (Host.config args) = false) /\
  ((exists this, TypedWarning.constructor args = Ok this) <->
     nullish (Host.data args) = false /\
     exists typeColor,
       get (Host.config args) "typeColor" = Ok typeColor /\
       nullish typeColor = false) /\
  (forall e,
     Warning.constructor args = Throw e \/
     Success.constructor args = Throw e \/
     LegacyWarning.constructor args = Throw e \/
     TypedWarning.constructor args = Throw e ->
     e = TypeError).
Proof.
  assert (Herr : forall (A B C D : Type) (ra : result A) (rb : result B)
                        (rc : result C) (rd : result D),
             (forall e, ra = Throw e -> e = TypeError) ->
             (forall e, rb = Throw e -> e = TypeError) ->
             (forall e, rc = Throw e -> e = TypeError) ->
             (forall e, rd = Throw e -> e = TypeError) ->
             forall e, ra = Throw e \/ rb = Throw e \/ rc = Throw e \/ rd = Throw e ->
                       e = TypeError).
  { intros A B C D ra rb rc rd Ha Hb Hc Hd e [E | [E | [E | E]]]; eauto. }
  destruct (get_cases (Host.data args) "title") as [[Hd Ht] | [Hd [t Ht]]];
  destruct (get_cases (Host.config args) "titlePlaceholder")
    as [[Hc Htp] | [Hc [tp Htp]]].
  - (* neither *)
    assert (HW : Warning.constructor args = Throw TypeError).
    { unfold Warning.constructor, get_opt. rewrite Hc, Ht. reflexivity. }
    assert (HS : Success.constructor args = Throw TypeError).
    { unfold Success.constructor. rewrite Htp. reflexivity. }
    assert (HL : LegacyWarning.constructor args = Throw TypeError).
    { unfold LegacyWarning.constructor. rewrite Htp. reflexivity. }
    assert (HT : TypedWarning.constructor args = Throw TypeError).
    { unfold TypedWarning.constructor.
      rewrite (get_nullish_throws _ "messagePlaceholder" Hc). reflexivity. }
    rewrite HW, HS, HL, HT.
    split; [ | split; [ | split; [ | split]]].
    + split; [intros [? [=]] | congruence].
    + split; [intros [? [=]] | intros [? ?]; congruence].
    + split; [intros [? [=]] | intros [? ?]; congruence].
    + split; [intros [? [=]] | intros [? ?]; congruence].
    + apply Herr; congruence.
  - (* config only *)
    destruct (get_total _ "messagePlaceholder" Hc) as [mp Hmp].
    assert (HW : Warning.constructor args = Throw TypeError).
    { unfold Warning.constructor.
      destruct (get_opt_total (Host.config args) "titlePlaceholder") as [a ->].
      destruct (get_opt_total (Host.config args) "messagePlaceholder") as [b ->].
      bind_step. rewrite Ht. reflexivity. }
    assert (HS : Success.constructor args = Throw TypeError).
    { unfold Success.constructor. rewrite Htp, Hmp. bind_step. rewrite Ht. reflexivity. }
    assert (HL : LegacyWarning.constructor args = Throw TypeError).
    { unfold LegacyWarning.constructor. rewrite Htp, Hmp. bind_step.
      rewrite Ht. reflexivity. }
    assert (HT : TypedWarning.constructor args = Throw TypeError).
    { unfold TypedWarning.constructor. rewrite Hmp. bind_step.
      destruct (get_total _ "defaultType" Hc) as [dt ->]. bind_step.
      destruct (get_total _ "typeColor" Hc) as [tc ->]. bind_step.
      destruct (keys_cases tc) as [[_ ->] | [_ [ks ->]]]; [reflexivity | ].
      bind_step. rewrite (get_nullish_throws _ "type" Hd). reflexivity. }
    rewrite HW, HS, HL, HT.
    split; [ | split; [ | split; [ | split]]].
    + split; [intros [? [=]] | congruence].
    + split; [intros [? [=]] | intros [? ?]; congruence].
    + split; [intros [? [=]] | intros [? ?]; congruence].
    + split; [intros [? [=]] | intros [? ?]; congruence].
    + apply Herr; congruence.
  - (* data only *)
    destruct (Warning_constructor_ok args Hd) as (? & ? & ? & ? & _ & _ & _ & _ & HW).
    assert (HS : Success.constructor args = Throw TypeError).
    { unfold Success.constructor. rewrite Htp. reflexivity. }
    assert (HL : LegacyWarning.constructor args = Throw TypeError).
    { unfold LegacyWarning.constructor. rewrite Htp. reflexivity. }
    assert (HT : TypedWarning.constructor args = Throw TypeError).
    { unfold TypedWarning.constructor.
      rewrite (get_nullish_throws _ "messagePlaceholder" Hc). reflexivity. }
    rewrite HW, HS, HL, HT.
    split; [ | split; [ | split; [ | split]]].
    + split; eauto.
    + split; [intros [? [=]] | intros [? ?]; congruence].
    + split; [intros [? [=]] | intros [? ?]; congruence].
    + split; [intros [? [=]] | ].
      intros (_ & tc & Htc & _).
      rewrite (get_nullish_throws _ "typeColor" Hc) in Htc. discriminate.
    + apply Herr; congruence.
  - (* both *)
    destruct (Warning_constructor_ok args Hd) as (? & ? & ? & ? & _ & _ & _ & _ & HW).
    destruct (Success_constructor_ok args Hd Hc)
      as (? & ? & ? & ? & _ & _ & _ & _ & HS).
    destruct (LegacyWarning_constructor_ok args Hd Hc)
      as (? & ? & ? & ? & _ & _ & _ & _ & HL).
    rewrite HW, HS, HL.
    destruct (get_total _ "typeColor" Hc) as [tc Htc].
    destruct (nullish tc) eqn:Hn.
    + assert (HT : TypedWarning.constructor args = Throw TypeError).
      { unfold TypedWarning.constructor.
        destruct (get_total _ "messagePlaceholder" Hc) as [mp ->]. bind_step.
        destruct (get_total _ "defaultType" Hc) as [dt ->]. bind_step.
        rewrite Htc. bind_step.
        destruct (keys_cases tc) as [[_ ->] | [? _]]; [reflexivity | congruence]. }
      rewrite HT.
      split; [ | split; [ | split; [ | split]]].
      * split; eauto.
      * split; eauto.
      * split; eauto.
      * split; [intros [? [=]] | ].
        intros (_ & tc' & Htc' & Hn'). congruence.
      * apply Herr; congruence.
    + destruct (TypedWarning_constructor_ok args tc Hd Htc Hn)
        as (? & ? & ? & ? & ? & _ & _ & _ & _ & _ & HT).
      rewrite HT.
      split; [ | split; [ | split; [ | split]]].
      * split; eauto.
      * split; eauto.
      * split; eauto.
      * split; eauto.
      * apply Herr; congruence.
Qed.

(** X2. A supplied type that is a key of [typeColor] is kept, whatever
    [defaultType] says. *)
Theorem typed_constructor_keeps_a_recognized_type
    (args : Host.ConstructorArgs) (typeColor : list (string * value)) (k : string) :
  nullish (Host.data args) = false ->
  get (Host.config args) "typeColor" = Ok (VObject typeColor) ->
  get (Host.data args) "type" = Ok (VString k) ->
  k ∈ typeColor.*1 ->
  exists this,
    TypedWarning.constructor args = Ok this /\
    TypedWarning.WarningData.type (TypedWarning.data this) = VString k /\
    TypedWarning.Config.typeColor (TypedWarning.config this) = VObject typeColor /\
    get (Host.config args) "defaultType" = Ok (TypedWarning.defaultType this).
Proof.
  intros Hd Htc Hty Hk.
  destruct (TypedWarning_constructor_ok args (VObject typeColor) Hd Htc eq_refl)
    as (mp & dt & ks & ty & m & _ & Hdt & Hks & Hty' & _ & ->).
  simpl in Hks. injection Hks as <-.
  rewrite Hty in Hty'. injection Hty' as <-.
  eexists. split; [reflexivity | simpl].
  rewrite bool_decide_eq_true_2 by assumption. auto.
Qed.

Lemma typed_constructor_keeps_a_recognized_type_witness :
  exists this,
    TypedWarning.constructor recognized_args = Ok this /\
    TypedWarning.WarningData.type (TypedWarning.data this) = VString "danger" /\
    TypedWarning.Config.typeColor (TypedWarning.config this) = VObject two_types /\
    get (Host.config recognized_args) "defaultType" = Ok (TypedWarning.defaultType this).
Proof.
  apply (typed_constructor_keeps_a_recognized_type recognized_args two_types "danger");
    try reflexivity.
  unfold two_types. simpl. rewrite !elem_of_cons. auto.
Defined.

(** ** [_make] *)

Section Make.
Context `{Browser}.

Lemma validate_cases (t : string) :
  valid_token t \/
  (t = "" /\ validate_token t = Throw SyntaxError) \/
  (t <> "" /\ has_whitespace t = true /\
   validate_token t = Throw InvalidCharacterError).
Proof.
  unfold valid_token, validate_token.
  destruct (String.eqb_spec t ""); [auto | ].
  destruct (has_whitespace t); auto.
Qed.

Lemma classList_add_last (tokens : list string) (st : store) (e : element) :
  classList_add tokens (List.length st) (st ++ [e]) =
  _ ← forEach (fun _ t => validate_token t) tokens tt;
  Ok (st ++ [with_tokens tokens e]).
Proof.
  unfold classList_add.
  destruct (forEach _ tokens tt) as [[] | err]; [ | reflexivity]. bind_step.
  unfold update, element_at. rewrite lookup_base. bind_step.
  rewrite insert_app_r_alt by lia. rewrite Nat.sub_diag. reflexivity.
Qed.

Lemma forEach_set_property_last (attributes : list (string * value)) (st : store)
    (e : element) :
  forEach (fun st' '(attrName, v) => set_property (List.length st) attrName v st')
    attributes (st ++ [e]) =
  e' ← forEach (fun e '(attrName, v) => property_on attrName v e) attributes e;
  Ok (st ++ [e']).
Proof.
  pose proof (forEach_set_property st attributes [] e) as E.
  cbn [List.length app] in E. rewrite Nat.add_0_r in E. exact E.
Qed.

(** [_make] as one equation, for every form of its [classNames] argument:
    the names are checked, the element is built, and it is put at the end
    of the store. *)
Lemma _make_equation (tag : string) (names : classNames)
    (attributes : list (string * value)) (st : store) :
  _make tag names attributes st =
  _ ← forEach (fun _ t => validate_token t) (names_of names) tt;
  e ← made tag (names_of names) attributes;
  Ok (List.length st, st ++ [e]).
Proof.
  unfold _make, createElement, made.
  assert (Hlist : forall l,
    (st1 ← classList_add l (List.length st) (st ++ [new_element tag]);
     st2 ← forEach (fun st' '(attrName, v) =>
                       set_property (List.length st) attrName v st') attributes st1;
     Ok (List.length st, st2)) =
    (_ ← forEach (fun _ t => validate_token t) l tt;
     e ← forEach (fun e '(attrName, v) => property_on attrName v e) attributes
           (with_tokens l (new_element tag));
     Ok (List.length st, st ++ [e]))).
  { intros l. rewrite classList_add_last.
    destruct (forEach _ l tt) as [[] | err]; [ | reflexivity]. bind_step.
    rewrite forEach_set_property_last.
    destruct (forEach _ attributes _); reflexivity. }
  destruct names as [ | s | l]; cbn [names_of].
  - cbn [forEach]. bind_step. rewrite forEach_set_property_last.
    destruct (forEach _ attributes _); reflexivity.
  - cbn [truthy]. destruct (String.eqb s ""); cbn [negb].
    + cbn [forEach]. bind_step. rewrite forEach_set_property_last.
      destruct (forEach _ attributes _); reflexivity.
    + apply Hlist.
  - apply Hlist.
Qed.






End Make.



(** X4. The [classNames] argument of [_make] may be one name or a list:
    one non-empty name does what the list holding it does, one empty name
    adds no class (as [null] does), and an empty name inside a list is
    refused by [classList.add] with a [SyntaxError], before any attribute
    is assigned. *)
Theorem _make_takes_one_name_or_a_list `{Browser}
    (s : string) (attributes : list (string * value)) (st : store) :
  (s <> "" ->
   _make "div" (ClassName s) attributes st =
   _make "div" (ClassArray [s]) attributes st) /\
  _make "div" (ClassName "") attributes st = _make "div" ClassNull attributes st /\
  _make "div" (ClassArray [""]) attributes st = Throw SyntaxError.
Proof.
  rewrite !_make_equation. split; [ | split; reflexivity].
  intros Hs. cbn [names_of]. apply String.eqb_neq in Hs. rewrite Hs. reflexivity.
Qed.

(** ** When [render] returns *)

Section RenderCases.
Context `{Browser}.
Variable st : store.

Lemma _make_throws (tag : string) (tokens : list string)
    (attributes : list (string * value)) (st' : store) (err : error) :
  forEach (fun _ t => validate_token t) tokens tt = Throw err ->
  _make tag (ClassArray tokens) attributes st' = Throw err.
Proof. intros Hv. rewrite _make_equation. cbn [names_of]. rewrite Hv. reflexivity. Qed.

Lemma validate_pair_first (t t' : string) (err : error) :
  validate_token t = Throw err ->
  forEach (fun _ t => validate_token t) [t; t'] tt = Throw err.
Proof. intros E. cbn [forEach]. rewrite E. reflexivity. Qed.

Lemma validate_pair_second (t t' : string) (err : error) :
  valid_token t' ->
  validate_token t = Throw err ->
  forEach (fun _ t => validate_token t) [t'; t] tt = Throw err.
Proof. intros E' E. cbn [forEach]. rewrite E'. bind_step. rewrite E. reflexivity. Qed.

Lemma validate_token_result (t : string) :
  valid_token t \/ exists err, validate_token t = Throw err.
Proof. unfold valid_token. destruct (validate_token t) as [[] | err]; eauto. Qed.

Lemma Warning_render_cases (this : Warning.t) :
  Warning.render this st =
  _ ← validate_token (Host.block (Host.styles (Warning.api this)));
  _ ← validate_token (Host.input (Host.styles (Warning.api this)));
  Ok (List.length st,
      st ++ [container_element
               [Host.block (Host.styles (Warning.api this)); "cdx-warning"]
               [List.length st + 1; List.length st + 2];
             region_element
               [Host.input (Host.styles (Warning.api this)); "cdx-warning__title"]
               (negb (truthy (Warning.readOnly this)))
               (Warning.WarningData.title (Warning.data this))
               (Warning.titlePlaceholder this);
             region_element
               [Host.input (Host.styles (Warning.api this)); "cdx-warning__message"]
               (negb (truthy (Warning.readOnly this)))
               (Warning.WarningData.message (Warning.data this))
               (Warning.messagePlaceholder this)]).
Proof.
  destruct (validate_token_result (Host.block (Host.styles (Warning.api this))))
    as [Hb | [eb Hb]].
  - destruct (validate_token_result (Host.input (Host.styles (Warning.api this))))
      as [Hi | [ei Hi]].
    + rewrite Warning_render_spec by assumption. rewrite Hb, Hi. reflexivity.
    + rewrite Hb, Hi. bind_step. unfold Warning.render.
      cbn [Warning.CSS Warning.WarningCSS.baseClass Warning.WarningCSS.wrapper
           Warning.WarningCSS.title Warning.WarningCSS.input
           Warning.WarningCSS.message].
      rewrite _make_base by (repeat constructor; assumption).
      rewrite made_plain. step.
      erewrite _make_throws; [reflexivity | ].
      apply validate_pair_first. exact Hi.
  - rewrite Hb. bind_step. unfold Warning.render.
    cbn [Warning.CSS Warning.WarningCSS.baseClass Warning.WarningCSS.wrapper].
    erewrite _make_throws; [reflexivity | ].
    apply validate_pair_first. exact Hb.
Qed.

Lemma Success_render_cases (this : Success.t) :
  Success.render this st =
  _ ← validate_token (Host.block (Host.styles (Success.api this)));
  _ ← validate_token (Host.input (Host.styles (Success.api this)));
  Ok (List.length st,
      st ++ [container_element
               [Host.block (Host.styles (Success.api this)); "cdx-success"]
               [List.length st + 1; List.length st + 2];
             region_element
               [Host.input (Host.styles (Success.api this)); "cdx-success__title"]
               true
               (Success.SuccessData.title (Success.data this))
               (Success.titlePlaceholder this);
             region_element
               [Host.input (Host.styles (Success.api this)); "cdx-success__message"]
               true
               (Success.SuccessData.message (Success.data this))
               (Success.messagePlaceholder this)]).
Proof.
  destruct (validate_token_result (Host.block (Host.styles (Success.api this))))
    as [Hb | [eb Hb]].
  - destruct (validate_token_result (Host.input (Host.styles (Success.api this))))
      as [Hi | [ei Hi]].
    + rewrite Success_render_spec by assumption. rewrite Hb, Hi. reflexivity.
    + rewrite Hb, Hi. bind_step. unfold Success.render.
      cbn [Success.CSS Success.SuccessCSS.baseClass Success.SuccessCSS.wrapper
           Success.SuccessCSS.title Success.SuccessCSS.input
           Success.SuccessCSS.message].
      rewrite _make_base by (repeat constructor; assumption).
      rewrite made_plain. step.
      erewrite _make_throws; [reflexivity | ].
      apply validate_pair_first. exact Hi.
  - rewrite Hb. bind_step. unfold Success.render.
    cbn [Success.CSS Success.SuccessCSS.baseClass Success.SuccessCSS.wrapper].
    erewrite _make_throws; [reflexivity | ].
    apply validate_pair_first. exact Hb.
Qed.

Lemma LegacyWarning_render_spec (this : LegacyWarning.t) :
  valid_token (Host.block (Host.styles (LegacyWarning.api this))) ->
  valid_token (Host.input (Host.styles (LegacyWarning.api this))) ->
  LegacyWarning.render this st =
  Ok (List.length st,
      st ++ [container_element
               [Host.block (Host.styles (LegacyWarning.api this)); "cdx-warning"]
               [List.length st + 1; List.length st + 2];
             region_element
               [Host.input (Host.styles (LegacyWarning.api this)); "cdx-warning__title"]
               true
               (LegacyWarning.WarningData.title (LegacyWarning.data this))
               (LegacyWarning.titlePlaceholder this);
             region_element
               [Host.input (Host.styles (LegacyWarning.api this));
                "cdx-warning__message"]
               true
               (LegacyWarning.WarningData.message (LegacyWarning.data this))
               (LegacyWarning.messagePlaceholder this)]).
Proof.
  intros Hb Hi.
  unfold LegacyWarning.render.
  cbn [LegacyWarning.CSS LegacyWarning.WarningCSS.baseClass
       LegacyWarning.WarningCSS.wrapper LegacyWarning.WarningCSS.title
       LegacyWarning.WarningCSS.input LegacyWarning.WarningCSS.message].
  rewrite _make_base by (repeat constructor; assumption).
  rewrite made_plain. step.
  rewrite _make_app by (repeat constructor; assumption).
  rewrite made_region. step.
  rewrite _make_app by (repeat constructor; assumption).
  rewrite made_region. step.
  rewrite set_placeholder_app. step.
  rewrite set_placeholder_app. step.
  rewrite appendChild_app. step.
  rewrite appendChild_app. step.
  rewrite Nat.add_0_r. reflexivity.
Qed.

Lemma LegacyWarning_render_cases (this : LegacyWarning.t) :
  LegacyWarning.render this st =
  _ ← validate_token (Host.block (Host.styles (LegacyWarning.api this)));
  _ ← validate_token (Host.input (Host.styles (LegacyWarning.api this)));
  Ok (List.length st,
      st ++ [container_element
               [Host.block (Host.styles (LegacyWarning.api this)); "cdx-warning"]
               [List.length st + 1; List.length st + 2];
             region_element
               [Host.input (Host.styles (LegacyWarning.api this)); "cdx-warning__title"]
               true
               (LegacyWarning.WarningData.title (LegacyWarning.data this))
               (LegacyWarning.titlePlaceholder this);
             region_element
               [Host.input (Host.styles (LegacyWarning.api this));
                "cdx-warning__message"]
               true
               (LegacyWarning.WarningData.message (LegacyWarning.data this))
               (LegacyWarning.messagePlaceholder this)]).
Proof.
  destruct (validate_token_result (Host.block (Host.styles (LegacyWarning.api this))))
    as [Hb | [eb Hb]].
  - destruct (validate_token_result (Host.input (Host.styles (LegacyWarning.api this))))
      as [Hi | [ei Hi]].
    + rewrite LegacyWarning_render_spec by assumption. rewrite Hb, Hi. reflexivity.
    + rewrite Hb, Hi. bind_step. unfold LegacyWarning.render.
      cbn [LegacyWarning.CSS LegacyWarning.WarningCSS.baseClass
           LegacyWarning.WarningCSS.wrapper LegacyWarning.WarningCSS.title
           LegacyWarning.WarningCSS.input LegacyWarning.WarningCSS.message].
      rewrite _make_base by (repeat constructor; assumption).
      rewrite made_plain. step.
      erewrite _make_throws; [reflexivity | ].
      apply validate_pair_first. exact Hi.
  - rewrite Hb. bind_step. unfold LegacyWarning.render.
    cbn [LegacyWarning.CSS LegacyWarning.WarningCSS.baseClass
         LegacyWarning.WarningCSS.wrapper].
    erewrite _make_throws; [reflexivity | ].
    apply validate_pair_first. exact Hb.
Qed.

(** The typed [render]: the name built from the type is the only one that
    can be refused, and the colour is looked up only for a truthy type. *)
Lemma TypedWarning_render_cases (this : TypedWarning.t) :
  let type := TypedWarning.WarningData.type (TypedWarning.data this) in
  TypedWarning.render this st =
  if has_whitespace (to_string type) then Throw InvalidCharacterError
  else
    paint ← (if truthy type
             then colorCode ← get (TypedWarning.Config.typeColor
                                     (TypedWarning.config this)) (to_string type);
                  Ok (painted colorCode)
             else Ok id);
    Ok (List.length st + 2,
        TypedWarning.set_elements (Some (List.length st + 1))
          (Some (List.length st + 2)) this,
        st ++ [region_element ["cdx-warning__message"]
                 (negb (truthy (TypedWarning.readOnly this)))
                 (TypedWarning.WarningData.message (TypedWarning.data this))
                 (TypedWarning.messagePlaceholder this);
               paint (with_tokens ["bg"] (new_element "div"));
               container_element
                 ["cdx-warning"; "cdx-warning-" +:+ to_string type]
                 [List.length st + 1; List.length st + 0]]).
Proof.
  intros type.
  destruct (has_whitespace (to_string type)) eqn:Hws.
  - unfold TypedWarning.render, logical_not.
    cbn [TypedWarning.CSS TypedWarning.WarningCSS.wrapper
         TypedWarning.WarningCSS.wrapperForType TypedWarning.WarningCSS.message
         TypedWarning.WarningCSS.background].
    fold type.
    rewrite _make_base by (repeat constructor).
    rewrite made_region. step.
    rewrite _make_app by (repeat constructor).
    rewrite made_plain. step.
    rewrite set_placeholder_app. step.
    erewrite _make_throws; [reflexivity | ].
    apply validate_pair_second; [reflexivity | ].
    unfold validate_token. rewrite has_whitespace_app, Hws.
    reflexivity.
  - destruct (truthy type) eqn:Htruthy.
    + destruct (get (TypedWarning.Config.typeColor (TypedWarning.config this))
                  (to_string type)) as [colorCode | err] eqn:Hget.
      * rewrite (TypedWarning_render_spec st this colorCode Hws Hget).
        fold type. rewrite Htruthy. reflexivity.
      * bind_step. unfold TypedWarning.render, logical_not.
        cbn [TypedWarning.CSS TypedWarning.WarningCSS.wrapper
             TypedWarning.WarningCSS.wrapperForType TypedWarning.WarningCSS.message
             TypedWarning.WarningCSS.background].
        fold type.
        rewrite _make_base by (repeat constructor).
        rewrite made_region. step.
        rewrite _make_app by (repeat constructor).
        rewrite made_plain. step.
        rewrite set_placeholder_app. step.
        rewrite _make_app
          by (repeat constructor; auto using valid_token_wrapperForType).
        rewrite made_plain. step.
        rewrite appendChild_app. step.
        rewrite appendChild_app. step.
        rewrite Htruthy, Hget. reflexivity.
    + bind_step. unfold TypedWarning.render, logical_not.
      cbn [TypedWarning.CSS TypedWarning.WarningCSS.wrapper
           TypedWarning.WarningCSS.wrapperForType TypedWarning.WarningCSS.message
           TypedWarning.WarningCSS.background].
      fold type.
      rewrite _make_base by (repeat constructor).
      rewrite made_region. step.
      rewrite _make_app by (repeat constructor).
      rewrite made_plain. step.
      rewrite set_placeholder_app. step.
      rewrite _make_app
        by (repeat constructor; auto using valid_token_wrapperForType).
      rewrite made_plain. step.
      rewrite appendChild_app. step.
      rewrite appendChild_app. step.
      rewrite Htruthy. reflexivity.
Qed.

End RenderCases.

Lemma two_checks {A : Type} (va vb : result unit) (x : A) :
  let r := (_ ← va; _ ← vb; Ok x) in
  ((exists y, r = Ok y) <-> va = Ok tt /\ vb = Ok tt) /\
  (forall e, r = Throw e <-> va = Throw e \/ (va = Ok tt /\ vb = Throw e)).
Proof.
  destruct va as [[] | ea], vb as [[] | eb]; cbn; split.
  - split; eauto.
  - intros e. split; [discriminate | intros [[=] | [_ [=]]]].
  - split; [intros [? [=]] | intros [_ [=]]].
  - intros e. split; [intros [= ->]; auto | intros [[=] | [_ [= ->]]]; reflexivity].
  - split; [intros [? [=]] | intros [[=] _]].
  - intros e. split; [intros [= ->]; auto | intros [[= ->] | [[=] _]]; reflexivity].
  - split; [intros [? [=]] | intros [[=] _]].
  - intros e. split; [intros [= ->]; auto | intros [[= ->] | [[=] _]]; reflexivity].
Qed.


(** X5. [render] of the three title-and-message classes returns exactly
    when the two class names it takes from the host, [api.styles.block]
    and [api.styles.input], are names [classList.add] accepts (not empty,
    no whitespace). Otherwise it throws what [classList.add] throws for
    the first of the two that is refused: [block] is checked when the
    container is made, [input] when the title region is. *)
Theorem render_returns_exactly_when_host_classes_are_valid `{Browser} (st : store) :
  (forall this : Warning.t,
     let block := Host.block (Host.styles (Warning.api this)) in
     let input := Host.input (Host.styles (Warning.api this)) in
     ((exists r, Warning.render this st = Ok r) <->
        valid_token block /\ valid_token input) /\
     (forall e, Warning.render this st = Throw e <->
        validate_token block = Throw e \/
        (valid_token block /\ validate_token input = Throw e))) /\
  (forall this : Success.t,
     let block := Host.block (Host.styles (Success.api this)) in
     let input := Host.input (Host.styles (Success.api this)) in
     ((exists r, Success.render this st = Ok r) <->
        valid_token block /\ valid_token input) /\
     (forall e, Success.render this st = Throw e <->
        validate_token block = Throw e \/
        (valid_token block /\ validate_token input = Throw e))) /\
  (forall this : LegacyWarning.t,
     let block := Host.block (Host.styles (LegacyWarning.api this)) in
     let input := Host.input (Host.styles (LegacyWarning.api this)) in
     ((exists r, LegacyWarning.render this st = Ok r) <->
        valid_token block /\ valid_token input) /\
     (forall e, LegacyWarning.render this st = Throw e <->
        validate_token block = Throw e \/
        (valid_token block /\ validate_token input = Throw e))).
Proof.
  split; [ | split]; intros this block input.
  - rewrite Warning_render_cases. apply two_checks.
  - rewrite Success_render_cases. apply two_checks.
  - rewrite LegacyWarning_render_cases. apply two_checks.
Qed.

(** X6. The typed [render] builds a class name from the type of the
    block. With a [typeColor] to look colours up in, it returns exactly
    when the type, written as a string, holds no whitespace; a type with
    whitespace makes [classList.add] throw an [InvalidCharacterError]. *)
Theorem typed_render_returns_exactly_when_type_has_no_whitespace `{Browser}
    (this : TypedWarning.t) (st : store) :
  let type := TypedWarning.WarningData.type (TypedWarning.data this) in
  nullish (TypedWarning.Config.typeColor (TypedWarning.config this)) = false ->
  ((exists r, TypedWarning.render this st = Ok r) <->
     has_whitespace (to_string type) = false) /\
  (has_whitespace (to_string type) = true ->
   TypedWarning.render this st = Throw InvalidCharacterError).
Proof.
  intros type Hn. rewrite TypedWarning_render_cases. fold type.
  destruct (has_whitespace (to_string type)).
  - split; [ | reflexivity]. split; [intros [? [=]] | discriminate].
  - split; [ | discriminate]. split; [reflexivity | intros _].
    destruct (truthy type); [ | bind_step; eauto].
    destruct (get_total _ (to_string type) Hn) as [colorCode ->]. bind_step. eauto.
Qed.

Lemma typed_render_returns_exactly_when_type_has_no_whitespace_witness :
  exists this,
    TypedWarning.constructor spaced_default_args = Ok this /\
    TypedWarning.WarningData.type (TypedWarning.data this) = VString "high risk" /\
    TypedWarning.render (H := plain_browser) this [] = Throw InvalidCharacterError.
Proof.
  eexists. split; [reflexivity | split; [reflexivity | ]].
  apply (typed_render_returns_exactly_when_type_has_no_whitespace
           (H := plain_browser)); reflexivity.
Defined.

Lemma wrapper_is_not_base (k : string) : "cdx-warning-" +:+ k <> "cdx-warning".
Proof. unfold String.append. simpl. discriminate. Qed.

Lemma container_classes (k : string) :
  foldl add_token [] ["cdx-warning"; "cdx-warning-" +:+ k] =
  ["cdx-warning"; "cdx-warning-" +:+ k].
Proof.
  cbn [foldl]. unfold add_token.
  rewrite (bool_decide_eq_false_2 ("cdx-warning" ∈ [])) by apply not_elem_of_nil.
  rewrite bool_decide_eq_false_2; [reflexivity | ].
  cbn [app]. rewrite list_elem_of_singleton. apply wrapper_is_not_base.
Qed.

(** X7. What the typed [render] shows of the type. For a block of a
    non-empty type [k] without whitespace whose colour the browser
    accepts: the container is returned and kept in [this.container] with
    exactly the classes [cdx-warning] and [cdx-warning-k]; it holds the
    background, then the message region; the background, kept in
    [this.background], has class [bg] and the colour mapped to [k]; the
    message region has its class, the placeholder and the parsed message.
    The data of the adapter is not touched. *)
Theorem typed_render_shows_the_type `{Browser}
    (this : TypedWarning.t) (st : store) (ps : list (string * value))
    (k colour : string) :
  TypedWarning.Config.typeColor (TypedWarning.config this) = VObject ps ->
  TypedWarning.WarningData.type (TypedWarning.data this) = VString k ->
  k <> "" ->
  has_whitespace k = false ->
  accepts (default VUndefined (assoc k ps)) colour ->
  exists container this' st' background ec eb em,
    TypedWarning.render this st = Ok (container, this', st') /\
    TypedWarning.container this' = Some container /\
    TypedWarning.background this' = Some background /\
    TypedWarning.data this' = TypedWarning.data this /\
    st' !! container = Some ec /\
    classList (attrs ec) = ["cdx-warning"; "cdx-warning-" +:+ k] /\
    children_of st' container = [eb; em] /\
    st' !! background = Some eb /\
    classList (attrs eb) = ["bg"] /\
    backgroundColor (attrs eb) = colour /\
    classList (attrs em) = ["cdx-warning__message"] /\
    placeholder (attrs em) = Some (to_string (TypedWarning.messagePlaceholder this)) /\
    childNodes em =
      Parsed <$> parseHTML (to_string_null_empty
                              (TypedWarning.WarningData.message (TypedWarning.data this))).
Proof.
  intros Hps Hty Hne Hws Hcol.
  pose proof (TypedWarning_render_cases st this) as Hr. cbv zeta in Hr.
  rewrite Hty in Hr. cbn [to_string truthy] in Hr. rewrite Hws, Hps in Hr.
  apply String.eqb_neq in Hne. rewrite Hne in Hr. cbn [negb get] in Hr.
  revert Hr. bind_step. intros Hr.
  do 7 eexists. split; [exact Hr | ].
  split; [reflexivity | split; [reflexivity | split; [reflexivity | ]]].
  split; [rewrite (lookup_ext st _ 2); reflexivity | ].
  split; [apply container_classes | ].
  split.
  { unfold children_of.
    rewrite (lookup_ext st _ 2). cbn [lookup list_lookup].
    cbn [container_element with_childNodes childNodes fmap list_fmap omap list_omap].
    rewrite !lookup_ext. reflexivity. }
  split; [rewrite (lookup_ext st _ 1); reflexivity | ].
  split; [destruct (painted_structure (default VUndefined (assoc k ps))
                      (with_tokens ["bg"] (new_element "div"))) as (_ & _ & ->);
          reflexivity | ].
  split; [apply painted_accepts; exact Hcol | ].
  repeat split.
Qed.

Lemma typed_render_shows_the_type_witness :
  exists container this' st' background ec eb em,
    TypedWarning.render (H := plain_browser) two_types_adapter [] =
      Ok (container, this', st') /\
    TypedWarning.container this' = Some container /\
    TypedWarning.background this' = Some background /\
    TypedWarning.data this' = TypedWarning.data two_types_adapter /\
    st' !! container = Some ec /\
    classList (attrs ec) = ["cdx-warning"; "cdx-warning-info"] /\
    children_of st' container = [eb; em] /\
    st' !! background = Some eb /\
    classList (attrs eb) = ["bg"] /\
    backgroundColor (attrs eb) = "#eee" /\
    classList (attrs em) = ["cdx-warning__message"] /\
    placeholder (attrs em) = Some "Message" /\
    childNodes em = [].
Proof.
  apply (typed_render_shows_the_type (H := plain_browser) two_types_adapter []
           two_types "info" "#eee"); try reflexivity.
  - discriminate.
  - split; [discriminate | reflexivity].
Defined.

(** X8. A block whose supplied type is not recognized, under a
    configuration that names no [defaultType], has the type [undefined]:
    [render] gives its container the class [cdx-warning-undefined] and
    leaves the background without a colour. *)
Theorem typed_block_without_any_type `{Browser}
    (args : Host.ConstructorArgs) (st : store) (ps : list (string * value))
    (supplied : value) :
  nullish (Host.data args) = false ->
  get (Host.config args) "typeColor" = Ok (VObject ps) ->
  get (Host.config args) "defaultType" = Ok VUndefined ->
  get (Host.data args) "type" = Ok supplied ->
  (forall k, supplied = VString k -> k ∉ ps.*1) ->
  exists this container this' st' background ec eb,
    TypedWarning.constructor args = Ok this /\
    TypedWarning.WarningData.type (TypedWarning.data this) = VUndefined /\
    TypedWarning.render this st = Ok (container, this', st') /\
    st' !! container = Some ec /\
    classList (attrs ec) = ["cdx-warning"; "cdx-warning-undefined"] /\
    TypedWarning.background this' = Some background /\
    st' !! background = Some eb /\
    backgroundColor (attrs eb) = "".
Proof.
  intros Hd Htc Hdt Hty Hnot.
  destruct (TypedWarning_constructor_ok args (VObject ps) Hd Htc eq_refl)
    as (mp & dt & ks & ty & m & _ & Hdt' & Hks & Hty' & _ & Hc).
  simpl in Hks. injection Hks as <-.
  rewrite Hty in Hty'. injection Hty' as <-.
  rewrite Hdt in Hdt'. injection Hdt' as <-.
  assert (Hinc : includes ps.*1 supplied = false).
  { destruct (includes ps.*1 supplied) eqn:E; [ | reflexivity].
    apply includes_spec in E as (k & -> & Hk). destruct (Hnot k eq_refl Hk). }
  rewrite Hinc in Hc.
  match type of Hc with _ = Ok ?t => set (this := t) in * end.
  assert (Htype : TypedWarning.WarningData.type (TypedWarning.data this) = VUndefined)
    by reflexivity.
  pose proof (TypedWarning_render_cases st this) as Hr. cbv zeta in Hr.
  rewrite Htype in Hr. cbn [to_string truthy has_whitespace] in Hr.
  change (has_whitespace "undefined") with false in Hr.
  revert Hr. bind_step. intros Hr.
  exists this. do 6 eexists.
  split; [exact Hc | split; [exact Htype | split; [exact Hr | ]]].
  split; [rewrite (lookup_ext st _ 2); reflexivity | ].
  split; [apply (container_classes "undefined") | ].
  split; [reflexivity | ].
  split; [rewrite (lookup_ext st _ 1); reflexivity | reflexivity].
Qed.

Lemma typed_block_without_any_type_witness :
  exists this container this' st' background ec eb,
    TypedWarning.constructor no_defaultType_args = Ok this /\
    TypedWarning.WarningData.type (TypedWarning.data this) = VUndefined /\
    TypedWarning.render (H := plain_browser) this [] = Ok (container, this', st') /\
    st' !! container = Some ec /\
    classList (attrs ec) = ["cdx-warning"; "cdx-warning-undefined"] /\
    TypedWarning.background this' = Some background /\
    st' !! background = Some eb /\
    backgroundColor (attrs eb) = "".
Proof.
  apply (typed_block_without_any_type (H := plain_browser) no_defaultType_args []
           [("info", VString "#eee")] VUndefined); try reflexivity.
  intros k [=].
Defined.





(** ** The older JavaScript [Warning] *)

(** X10. The older JavaScript [Warning] from construction to display.
    Given [data] and [config], the constructor returns; a missing or falsy
    title or message is stored as the empty string and a missing or falsy
    placeholder is replaced by "Title" or "Message". [render] then returns
    a container of classes [block] and [cdx-warning] holding the title
    region and the message region, both editable whatever the read-only
    flag of the editor says, each with its class and its placeholder. *)
Theorem legacy_warning_from_construction_to_display `{Browser}
    (args : Host.ConstructorArgs) (st : store) :
  nullish (Host.data args) = false ->
  nullish (Host.config args) = false ->
  valid_token (Host.block (Host.styles (Host.api args))) ->
  valid_token (Host.input (Host.styles (Host.api args))) ->
  exists this tp mp title message container st' ec et em,
    LegacyWarning.constructor args = Ok this /\
    get (Host.data args) "title" = Ok title /\
    get (Host.data args) "message" = Ok message /\
    normalized title (LegacyWarning.WarningData.title (LegacyWarning.data this)) /\
    normalized message (LegacyWarning.WarningData.message (LegacyWarning.data this)) /\
    get (Host.config args) "titlePlaceholder" = Ok tp /\
    get (Host.config args) "messagePlaceholder" = Ok mp /\
    LegacyWarning.titlePlaceholder this = logical_or tp (VString "Title") /\
    LegacyWarning.messagePlaceholder this = logical_or mp (VString "Message") /\
    LegacyWarning.render this st = Ok (container, st') /\
    st' !! container = Some ec /\
    (forall c, c ∈ classList (attrs ec) <->
               c = Host.block (Host.styles (Host.api args)) \/ c = "cdx-warning") /\
    children_of st' container = [et; em] /\
    has_class "cdx-warning__title" (attrs et) = true /\
    has_class "cdx-warning__message" (attrs em) = true /\
    contentEditable (attrs et) = "true" /\
    contentEditable (attrs em) = "true" /\
    placeholder (attrs et) = Some (to_string (logical_or tp (VString "Title"))) /\
    placeholder (attrs em) = Some (to_string (logical_or mp (VString "Message"))).
Proof.
  intros Hd Hc Hb Hi.
  destruct (LegacyWarning_constructor_ok args Hd Hc)
    as (tp & mp & t & m & Htp & Hmp & Ht & Hm & Hcons).
  match type of Hcons with _ = Ok ?x => set (this := x) in * end.
  exists this, tp, mp, t, m. do 5 eexists.
  split; [exact Hcons | ].
  split; [exact Ht | split; [exact Hm | ]].
  split; [apply or_normalized | split; [apply or_normalized | ]].
  split; [exact Htp | split; [exact Hmp | ]].
  split; [reflexivity | split; [reflexivity | ]].
  split; [apply (LegacyWarning_render_spec st this); assumption | ].
  split; [apply lookup_base | ].
  split.
  { intros c. cbn [container_element with_childNodes attrs with_tokens with_attrs
                   with_classList classList new_element].
    rewrite elem_of_add_tokens, elem_of_nil, !elem_of_cons, elem_of_nil.
    cbn [LegacyWarning.api this]. tauto. }
  split; [eapply children_of_rendered; reflexivity | ].
  rewrite !has_class_region.
  repeat split; try reflexivity; apply bool_decide_eq_true_2;
    rewrite !elem_of_cons; auto.
Qed.

Lemma legacy_warning_from_construction_to_display_witness :
  exists this container st' et em,
    LegacyWarning.constructor readonly_args = Ok this /\
    LegacyWarning.WarningData.title (LegacyWarning.data this) = VString "Note" /\
    LegacyWarning.render (H := plain_browser) this [] = Ok (container, st') /\
    children_of st' container = [et; em] /\
    contentEditable (attrs et) = "true" /\
    contentEditable (attrs em) = "true" /\
    placeholder (attrs et) = Some "Title" /\
    placeholder (attrs em) = Some "Message".
Proof.
  destruct (legacy_warning_from_construction_to_display (H := plain_browser)
              readonly_args [] eq_refl eq_refl eq_refl eq_refl)
    as (this & tp & mp & t & m & c & st' & ec & et & em & Hc & Ht & _ & Hnt & _
        & Htp & Hmp & _ & _ & Hr & _ & _ & Hk & _ & _ & Het & Hem & Hpt & Hpm).
  injection Ht as <-. injection Htp as <-. injection Hmp as <-.
  exists this, c, st', et, em.
  split; [exact Hc | ].
  split; [apply Hnt; reflexivity | ].
  split; [exact Hr | split; [exact Hk | ]].
  split; [exact Het | split; [exact Hem | split; [exact Hpt | exact Hpm]]].
Defined.

(** ** More on [save] *)

Section Queries.
Context `{Browser}.


(** What [querySelector] sees below an element holding two elements,
    wherever the three are in the store. *)
Lemma querySelector_two (c : string) (st : store) (root a b : ref)
    (e ea eb : element) :
  css_ident c = true ->
  st !! root = Some e ->
  childNodes e = [Appended a; Appended b] ->
  st !! a = Some ea ->
  st !! b = Some eb ->
  querySelector ("." +:+ c) root st =
  Ok (find_class_in c
        [Element (attrs ea) (subtree (pred (List.length st)) st ea);
         Element (attrs eb) (subtree (pred (List.length st)) st eb)]).
Proof.
  intros Hc He Hkids Ha Hb. unfold querySelector, element_at.
  rewrite class_selector_literal by assumption. rewrite He. bind_step.
  pose proof (lookup_lt_Some _ _ _ He) as Hlen.
  destruct (List.length st) as [ | fuel]; [lia | ].
  erewrite subtree_pair by eassumption. reflexivity.
Qed.

Lemma LegacyWarning_save_reads (this : LegacyWarning.t) (root : ref) (st : store)
    (title message : option node) :
  querySelector ("." +:+ "cdx-warning__title") root st = Ok title ->
  querySelector ("." +:+ "cdx-warning__message") root st = Ok message ->
  LegacyWarning.save this root st =
  match title, message with
  | Some t, Some m =>
      let d := {| LegacyWarning.WarningData.title := VString (node_innerHTML t);
                  LegacyWarning.WarningData.message := VString (node_innerHTML m) |} in
      Ok (d, {| LegacyWarning.api := LegacyWarning.api this;
                LegacyWarning.titlePlaceholder := LegacyWarning.titlePlaceholder this;
                LegacyWarning.messagePlaceholder := LegacyWarning.messagePlaceholder this;
                LegacyWarning.data := d |})
  | _, _ => Throw TypeError
  end.
Proof.
  intros Hqt Hqm. unfold LegacyWarning.save.
  cbn [LegacyWarning.CSS LegacyWarning.WarningCSS.title
       LegacyWarning.WarningCSS.message].
  rewrite Hqt. step. rewrite Hqm. step.
  destruct title, message; reflexivity.
Qed.

End Queries.


(** X12. The three [save] methods that read [innerHTML] off the result of
    [querySelector] without a test throw, on an element of the document,
    exactly when one of the sub-elements they look for is missing, and
    then what they throw is a [TypeError]. *)
Theorem unguarded_save_throws_exactly_without_a_region `{Browser}
    (root : ref) (st : store) :
  is_Some (st !! root) ->
  (forall this : Success.t,
     exists title message,
       querySelector ("." +:+ "cdx-success__title") root st = Ok title /\
       querySelector ("." +:+ "cdx-success__message") root st = Ok message /\
       ((exists e, Success.save this root st = Throw e) <->
          title = None \/ message = None) /\
       (forall e, Success.save this root st = Throw e -> e = TypeError)) /\
  (forall this : LegacyWarning.t,
     exists title message,
       querySelector ("." +:+ "cdx-warning__title") root st = Ok title /\
       querySelector ("." +:+ "cdx-warning__message") root st = Ok message /\
       ((exists e, LegacyWarning.save this root st = Throw e) <->
          title = None \/ message = None) /\
       (forall e, LegacyWarning.save this root st = Throw e -> e = TypeError)) /\
  (forall this : TypedWarning.t,
     exists message,
       querySelector ("." +:+ "cdx-warning__message") root st = Ok message /\
       ((exists e, TypedWarning.save this root st = Throw e) <-> message = None) /\
       (forall e, TypedWarning.save this root st = Throw e -> e = TypeError)).
Proof.
  intros Hroot. split; [ | split]; intros this.
  - destruct (querySelector_total "cdx-success__title" root st eq_refl Hroot)
      as [qt Hqt].
    destruct (querySelector_total "cdx-success__message" root st eq_refl Hroot)
      as [qm Hqm].
    exists qt, qm. split; [exact Hqt | split; [exact Hqm | ]].
    rewrite (Success_save_reads this root st qt qm Hqt Hqm).
    destruct qt, qm; cbn; (split; [split | ]);
      try (intros [? [=]]); try (intros [[=] | [=]]); eauto; congruence.
  - destruct (querySelector_total "cdx-warning__title" root st eq_refl Hroot)
      as [qt Hqt].
    destruct (querySelector_total "cdx-warning__message" root st eq_refl Hroot)
      as [qm Hqm].
    exists qt, qm. split; [exact Hqt | split; [exact Hqm | ]].
    rewrite (LegacyWarning_save_reads this root st qt qm Hqt Hqm).
    destruct qt, qm; cbn; (split; [split | ]);
      try (intros [? [=]]); try (intros [[=] | [=]]); eauto; congruence.
  - destruct (querySelector_total "cdx-warning__message" root st eq_refl Hroot)
      as [qm Hqm].
    exists qm. split; [exact Hqm | ].
    rewrite (TypedWarning_save_reads this root st qm Hqm).
    destruct qm; cbn; (split; [split | ]);
      try (intros [? [=]]); try (intros [=]); eauto; congruence.
Qed.

Lemma unguarded_save_throws_exactly_without_a_region_witness :
  (exists this,
     Success.constructor title_only_args = Ok this /\
     Success.save (H := plain_browser) this 0 bare_div = Throw TypeError) /\
  (exists this,
     LegacyWarning.constructor title_only_args = Ok this /\
     LegacyWarning.save (H := plain_browser) this 0 bare_div = Throw TypeError) /\
  (exists this,
     TypedWarning.constructor danger_args = Ok this /\
     TypedWarning.save (H := plain_browser) this 0 bare_div = Throw TypeError).
Proof.
  destruct (unguarded_save_throws_exactly_without_a_region (H := plain_browser)
              0 bare_div) as (HS & HL & HT); [eexists; reflexivity | ].
  split; [ | split]; eexists; (split; [reflexivity | ]).
  - edestruct HS as (t & m & Hqt & _ & Hiff & Herr).
    injection Hqt as <-.
    destruct (proj2 Hiff (or_introl eq_refl)) as [e He].
    rewrite He. f_equal. eapply Herr. exact He.
  - edestruct HL as (t & m & Hqt & _ & Hiff & Herr).
    injection Hqt as <-.
    destruct (proj2 Hiff (or_introl eq_refl)) as [e He].
    rewrite He. f_equal. eapply Herr. exact He.
  - edestruct HT as (m & Hqm & Hiff & Herr).
    injection Hqm as <-.
    destruct (proj2 Hiff eq_refl) as [e He].
    rewrite He. f_equal. eapply Herr. exact He.
Defined.

(** ** More round trips *)

Section MoreRoundTrips.
Context `{Browser}.

Lemma or_string_value (s : string) :
  to_string_null_empty (logical_or (VString s) (VString "")) = s.
Proof.
  unfold logical_or. simpl. destruct (String.eqb_spec s ""); simpl; congruence.
Qed.

Lemma or_string_is_string (s : string) :
  logical_or (VString s) (VString "") = VString s.
Proof.
  unfold logical_or. simpl. destruct (String.eqb_spec s ""); simpl; congruence.
Qed.

Lemma Success_save_after_render (this : Success.t) (st : store) :
  let block := Host.block (Host.styles (Success.api this)) in
  let input := Host.input (Host.styles (Success.api this)) in
  let title := to_string_null_empty (Success.SuccessData.title (Success.data this)) in
  let message :=
    to_string_null_empty (Success.SuccessData.message (Success.data this)) in
  valid_token block ->
  valid_token input ->
  input <> "cdx-success__message" ->
  find_class_in "cdx-success__message" (parseHTML title) = None ->
  exists container st' this',
    Success.render this st = Ok (container, st') /\
    Success.save this container st' =
      Ok ({| Success.SuccessData.title := VString (serializeHTML (parseHTML title));
             Success.SuccessData.message :=
               VString (serializeHTML (parseHTML message)) |}, this') /\
    Success.data this' =
      {| Success.SuccessData.title := VString (serializeHTML (parseHTML title));
         Success.SuccessData.message := VString (serializeHTML (parseHTML message)) |}.
Proof.
  intros block input title message Hb Hi Hne Hfree.
  do 3 eexists. split; [apply Success_render_spec; assumption | ].
  unfold Success.save.
  cbn [Success.CSS Success.SuccessCSS.title Success.SuccessCSS.message].
  erewrite !querySelector_pair; try reflexivity. step.
  cbn [find_class_in]. rewrite !find_class_element, !has_class_region.
  rewrite !subtree_region. fold input title message.
  rewrite (bool_decide_eq_true_2 ("cdx-success__title" ∈ [input; "cdx-success__title"]))
    by (rewrite !elem_of_cons; auto).
  rewrite (bool_decide_eq_false_2
             ("cdx-success__message" ∈ [input; "cdx-success__title"])).
  2:{ rewrite !elem_of_cons, elem_of_nil. intros [Heq | [[=] | []]]. congruence. }
  rewrite Hfree.
  rewrite (bool_decide_eq_true_2
             ("cdx-success__message" ∈ [input; "cdx-success__message"]))
    by (rewrite !elem_of_cons; auto).
  split; reflexivity.
Qed.

Lemma LegacyWarning_save_after_render (this : LegacyWarning.t) (st : store) :
  let block := Host.block (Host.styles (LegacyWarning.api this)) in
  let input := Host.input (Host.styles (LegacyWarning.api this)) in
  let title :=
    to_string_null_empty (LegacyWarning.WarningData.title (LegacyWarning.data this)) in
  let message :=
    to_string_null_empty (LegacyWarning.WarningData.message (LegacyWarning.data this)) in
  valid_token block ->
  valid_token input ->
  input <> "cdx-warning__message" ->
  find_class_in "cdx-warning__message" (parseHTML title) = None ->
  exists container st' this',
    LegacyWarning.render this st = Ok (container, st') /\
    LegacyWarning.save this container st' =
      Ok ({| LegacyWarning.WarningData.title :=
               VString (serializeHTML (parseHTML title));
             LegacyWarning.WarningData.message :=
               VString (serializeHTML (parseHTML message)) |}, this') /\
    LegacyWarning.data this' =
      {| LegacyWarning.WarningData.title := VString (serializeHTML (parseHTML title));
         LegacyWarning.WarningData.message :=
           VString (serializeHTML (parseHTML message)) |}.
Proof.
  intros block input title message Hb Hi Hne Hfree.
  do 3 eexists. split; [apply LegacyWarning_render_spec; assumption | ].
  unfold LegacyWarning.save.
  cbn [LegacyWarning.CSS LegacyWarning.WarningCSS.title
       LegacyWarning.WarningCSS.message].
  erewrite !querySelector_pair; try reflexivity. step.
  cbn [find_class_in]. rewrite !find_class_element, !has_class_region.
  rewrite !subtree_region. fold input title message.
  rewrite (bool_decide_eq_true_2 ("cdx-warning__title" ∈ [input; "cdx-warning__title"]))
    by (rewrite !elem_of_cons; auto).
  rewrite (bool_decide_eq_false_2
             ("cdx-warning__message" ∈ [input; "cdx-warning__title"])).
  2:{ rewrite !elem_of_cons, elem_of_nil. intros [Heq | [[=] | []]]. congruence. }
  rewrite Hfree.
  rewrite (bool_decide_eq_true_2
             ("cdx-warning__message" ∈ [input; "cdx-warning__message"]))
    by (rewrite !elem_of_cons; auto).
  split; reflexivity.
Qed.

Lemma background_facts (b : bool) (colorCode : value) :
  let e := (if b then painted colorCode else id) (with_tokens ["bg"] (new_element "div")) in
  classList (attrs e) = ["bg"] /\ childNodes e = [] /\ clickListeners e = [].
Proof.
  destruct b; cbn [id]; [ | repeat split].
  destruct (painted_structure colorCode (with_tokens ["bg"] (new_element "div")))
    as (-> & -> & ->).
  repeat split.
Qed.

(** On the element it rendered, the typed [save] returns the type of the
    block with the serialization of what the parser made of the message,
    and leaves the adapter as [render] left it. *)
Lemma TypedWarning_save_after_render (this : TypedWarning.t) (st : store) :
  let type := TypedWarning.WarningData.type (TypedWarning.data this) in
  let message :=
    to_string_null_empty (TypedWarning.WarningData.message (TypedWarning.data this)) in
  has_whitespace (to_string type) = false ->
  nullish (TypedWarning.Config.typeColor (TypedWarning.config this)) = false ->
  exists container this' st',
    TypedWarning.render this st = Ok (container, this', st') /\
    TypedWarning.save this' container st' =
      Ok ({| TypedWarning.WarningData.type := type;
             TypedWarning.WarningData.message :=
               VString (serializeHTML (parseHTML message)) |}, this').
Proof.
  intros type message Hws Hn.
  destruct (get_total _ (to_string type) Hn) as [colorCode Hcolor].
  do 3 eexists. split; [apply TypedWarning_render_spec; eassumption | ].
  fold type.
  destruct (background_facts (truthy type) colorCode) as (Hbc & Hbk & _).
  unfold TypedWarning.save.
  cbn [TypedWarning.CSS TypedWarning.WarningCSS.message].
  erewrite querySelector_two;
    [ | reflexivity
      | rewrite (lookup_ext st _ 2); reflexivity
      | reflexivity
      | rewrite (lookup_ext st _ 1); reflexivity
      | rewrite (lookup_ext st _ 0); reflexivity ].
  step. cbn [find_class_in]. rewrite !find_class_element.
  unfold has_class at 1. rewrite Hbc.
  rewrite (bool_decide_eq_false_2 ("cdx-warning__message" ∈ ["bg"])).
  2:{ rewrite list_elem_of_singleton. discriminate. }
  rewrite (subtree_empty _ _ _ Hbk). cbn [find_class_in].
  rewrite has_class_region, subtree_region.
  rewrite bool_decide_eq_true_2 by (rewrite list_elem_of_singleton; reflexivity).
  reflexivity.
Qed.

(** When the markup of the title holds an element answering to the
    message selector, that element is what [save] reads the message
    from. *)
Lemma Warning_save_shadowed (this : Warning.t) (st : store) (n : node) :
  let block := Host.block (Host.styles (Warning.api this)) in
  let input := Host.input (Host.styles (Warning.api this)) in
  let title := to_string_null_empty (Warning.WarningData.title (Warning.data this)) in
  valid_token block ->
  valid_token input ->
  input <> "cdx-warning__message" ->
  find_class_in "cdx-warning__message" (parseHTML title) = Some n ->
  exists container st' this',
    Warning.render this st = Ok (container, st') /\
    Warning.save this container st' =
      Ok ({| Warning.WarningData.title := VString (serializeHTML (parseHTML title));
             Warning.WarningData.message := VString (node_innerHTML n) |}, this').
Proof.
  intros block input title Hb Hi Hne Hfound.
  do 3 eexists. split; [apply Warning_render_spec; assumption | ].
  unfold Warning.save.
  cbn [Warning.CSS Warning.WarningCSS.title Warning.WarningCSS.message].
  erewrite !querySelector_pair; try reflexivity. step.
  cbn [find_class_in]. rewrite !find_class_element, !has_class_region.
  rewrite !subtree_region. fold input title.
  rewrite (bool_decide_eq_true_2 ("cdx-warning__title" ∈ [input; "cdx-warning__title"]))
    by (rewrite !elem_of_cons; auto).
  rewrite (bool_decide_eq_false_2
             ("cdx-warning__message" ∈ [input; "cdx-warning__title"])).
  2:{ rewrite !elem_of_cons, elem_of_nil. intros [Heq | [[=] | []]]. congruence. }
  rewrite Hfound. reflexivity.
Qed.

End MoreRoundTrips.

(** X13. Saved title-and-message data, held as strings the browser parses
    and serializes back to themselves, with no element in the title that
    answers to a message selector: constructing a [Success] or an older
    [Warning] from it, rendering and saving the rendered element returns
    the data the adapter was constructed with, and that data is also what
    the adapter holds afterwards. *)
Theorem javascript_classes_round_trip `{Browser}
    (args : Host.ConstructorArgs) (st : store) (title message : string) :
  let input := Host.input (Host.styles (Host.api args)) in
  Host.data args = saved_block title message ->
  nullish (Host.config args) = false ->
  valid_token (Host.block (Host.styles (Host.api args))) ->
  valid_token input ->
  input <> "cdx-success__message" ->
  input <> "cdx-warning__message" ->
  serializeHTML (parseHTML title) = title ->
  serializeHTML (parseHTML message) = message ->
  find_class_in "cdx-success__message" (parseHTML title) = None ->
  find_class_in "cdx-warning__message" (parseHTML title) = None ->
  (exists this container st' d this',
     Success.constructor args = Ok this /\
     Success.render this st = Ok (container, st') /\
     Success.save this container st' = Ok (d, this') /\
     Success.SuccessData.to_value d = Host.data args /\
     Success.data this' = d) /\
  (exists this container st' d this',
     LegacyWarning.constructor args = Ok this /\
     LegacyWarning.render this st = Ok (container, st') /\
     LegacyWarning.save this container st' = Ok (d, this') /\
     LegacyWarning.WarningData.to_value d = Host.data args /\
     LegacyWarning.data this' = d).
Proof.
  intros input Hdata Hcfg Hb Hi HneS HneW Ht Hm HfreeS HfreeW.
  assert (Hd : nullish (Host.data args) = false) by (rewrite Hdata; reflexivity).
  split.
  - destruct (Success_constructor_ok args Hd Hcfg)
      as (tp & mp & t & m & _ & _ & Hgt & Hgm & Hc).
    rewrite Hdata in Hgt, Hgm. simpl in Hgt, Hgm.
    injection Hgt as <-. injection Hgm as <-.
    match type of Hc with _ = Ok ?x => set (this := x) in * end.
    destruct (Success_save_after_render this st) as (c & st' & this' & Hr & Hs & Hd');
      [exact Hb | exact Hi | exact HneS
       | cbn [this Success.data Success.SuccessData.title];
         rewrite or_string_value; exact HfreeS | ].
    cbn [this Success.data Success.SuccessData.title Success.SuccessData.message]
      in Hs, Hd'.
    rewrite !or_string_value, Ht, Hm in Hs, Hd'.
    exists this, c, st'. do 2 eexists.
    split; [exact Hc | split; [exact Hr | split; [exact Hs | ]]].
    split; [rewrite Hdata; reflexivity | exact Hd'].
  - destruct (LegacyWarning_constructor_ok args Hd Hcfg)
      as (tp & mp & t & m & _ & _ & Hgt & Hgm & Hc).
    rewrite Hdata in Hgt, Hgm. simpl in Hgt, Hgm.
    injection Hgt as <-. injection Hgm as <-.
    match type of Hc with _ = Ok ?x => set (this := x) in * end.
    destruct (LegacyWarning_save_after_render this st)
      as (c & st' & this' & Hr & Hs & Hd');
      [exact Hb | exact Hi | exact HneW
       | cbn [this LegacyWarning.data LegacyWarning.WarningData.title];
         rewrite or_string_value; exact HfreeW | ].
    cbn [this LegacyWarning.data LegacyWarning.WarningData.title
         LegacyWarning.WarningData.message] in Hs, Hd'.
    rewrite !or_string_value, Ht, Hm in Hs, Hd'.
    exists this, c, st'. do 2 eexists.
    split; [exact Hc | split; [exact Hr | split; [exact Hs | ]]].
    split; [rewrite Hdata; reflexivity | exact Hd'].
Qed.

Lemma javascript_classes_round_trip_witness :
  (exists this container st' d this',
     Success.constructor saved_args = Ok this /\
     Success.render (H := plain_browser) this [] = Ok (container, st') /\
     Success.save (H := plain_browser) this container st' = Ok (d, this') /\
     Success.SuccessData.to_value d = saved_block "Note" "Handle with care" /\
     Success.data this' = d) /\
  (exists this container st' d this',
     LegacyWarning.constructor saved_args = Ok this /\
     LegacyWarning.render (H := plain_browser) this [] = Ok (container, st') /\
     LegacyWarning.save (H := plain_browser) this container st' = Ok (d, this') /\
     LegacyWarning.WarningData.to_value d = saved_block "Note" "Handle with care" /\
     LegacyWarning.data this' = d).
Proof.
  apply (javascript_classes_round_trip (H := plain_browser)
           saved_args [] "Note" "Handle with care"); try reflexivity;
    discriminate.
Defined.

(** X14. A typed block saved with a recognized type free of whitespace
    and a message the browser parses and serializes back to itself:
    constructing the adapter, rendering and saving the rendered element
    returns the data it was constructed with. *)
Theorem typed_block_round_trip `{Browser}
    (args : Host.ConstructorArgs) (st : store) (ps : list (string * value))
    (k message : string) :
  Host.data args = saved_typed_block k message ->
  get (Host.config args) "typeColor" = Ok (VObject ps) ->
  k ∈ ps.*1 ->
  has_whitespace k = false ->
  serializeHTML (parseHTML message) = message ->
  exists this container this' st' d,
    TypedWarning.constructor args = Ok this /\
    TypedWarning.render this st = Ok (container, this', st') /\
    TypedWarning.save this' container st' = Ok (d, this') /\
    TypedWarning.WarningData.to_value d = Host.data args.
Proof.
  intros Hdata Htc Hk Hws Hm.
  assert (Hd : nullish (Host.data args) = false) by (rewrite Hdata; reflexivity).
  destruct (TypedWarning_constructor_ok args (VObject ps) Hd Htc eq_refl)
    as (mp & dt & ks & ty & m & _ & _ & Hks & Hty & Hgm & Hc).
  simpl in Hks. injection Hks as <-.
  rewrite Hdata in Hty, Hgm. simpl in Hty, Hgm.
  injection Hty as <-. injection Hgm as <-.
  cbn [includes] in Hc. rewrite bool_decide_eq_true_2 in Hc by assumption.
  match type of Hc with _ = Ok ?x => set (this := x) in * end.
  destruct (TypedWarning_save_after_render this st) as (c & this' & st' & Hr & Hs);
    [exact Hws | reflexivity | ].
  cbn [this TypedWarning.data TypedWarning.WarningData.type
       TypedWarning.WarningData.message] in Hs.
  rewrite or_string_value, Hm in Hs.
  exists this, c, this', st'. eexists.
  split; [exact Hc | split; [exact Hr | split; [exact Hs | ]]].
  rewrite Hdata. reflexivity.
Qed.

Lemma typed_block_round_trip_witness :
  exists this container this' st' d,
    TypedWarning.constructor recognized_args = Ok this /\
    TypedWarning.render (H := plain_browser) this [] = Ok (container, this', st') /\
    TypedWarning.save (H := plain_browser) this' container st' = Ok (d, this') /\
    TypedWarning.WarningData.to_value d = saved_typed_block "danger" "x".
Proof.
  apply (typed_block_round_trip (H := plain_browser)
           recognized_args [] two_types "danger" "x"); try reflexivity.
  unfold two_types. simpl. rewrite !elem_of_cons. auto.
Defined.

(** X15. [save] takes the message from the first element, in document
    order, that carries the message class. When the markup of the title
    holds such an element, rendering and saving returns the content of
    that element as the message, whatever the message region holds: the
    title comes back, the message does not. *)
Theorem message_class_inside_title_shadows_message `{Browser}
    (args : Host.ConstructorArgs) (st : store) (title message : string) (n : node) :
  Host.data args = saved_block title message ->
  valid_token (Host.block (Host.styles (Host.api args))) ->
  valid_token (Host.input (Host.styles (Host.api args))) ->
  Host.input (Host.styles (Host.api args)) <> "cdx-warning__message" ->
  find_class_in "cdx-warning__message" (parseHTML title) = Some n ->
  exists this container st' d this',
    Warning.constructor args = Ok this /\
    Warning.WarningData.message (Warning.data this) = VString message /\
    Warning.render this st = Ok (container, st') /\
    Warning.save this container st' = Ok (d, this') /\
    Warning.WarningData.title d = VString (serializeHTML (parseHTML title)) /\
    Warning.WarningData.message d = VString (node_innerHTML n).
Proof.
  intros Hdata Hb Hi Hne Hfound.
  assert (Hd : nullish (Host.data args) = false) by (rewrite Hdata; reflexivity).
  destruct (Warning_constructor_ok args Hd)
    as (tp & mp & t & m & _ & _ & Hgt & Hgm & Hc).
  rewrite Hdata in Hgt, Hgm. simpl in Hgt, Hgm.
  injection Hgt as <-. injection Hgm as <-.
  match type of Hc with _ = Ok ?x => set (this := x) in * end.
  destruct (Warning_save_shadowed this st n) as (c & st' & this' & Hr & Hs);
    [exact Hb | exact Hi | exact Hne
     | cbn [this Warning.data Warning.WarningData.title];
       rewrite or_string_value; exact Hfound | ].
  cbn [this Warning.data Warning.WarningData.title] in Hs.
  rewrite or_string_value in Hs.
  exists this, c, st'. do 2 eexists.
  split; [exact Hc | ].
  split; [cbn [this Warning.data Warning.WarningData.message];
          apply or_string_is_string | ].
  split; [exact Hr | split; [exact Hs | split; reflexivity]].
Qed.

Lemma message_class_inside_title_shadows_message_witness :
  exists this container st' d this',
    Warning.constructor nested_message_args = Ok this /\
    Warning.WarningData.message (Warning.data this) = VString "Handle with care" /\
    Warning.render (H := span_browser) this [] = Ok (container, st') /\
    Warning.save (H := span_browser) this container st' = Ok (d, this') /\
    Warning.WarningData.title d = VString nested_message_markup /\
    Warning.WarningData.message d = VString "gap".
Proof.
  apply (message_class_inside_title_shadows_message (H := span_browser)
           nested_message_args [] nested_message_markup "Handle with care"
           (Element {| tagName := "span"; classList := ["cdx-warning__message"];
                       contentEditable := "inherit"; placeholder := None;
                       backgroundColor := "" |} [Text "gap"]));
    try reflexivity.
  discriminate.
Defined.

(** ** The settings strip as [renderSettings] leaves it *)

Section StripFacts.
Context `{Browser}.
Variable this : TypedWarning.t.
Variable st : store.
Variable ps : list (string * value).

Let sb := Host.settingsButton (Host.styles (TypedWarning.api this)).
Let ac := Host.settingsButtonActive (Host.styles (TypedWarning.api this)).
Let L := List.length st.

Hypothesis Hps : TypedWarning.Config.typeColor (TypedWarning.config this) = VObject ps.
Hypothesis Hnodup : NoDup ps.*1.
Hypothesis Hkeys : Forall (fun k => has_whitespace k = false) ps.*1.
Hypothesis Hsb : valid_token sb.
Hypothesis Hac : valid_token ac.

Lemma strip_after_renderSettings :
  exists new,
    TypedWarning.renderSettings this st = Ok (L, st ++ new) /\
    List.length new = 2 + List.length ps /\
    controls (st ++ new) L = (settings_controls (L + 2) ps.*1).*2 /\
    (forall k r, (k, r) ∈ settings_controls (L + 2) ps.*1 ->
       (st ++ new) !! r = Some (settings_button this L r k) /\
       control_of (st ++ new) L k = Some r).
Proof.
  pose proof (TypedWarning_renderSettings_spec this st Hsb Hac ps Hps Hkeys) as Hspec.
  fold L in Hspec.
  match type of Hspec with _ = Ok (_, st ++ ?n) => set (new := n) in * end.
  exists new. split; [exact Hspec | ].
  assert (Hbutton : forall k r, (k, r) ∈ settings_controls (L + 2) ps.*1 ->
                      (st ++ new) !! r = Some (settings_button this L r k)).
  { intros k r Hkr. apply elem_of_settings_controls in Hkr as (i & Hi & ->).
    replace (L + 2 + i) with (L + (2 + i)) at 1 by lia.
    unfold L at 1. rewrite lookup_ext. unfold new.
    match goal with
    | |- (?a :: ?b :: ?l) !! (2 + i) = _ => change ((a :: b :: l) !! (2 + i)) with (l !! i)
    end.
    rewrite list_lookup_imap, Hi. reflexivity. }
  assert (Hcontrols : controls (st ++ new) L = (settings_controls (L + 2) ps.*1).*2).
  { assert (Hsc : (st ++ new) !! L =
                    Some (container_element ["settingsButton-wrapper"]
                            (L + 1 :: (settings_controls (L + 2) ps.*1).*2))).
    { unfold new, L. apply lookup_base. }
    unfold controls, appended. rewrite Hsc.
    cbn [container_element with_childNodes childNodes fmap list_fmap omap list_omap].
    rewrite appended_fmap. cbn [List.filter].
    assert (Htitle : listens (st ++ new) (L + 1) = false).
    { unfold listens, L. rewrite lookup_ext. reflexivity. }
    rewrite Htitle.
    assert (Hall : forall r, r ∈ (settings_controls (L + 2) ps.*1).*2 ->
                             listens (st ++ new) r = true).
    { intros r Hr. apply list_elem_of_fmap in Hr as ([k r'] & -> & Hkr).
      unfold listens. cbn [snd]. rewrite (Hbutton k r' Hkr).
      destruct (settings_button_facts this L r' k) as (_ & -> & _). reflexivity. }
    revert Hall. generalize ((settings_controls (L + 2) ps.*1).*2) as refs.
    induction refs as [ | r refs IH]; intros Hall; [reflexivity | ].
    cbn [List.filter]. rewrite Hall by left. f_equal. apply IH.
    intros r' Hr'. apply Hall. right. exact Hr'. }
  split.
  { unfold new. cbn [List.length]. rewrite length_imap, length_fmap. reflexivity. }
  split; [exact Hcontrols | ].
  intros k r Hkr. split; [apply Hbutton; exact Hkr | ].
  unfold control_of. rewrite Hcontrols.
  apply find_control; [rewrite settings_controls_fst; exact Hnodup | | exact Hkr].
  intros k' r' Hkr'. unfold listens_for. rewrite (Hbutton k' r' Hkr').
  destruct (settings_button_facts this L r' k') as (_ & -> & _). cbn.
  destruct (String.eqb_spec k' k).
  - rewrite bool_decide_eq_true_2 by assumption. reflexivity.
  - rewrite bool_decide_eq_false_2 by assumption. reflexivity.
Qed.


End StripFacts.



Lemma forEach_app {A S : Type} (body : S -> A -> result S) (l1 l2 : list A) :
  forall s : S,
    forEach body (l1 ++ l2) s = s' ← forEach body l1 s; forEach body l2 s'.
Proof.
  induction l1 as [ | x l1 IH]; intros s; cbn [forEach app]; [reflexivity | ].
  destruct (body s x) as [s1 | err]; [ | reflexivity]. bind_step. apply IH.
Qed.

Lemma first_whitespace (ks : list string) :
  ~ Forall (fun k => has_whitespace k = false) ks ->
  exists ks1 k ks2,
    ks = ks1 ++ k :: ks2 /\
    Forall (fun k => has_whitespace k = false) ks1 /\
    has_whitespace k = true.
Proof.
  induction ks as [ | k ks IH]; intros Hnot; [destruct Hnot; constructor | ].
  destruct (has_whitespace k) eqn:Hk.
  - exists [], k, ks. split; [reflexivity | split; [constructor | exact Hk]].
  - destruct IH as (ks1 & k' & ks2 & -> & Hks1 & Hk').
    { intros Hall. apply Hnot. constructor; assumption. }
    exists (k :: ks1), k', ks2.
    split; [reflexivity | split; [constructor; assumption | exact Hk']].
Qed.

Section StripErrors.
Context `{Browser}.
Variable this : TypedWarning.t.
Variable st : store.
Variable ps : list (string * value).

Let sb := Host.settingsButton (Host.styles (TypedWarning.api this)).
Let ac := Host.settingsButtonActive (Host.styles (TypedWarning.api this)).

Hypothesis Hps : TypedWarning.Config.typeColor (TypedWarning.config this) = VObject ps.
Hypothesis Hsb : valid_token sb.
Hypothesis Hac : valid_token ac.

Lemma renderSettings_each_whitespace (st' : store) (sc : ref) (k : string) :
  has_whitespace k = true ->
  TypedWarning.renderSettings_each this sc st' k = Throw InvalidCharacterError.
Proof.
  intros Hk. unfold TypedWarning.renderSettings_each.
  cbn [TypedWarning.CSS TypedWarning.WarningCSS.settingsButton
       TypedWarning.WarningCSS.wrapper TypedWarning.WarningCSS.wrapperForType
       to_string].
  fold sb. erewrite _make_throws; [reflexivity | ].
  cbn [forEach]. rewrite Hsb. bind_step.
  change (validate_token "cdx-warning") with (Ok tt). bind_step.
  unfold validate_token. rewrite has_whitespace_app, Hk. reflexivity.
Qed.

Lemma renderSettings_whitespace (ks1 ks2 : list string) (k : string) :
  ps.*1 = ks1 ++ k :: ks2 ->
  Forall (fun k => has_whitespace k = false) ks1 ->
  has_whitespace k = true ->
  TypedWarning.renderSettings this st = Throw InvalidCharacterError.
Proof.
  intros Hsplit Hks1 Hk. unfold TypedWarning.renderSettings.
  cbn [TypedWarning.CSS TypedWarning.WarningCSS.settingsContainer
       TypedWarning.WarningCSS.title].
  rewrite _make_base by (repeat constructor).
  rewrite made_plain. step.
  rewrite _make_app by (repeat constructor).
  rewrite made_plain. step.
  rewrite set_innerHTML_app. step.
  rewrite appendChild_app. step.
  rewrite Hps. cbn [keys]. bind_step. rewrite Nat.add_0_r.
  rewrite Hsplit, forEach_app.
  rewrite (renderSettings_loop this st Hsb Hac) by assumption. bind_step.
  cbn [forEach]. rewrite renderSettings_each_whitespace by assumption.
  reflexivity.
Qed.

End StripErrors.

(** X17. [renderSettings] builds a class name from every key of
    [typeColor]: it returns exactly when none of them holds whitespace,
    and throws an [InvalidCharacterError] otherwise. *)
Theorem renderSettings_returns_exactly_when_types_have_no_whitespace `{Browser}
    (this : TypedWarning.t) (st : store) (ps : list (string * value)) :
  let styles := Host.styles (TypedWarning.api this) in
  TypedWarning.Config.typeColor (TypedWarning.config this) = VObject ps ->
  valid_token (Host.settingsButton styles) ->
  valid_token (Host.settingsButtonActive styles) ->
  ((exists r, TypedWarning.renderSettings this st = Ok r) <->
     Forall (fun k => has_whitespace k = false) ps.*1) /\
  (~ Forall (fun k => has_whitespace k = false) ps.*1 ->
   TypedWarning.renderSettings this st = Throw InvalidCharacterError).
Proof.
  intros styles Hps Hsb Hac.
  assert (Hthrow : ~ Forall (fun k => has_whitespace k = false) ps.*1 ->
                   TypedWarning.renderSettings this st = Throw InvalidCharacterError).
  { intros Hnot. destruct (first_whitespace _ Hnot) as (ks1 & k & ks2 & Hsplit & Hks1 & Hk).
    eapply renderSettings_whitespace; eassumption. }
  split; [ | exact Hthrow].
  split.
  - intros [r Hr].
    destruct (decide (Forall (fun k => has_whitespace k = false) ps.*1)) as [Hall | Hnot];
      [exact Hall | ].
    rewrite (Hthrow Hnot) in Hr. discriminate.
  - intros Hall.
    rewrite (TypedWarning_renderSettings_spec this st Hsb Hac ps Hps Hall). eauto.
Qed.

Lemma renderSettings_returns_exactly_when_types_have_no_whitespace_witness :
  exists this,
    TypedWarning.constructor spaced_key_args = Ok this /\
    TypedWarning.renderSettings (H := plain_browser) this [] =
      Throw InvalidCharacterError.
Proof.
  eexists. split; [reflexivity | ].
  eapply (renderSettings_returns_exactly_when_types_have_no_whitespace
            (H := plain_browser)); try reflexivity.
  intros Hall. cbn in Hall.
  apply Forall_cons in Hall as [_ Hall]. apply Forall_cons in Hall as [Hk _].
  discriminate.
Defined.

Lemma changeAlertType_each_unrendered `{Browser}
    (this : TypedWarning.t) (newType type : string) (st : store) :
  TypedWarning.container this = None ->
  TypedWarning._changeAlertType_each this newType st type = Throw TypeError.
Proof. intros Hnone. unfold TypedWarning._changeAlertType_each. rewrite Hnone. reflexivity. Qed.

(** X18. The click listeners need a rendered block. On an adapter whose
    [render] has not run, [renderSettings] still returns its strip, but a
    click on any of its controls throws a [TypeError]: [_changeAlertType]
    reaches for the container, which is not there yet. *)
Theorem click_before_render_throws `{Browser}
    (this : TypedWarning.t) (st : store) (ps : list (string * value)) (k : string) :
  let styles := Host.styles (TypedWarning.api this) in
  TypedWarning.container this = None ->
  TypedWarning.Config.typeColor (TypedWarning.config this) = VObject ps ->
  NoDup ps.*1 ->
  Forall (fun k => has_whitespace k = false) ps.*1 ->
  valid_token (Host.settingsButton styles) ->
  valid_token (Host.settingsButtonActive styles) ->
  k ∈ ps.*1 ->
  exists settings st' control,
    TypedWarning.renderSettings this st = Ok (settings, st') /\
    control_of st' settings k = Some control /\
    TypedWarning.click this control st' = Throw TypeError.
Proof.
  intros styles Hnone Hps Hnd Hkeys Hsb Hac Hk.
  destruct (strip_after_renderSettings this st ps Hps Hnd Hkeys Hsb Hac)
    as (new & Hrun & _ & _ & Hctrl).
  apply list_elem_of_lookup in Hk as [i Hi].
  assert (Hkr : (k, List.length st + 2 + i) ∈ settings_controls (List.length st + 2) ps.*1)
    by (apply elem_of_settings_controls; eauto).
  destruct (Hctrl _ _ Hkr) as [He Hof].
  do 3 eexists. split; [exact Hrun | split; [exact Hof | ]].
  unfold TypedWarning.click, element_at. rewrite He. bind_step.
  destruct (settings_button_facts this (List.length st) (List.length st + 2 + i) k)
    as (_ & -> & _).
  cbn [forEach]. unfold TypedWarning.on_click, TypedWarning._changeAlertType.
  cbn [captured_type TypedWarning.set_data TypedWarning.config].
  rewrite Hps. cbn [keys]. bind_step.
  destruct ps as [ | [k0 v0] ps']; [discriminate | ].
  cbn [fmap list_fmap forEach fst].
  rewrite changeAlertType_each_unrendered by exact Hnone. reflexivity.
Qed.

Lemma click_before_render_throws_witness :
  exists settings st' control,
    TypedWarning.renderSettings (H := plain_browser) two_types_adapter [] =
      Ok (settings, st') /\
    control_of st' settings "danger" = Some control /\
    TypedWarning.click (H := plain_browser) two_types_adapter control st' =
      Throw TypeError.
Proof.
  apply (click_before_render_throws (H := plain_browser) two_types_adapter []
           two_types "danger"); try reflexivity.
  - cbn. apply NoDup_cons.
    split; [rewrite list_elem_of_singleton; discriminate | apply NoDup_singleton].
  - repeat constructor.
  - cbn. rewrite !elem_of_cons. auto.
Defined.

(** ** Class lists under a change of type *)

Section TypeClasses.

Lemma filter_filter_and {A : Type} (f g : A -> bool) (l : list A) :
  List.filter f (List.filter g l) = List.filter (fun x => g x && f x) l.
Proof.
  induction l as [ | x l IH]; [reflexivity | ]. cbn [List.filter].
  destruct (g x); cbn [andb List.filter]; [destruct (f x) | ]; rewrite IH; reflexivity.
Qed.

Lemma filter_all {A : Type} (f : A -> bool) (l : list A) :
  (forall x, x ∈ l -> f x = true) -> List.filter f l = l.
Proof.
  induction l as [ | x l IH]; intros Hall; [reflexivity | ]. cbn [List.filter].
  rewrite Hall by left. f_equal. apply IH. intros y Hy. apply Hall. right. exact Hy.
Qed.

Lemma remove_token_absent (cl : list string) (t : string) :
  t ∉ cl -> remove_token cl t = cl.
Proof.
  intros Ht. apply filter_all. intros x Hx.
  apply negb_true_iff, String.eqb_neq. intros ->. contradiction.
Qed.

Lemma remove_token_app (a b : list string) (t : string) :
  remove_token (a ++ b) t = remove_token a t ++ remove_token b t.
Proof. apply List.filter_app. Qed.

Lemma remove_token_self (t : string) : remove_token [t] t = [].
Proof. unfold remove_token. cbn. rewrite String.eqb_refl. reflexivity. Qed.

Lemma not_elem_of_remove_token (cl : list string) (t : string) :
  t ∉ remove_token cl t.
Proof. rewrite elem_of_remove_token. tauto. Qed.

Lemma add_token_fresh (cl : list string) (t : string) :
  t ∉ cl -> add_token cl t = cl ++ [t].
Proof. intros Ht. unfold add_token. rewrite bool_decide_eq_false_2 by assumption. reflexivity. Qed.

Lemma add_token_present (cl : list string) (t : string) :
  t ∈ cl -> add_token cl t = cl.
Proof. intros Ht. unfold add_token. rewrite bool_decide_eq_true_2 by assumption. reflexivity. Qed.

Lemma without_type_classes_cons (k : string) (ks cl : list string) :
  without_type_classes ks (remove_token cl ("cdx-warning-" +:+ k)) =
  without_type_classes (k :: ks) cl.
Proof.
  unfold without_type_classes, remove_token. rewrite filter_filter_and.
  apply List.filter_ext. intros x. reflexivity.
Qed.

Lemma elem_of_without_type_classes (ks cl : list string) (x : string) :
  x ∈ without_type_classes ks cl <->
  x ∈ cl /\ forall k, k ∈ ks -> x <> "cdx-warning-" +:+ k.
Proof.
  unfold without_type_classes.
  rewrite list_elem_of_In, filter_In, <- list_elem_of_In, forallb_forall.
  split; intros [Hx Hall]; (split; [exact Hx | ]).
  - intros k Hk. apply String.eqb_neq, negb_true_iff, Hall, list_elem_of_In, Hk.
  - intros k Hk. apply negb_true_iff, String.eqb_neq, Hall, list_elem_of_In, Hk.
Qed.

Lemma without_type_classes_idem (ks cl : list string) :
  without_type_classes ks (without_type_classes ks cl) = without_type_classes ks cl.
Proof.
  apply filter_all. intros x Hx. apply elem_of_without_type_classes in Hx as [_ Hall].
  apply forallb_forall. intros k Hk.
  apply negb_true_iff, String.eqb_neq, Hall, list_elem_of_In, Hk.
Qed.

Lemma without_type_classes_other (ks : list string) (n : string) :
  n ∉ ks ->
  without_type_classes ks ["cdx-warning-" +:+ n] = ["cdx-warning-" +:+ n].
Proof.
  intros Hn. apply filter_all. intros x Hx. apply list_elem_of_singleton in Hx as ->.
  apply forallb_forall. intros k Hk. apply negb_true_iff, String.eqb_neq.
  intros E. apply wrapperForType_inj in E. subst k.
  apply Hn, list_elem_of_In, Hk.
Qed.

Lemma without_type_classes_own (ks : list string) (n : string) :
  n ∈ ks -> without_type_classes ks ["cdx-warning-" +:+ n] = [].
Proof.
  intros Hn. unfold without_type_classes. cbn [List.filter].
  destruct (forallb _ ks) eqn:E; [ | reflexivity].
  rewrite forallb_forall in E. specialize (E n (proj1 (list_elem_of_In _ _) Hn)).
  rewrite String.eqb_refl in E. discriminate.
Qed.

Lemma without_type_classes_app (ks a b : list string) :
  without_type_classes ks (a ++ b) =
  without_type_classes ks a ++ without_type_classes ks b.
Proof. apply List.filter_app. Qed.

(** The loop of [_changeAlertType] on the class list of the container,
    for a type that is no key: the classes of all keys go. *)
Lemma retyped_unrecognized (n : string) (ks : list string) :
  n ∉ ks ->
  forall cl, foldl (retype_class n) cl ks = without_type_classes ks cl.
Proof.
  induction ks as [ | k ks IH]; intros Hn cl; cbn [foldl].
  - symmetry. apply filter_all. reflexivity.
  - apply not_elem_of_cons in Hn as [Hne Hn].
    rewrite IH by assumption. unfold retype_class.
    rewrite bool_decide_eq_false_2 by assumption.
    apply without_type_classes_cons.
Qed.

(** For a type that is a key: the classes of all keys go, and the class
    of the type is put at the end. *)
Lemma retyped_recognized (n : string) (ks : list string) :
  NoDup ks -> n ∈ ks ->
  forall cl,
    foldl (retype_class n) cl ks =
    without_type_classes ks cl ++ ["cdx-warning-" +:+ n].
Proof.
  induction ks as [ | k ks IH]; intros Hnd Hin cl; [inversion Hin | ].
  apply NoDup_cons in Hnd as [Hk Hnd]. cbn [foldl].
  destruct (decide (n = k)) as [E | Hne].
  - subst k. rewrite retyped_unrecognized by assumption.
    unfold retype_class. rewrite bool_decide_eq_true_2 by reflexivity.
    rewrite add_token_fresh by apply not_elem_of_remove_token.
    rewrite without_type_classes_app, without_type_classes_cons.
    rewrite without_type_classes_other by assumption. reflexivity.
  - apply elem_of_cons in Hin as [E | Hin]; [contradiction | ].
    rewrite IH by assumption. unfold retype_class.
    rewrite bool_decide_eq_false_2 by assumption.
    rewrite without_type_classes_cons. reflexivity.
Qed.

Lemma retyped_twice (n : string) (ks cl : list string) :
  NoDup ks -> n ∈ ks ->
  foldl (retype_class n) (foldl (retype_class n) cl ks) ks =
  foldl (retype_class n) cl ks.
Proof.
  intros Hnd Hin. rewrite !retyped_recognized by assumption.
  rewrite without_type_classes_app, without_type_classes_idem.
  rewrite without_type_classes_own by assumption. rewrite app_nil_r. reflexivity.
Qed.

Lemma click_classes_twice (sb ac : string) (clicked : bool) (cl : list string) :
  click_classes sb ac clicked (click_classes sb ac clicked cl) =
  click_classes sb ac clicked cl.
Proof.
  unfold click_classes. destruct clicked.
  - destruct (bool_decide (sb ∈ cl)) eqn:Esb.
    + rewrite (add_token_fresh (remove_token cl ac) ac)
        by apply not_elem_of_remove_token.
      destruct (bool_decide (sb ∈ remove_token cl ac ++ [ac])).
      * rewrite remove_token_app, remove_token_self, app_nil_r.
        rewrite (remove_token_absent (remove_token cl ac))
          by apply not_elem_of_remove_token.
        apply add_token_fresh, not_elem_of_remove_token.
      * apply add_token_present. rewrite elem_of_app, list_elem_of_singleton. auto.
    + destruct (decide (ac ∈ cl)) as [Hac | Hac].
      * rewrite (add_token_present cl ac) by assumption. rewrite Esb.
        apply add_token_present. exact Hac.
      * rewrite (add_token_fresh cl ac) by assumption.
        destruct (bool_decide (sb ∈ cl ++ [ac])).
        -- rewrite remove_token_app, remove_token_self, app_nil_r.
           rewrite remove_token_absent by assumption.
           apply add_token_fresh. exact Hac.
        -- apply add_token_present. rewrite elem_of_app, list_elem_of_singleton. auto.
  - destruct (bool_decide (sb ∈ cl)) eqn:Esb.
    + destruct (bool_decide (sb ∈ remove_token cl ac)); [ | reflexivity].
      apply remove_token_absent, not_elem_of_remove_token.
    + rewrite Esb. reflexivity.
Qed.

Lemma with_classes_id (e : element) : with_classes (classList (attrs e)) e = e.
Proof. destruct e as [[] ? ?]. reflexivity. Qed.

Lemma after_click_classes (sb ac : string) (rB r : ref) (e : element) :
  after_click sb ac rB r e =
  with_classes (click_classes sb ac (bool_decide (r = rB)) (classList (attrs e))) e.
Proof.
  unfold after_click, unhighlighted, click_classes, has_class.
  destruct (bool_decide (r = rB)), (bool_decide (sb ∈ classList (attrs e)));
    try reflexivity.
  symmetry. apply with_classes_id.
Qed.

Lemma after_click_twice (sb ac : string) (rB r : ref) (e : element) :
  after_click sb ac rB r (after_click sb ac rB r e) = after_click sb ac rB r e.
Proof.
  rewrite !after_click_classes.
  change (classList (attrs (with_classes ?l ?x))) with l.
  rewrite click_classes_twice. reflexivity.
Qed.

Lemma painted_twice `{Browser} (v : value) (e : element) :
  painted v (painted v e) = painted v e.
Proof.
  unfold painted. destruct (String.eqb _ ""); [reflexivity | ].
  destruct (parseColor _); reflexivity.
Qed.

End TypeClasses.

(** ** A click, element by element *)

Section ClickPointwise.
Context `{Browser}.
Variable this : TypedWarning.t.
Variable st : store.
Variable ps : list (string * value).
Variables c b sc title : ref.
Variable ctrls : list (string * ref).

Let sb := Host.settingsButton (Host.styles (TypedWarning.api this)).
Let ac := Host.settingsButtonActive (Host.styles (TypedWarning.api this)).

Hypothesis Hready : settings_ready this st ps c b sc title ctrls.
Hypothesis Hac : valid_token ac.
Hypothesis Hident : css_ident sb = true.
Hypothesis Hnodup : NoDup ps.*1.
Hypothesis Hkeys : Forall (fun k => has_whitespace k = false) ps.*1.

(** The document after a click on the control of [newType], given for
    every reference: the container, the background, the elements of the
    strip, and all the others, which are left as they were. *)
Lemma click_pointwise (newType : string) (rB : ref) :
  (newType, rB) ∈ ctrls ->
  exists st' ec eb,
    TypedWarning.click this rB st = Ok (retyped this newType, st') /\
    st !! c = Some ec /\
    st !! b = Some eb /\
    forall r,
      st' !! r =
      if bool_decide (r = c)
      then Some (with_classes
                   (foldl (retype_class newType) (classList (attrs ec)) ps.*1) ec)
      else if bool_decide (r = b)
      then Some (painted (default VUndefined (assoc newType ps)) eb)
      else if bool_decide (r ∈ title :: ctrls.*2)
      then after_click sb ac rB r <$> st !! r
      else st !! r.
Proof.
  intros Hsel.
  pose proof Hready as
    (Hps & Hc & Hb & _ & _ & Hk & Hnd & (esc & Hsc & Hkids) & (et & Het & Hlt & _)
     & Hctrl & HJ).
  assert (Hin : newType ∈ ps.*1).
  { rewrite <- Hk. apply list_elem_of_fmap. exists (newType, rB). split; auto. }
  destruct (changeAlertType_spec this st ps c b sc title ctrls Hready Hnodup Hkeys
              newType Hin) as (ec & eb & Hec & Heb & Hchange).
  destruct (Hctrl newType rB Hsel) as (eB & HeB & HlB & HlistB).
  assert (HrB : rB ∈ title :: ctrls.*2).
  { right. apply list_elem_of_fmap. exists (newType, rB). split; auto. }
  apply NoDup_cons in Hnd as [Hc_fresh Hnd].
  apply NoDup_cons in Hnd as [Hb_fresh Hnd].
  apply NoDup_cons in Hnd as [Hsc_fresh Hnd].
  assert (Hcb : c <> b) by (intros ->; apply Hc_fresh; left).
  assert (Hstrip : forall r, r ∈ sc :: title :: ctrls.*2 -> r <> c /\ r <> b).
  { intros r Hr. split; intros ->; [apply Hc_fresh | apply Hb_fresh; trivial];
      right; exact Hr. }
  assert (Hsub : forall r, r ∈ title :: ctrls.*2 -> r <> c /\ r <> b /\ r <> sc).
  { intros r Hr. destruct (Hstrip r) as [? ?]; [right; exact Hr | ].
    repeat split; try assumption. intros ->. contradiction. }
  set (st1 := <[b := painted (default VUndefined (assoc newType ps)) eb]>
                (<[c := with_classes
                          (foldl (retype_class newType) (classList (attrs ec)) ps.*1)
                          ec]> st)) in *.
  assert (Hst1 : forall r, r <> c -> r <> b -> st1 !! r = st !! r).
  { intros r Hrc Hrb. unfold st1. rewrite !list_lookup_insert_ne by auto. reflexivity. }
  assert (Hst1c : st1 !! c =
                  Some (with_classes
                          (foldl (retype_class newType) (classList (attrs ec)) ps.*1) ec)).
  { unfold st1. rewrite list_lookup_insert_ne by auto.
    eapply lookup_insert_same; eassumption. }
  assert (Hst1b : st1 !! b = Some (painted (default VUndefined (assoc newType ps)) eb)).
  { unfold st1. apply list_lookup_insert_eq. rewrite length_insert.
    eapply lookup_lt_Some; eassumption. }
  assert (Hall : forall r, r ∈ title :: ctrls.*2 ->
                   exists e, st !! r = Some e /\ is_leaf e = true).
  { intros r Hr. apply elem_of_cons in Hr as [-> | Hr]; [eauto | ].
    apply list_elem_of_fmap in Hr as ([k r'] & -> & Hkr).
    destruct (Hctrl k r' Hkr) as (e & He & Hl & _). eauto. }
  assert (Hdesc : descendants (List.length st1) st1 sc = title :: ctrls.*2).
  { destruct (Hstrip sc) as [? ?]; [left | ].
    eapply descendants_strip.
    - rewrite Hst1 by assumption. exact Hsc.
    - exact Hkids.
    - destruct (Hsub title) as (? & ? & _); [left | ].
      exists et. rewrite Hst1 by assumption. auto.
    - intros r Hr. destruct (Hsub r) as (? & ? & _); [right; exact Hr | ].
      rewrite Hst1 by assumption. apply Hall. right. exact Hr. }
  set (buttons := List.filter (carries st1 sb) (title :: ctrls.*2)).
  assert (Hquery : querySelectorAll ("." +:+ sb) sc st1 = Ok buttons).
  { unfold querySelectorAll. rewrite class_selector_literal by assumption.
    bind_step. unfold element_at.
    destruct (Hstrip sc) as [? ?]; [left | ].
    rewrite Hst1, Hsc by assumption. bind_step. rewrite Hdesc. reflexivity. }
  assert (Hbuttons : forall r, r ∈ buttons <->
                               carries st1 sb r = true /\ r ∈ title :: ctrls.*2).
  { intros r. unfold buttons. rewrite !list_elem_of_In, filter_In, <- !list_elem_of_In.
    tauto. }
  destruct (unhighlight ac buttons st1) as (st2 & Hrun2 & Hst2).
  { exact Hac. }
  { unfold buttons. apply NoDup_ListNoDup, List.NoDup_filter, NoDup_ListNoDup. exact Hnd. }
  { intros r Hr. apply Hbuttons in Hr as [_ Hr].
    destruct (Hsub r Hr) as (? & ? & _). rewrite Hst1 by assumption.
    destruct (Hall r Hr) as (e & -> & _). eauto. }
  assert (Hst2s : forall r e, r ∈ title :: ctrls.*2 -> st !! r = Some e ->
                    st2 !! r = Some (unhighlighted sb ac e)).
  { intros r e Hr He. destruct (Hsub r Hr) as (? & ? & _).
    rewrite Hst2, Hst1, He by assumption. unfold unhighlighted.
    assert (Hcar : carries st1 sb r = has_class sb (attrs e)).
    { unfold carries. rewrite Hst1, He by assumption. reflexivity. }
    destruct (has_class sb (attrs e)) eqn:E.
    - rewrite bool_decide_eq_true_2; [reflexivity | ]. apply Hbuttons. auto.
    - rewrite bool_decide_eq_false_2; [reflexivity | ].
      rewrite Hbuttons. intros [Hcar' _]. congruence. }
  assert (Hst2o : forall r, r ∉ title :: ctrls.*2 -> st2 !! r = st1 !! r).
  { intros r Hr. rewrite Hst2. rewrite bool_decide_eq_false_2; [reflexivity | ].
    rewrite Hbuttons. tauto. }
  pose proof (Hst2s rB eB HrB HeB) as He2.
  exists (<[rB := with_classes (add_token (classList (attrs (unhighlighted sb ac eB))) ac)
                   (unhighlighted sb ac eB)]> st2), ec, eb.
  assert (HrBc : rB <> c /\ rB <> b /\ rB <> sc) by (apply Hsub; exact HrB).
  destruct HrBc as (HrBc & HrBb & HrBsc).
  assert (Hnotin : forall r, r = c \/ r = b -> r ∉ title :: ctrls.*2).
  { intros r Hr Hin'. destruct (Hsub r Hin') as (? & ? & ?).
    destruct Hr as [-> | ->]; contradiction. }
  split; [ | split; [exact Hec | split; [exact Heb | ]]].
  - unfold TypedWarning.click, element_at. rewrite HeB. bind_step. rewrite HlistB.
    cbn [forEach]. unfold TypedWarning.on_click.
    cbn [captured_type captured_settingsContainer captured_settingsButton
         TypedWarning.CSS TypedWarning.WarningCSS.settingsButton
         TypedWarning.WarningCSS.settingsButtonActive].
    fold sb ac. rewrite Hchange. bind_step.
    cbn [retyped TypedWarning.set_data TypedWarning.api]. fold sb ac.
    rewrite Hquery. bind_step. rewrite Hrun2. bind_step.
    rewrite (classList_add_lookup _ _ _ _ Hac He2). reflexivity.
  - intros r. case_bool_decide as Erc.
    { subst r. rewrite list_lookup_insert_ne by auto.
      rewrite Hst2o by (apply Hnotin; auto). exact Hst1c. }
    case_bool_decide as Erb.
    { subst r. rewrite list_lookup_insert_ne by auto.
      rewrite Hst2o by (apply Hnotin; auto). exact Hst1b. }
    case_bool_decide as Erin.
    + destruct (Hall r Erin) as (e & He & _). rewrite He. cbn [fmap option_fmap option_map].
      unfold after_click. case_bool_decide as E.
      * subst r. rewrite HeB in He. injection He as <-.
        eapply lookup_insert_same. exact He2.
      * rewrite list_lookup_insert_ne by auto. apply Hst2s; assumption.
    + assert (r <> rB) by (intros ->; contradiction).
      rewrite list_lookup_insert_ne by auto.
      rewrite Hst2o by assumption. apply Hst1; assumption.
Qed.

End ClickPointwise.

(** ** The type switch and [save] *)

Section SaveBlock.
Context `{Browser}.

(** The typed [save] on a container that holds a background and then a
    message region. *)
Lemma TypedWarning_save_block (this : TypedWarning.t) (st : store) (c b m : ref)
    (ec eb : element) (ce : bool) (content placeholder : value) :
  st !! c = Some ec ->
  childNodes ec = [Appended b; Appended m] ->
  st !! b = Some eb ->
  classList (attrs eb) = ["bg"] ->
  childNodes eb = [] ->
  st !! m = Some (region_element ["cdx-warning__message"] ce content placeholder) ->
  TypedWarning.save this c st =
  Ok ({| TypedWarning.WarningData.type :=
           TypedWarning.WarningData.type (TypedWarning.data this);
         TypedWarning.WarningData.message :=
           VString (serializeHTML (parseHTML (to_string_null_empty content))) |},
      this).
Proof.
  intros Hc Hkids Hb Hbc Hbk Hm.
  rewrite (TypedWarning_save_reads this c st
             (Some (Element (attrs (region_element ["cdx-warning__message"] ce
                                      content placeholder))
                      (parseHTML (to_string_null_empty content))))).
  - reflexivity.
  - erewrite querySelector_two; [ | reflexivity | eassumption..].
    cbn [find_class_in]. rewrite !find_class_element.
    unfold has_class at 1. rewrite Hbc.
    rewrite (bool_decide_eq_false_2 ("cdx-warning__message" ∈ ["bg"])).
    2:{ rewrite list_elem_of_singleton. discriminate. }
    rewrite (subtree_empty _ _ _ Hbk). cbn [find_class_in].
    rewrite has_class_region, subtree_region.
    rewrite bool_decide_eq_true_2 by (rewrite list_elem_of_singleton; reflexivity).
    reflexivity.
Qed.

End SaveBlock.

(** X19. The type chosen in the settings is the type saved. A typed
    block rendered, its settings rendered, and the control of a recognized
    type [B] clicked: [save] on the container then returns the type [B]
    together with the content of the message region, and leaves the
    adapter as the click left it. *)
Theorem selected_type_is_saved `{Browser}
    (this : TypedWarning.t) (st : store) (ps : list (string * value)) (B : string) :
  let styles := Host.styles (TypedWarning.api this) in
  TypedWarning.Config.typeColor (TypedWarning.config this) = VObject ps ->
  NoDup ps.*1 ->
  Forall (fun k => has_whitespace k = false) ps.*1 ->
  has_whitespace
    (to_string (TypedWarning.WarningData.type (TypedWarning.data this))) = false ->
  valid_token (Host.settingsButton styles) ->
  css_ident (Host.settingsButton styles) = true ->
  valid_token (Host.settingsButtonActive styles) ->
  B ∈ ps.*1 ->
  exists container this1 st1 settings st2 control thisB stB,
    TypedWarning.render this st = Ok (container, this1, st1) /\
    TypedWarning.renderSettings this1 st1 = Ok (settings, st2) /\
    control_of st2 settings B = Some control /\
    TypedWarning.click this1 control st2 = Ok (thisB, stB) /\
    TypedWarning.save thisB container stB =
      Ok ({| TypedWarning.WarningData.type := VString B;
             TypedWarning.WarningData.message :=
               VString (serializeHTML
                          (parseHTML
                             (to_string_null_empty
                                (TypedWarning.WarningData.message
                                   (TypedWarning.data this))))) |},
          thisB).
Proof.
  intros styles Hps Hnd Hkeys Htype Hsb Hident Hac HB.
  destruct (ready_after_renderSettings this st ps Hps Hkeys Htype Hsb Hac)
    as (this1 & st1 & st2 & ec0 & Hrender & Hsettings & Hthis1 & Hready & _).
  destruct (get_total (VObject ps)
              (to_string (TypedWarning.WarningData.type (TypedWarning.data this)))
              eq_refl) as [colorCode Hcolor].
  pose proof (TypedWarning_render_spec st this colorCode) as Hspec.
  cbv zeta in Hspec. rewrite Hps in Hspec. specialize (Hspec Htype Hcolor).
  rewrite Hspec in Hrender. injection Hrender as <- <-.
  match type of Hsettings with
  | TypedWarning.renderSettings ?t (st ++ ?n) = _ => set (this1 := t) in *; set (new1 := n) in *
  end.
  destruct (strip_after_renderSettings this1 (st ++ new1) ps Hps Hnd Hkeys Hsb Hac)
    as (new2 & Hsettings' & _).
  rewrite Hsettings' in Hsettings. injection Hsettings as Hlen <-.
  rewrite Hlen in Hsettings'.
  set (L := List.length st) in *.
  set (st2 := (st ++ new1) ++ new2) in *.
  assert (Hold : forall i, i < 3 -> st2 !! (L + i) = new1 !! i).
  { intros i Hi. unfold st2. rewrite lookup_app_l.
    - unfold L. apply lookup_ext.
    - rewrite length_app. unfold new1. cbn [List.length]. lia. }
  destruct (control_exists this1 st2 ps _ _ _ _ _ Hready B HB) as [r Hkr].
  pose proof (control_of_ready this1 st2 ps _ _ _ _ _ Hready B r Hnd Hkr) as Hcontrol.
  destruct (click_pointwise this1 st2 ps _ _ _ _ _ Hready Hac Hident Hnd Hkeys B r Hkr)
    as (stB & ec & eb & Hclick & Hec & Heb & Hpt).
  rewrite (Hold 2) in Hec by lia. rewrite (Hold 1) in Heb by lia.
  injection Hec as <-. injection Heb as <-.
  exists (L + 2), this1, (st ++ new1), (L + 3), st2, r, (retyped this1 B), stB.
  split; [exact Hspec | split; [exact Hsettings' | split; [exact Hcontrol | ]]].
  split; [exact Hclick | ].
  apply elem_of_settings_controls in Hkr as (i & _ & Hr).
  destruct (background_facts
              (truthy (TypedWarning.WarningData.type (TypedWarning.data this)))
              colorCode) as (Hbc & Hbk & _).
  destruct (painted_structure (default VUndefined (assoc B ps))
              ((if truthy (TypedWarning.WarningData.type (TypedWarning.data this))
                then painted colorCode else id)
                 (with_tokens ["bg"] (new_element "div")))) as (Hpk & _ & Hpc).
  eapply (TypedWarning_save_block (retyped this1 B) stB (L + 2) (L + 1) (L + 0)).
  - rewrite Hpt. rewrite bool_decide_eq_true_2 by reflexivity. reflexivity.
  - reflexivity.
  - rewrite Hpt. rewrite bool_decide_eq_false_2 by lia.
    rewrite bool_decide_eq_true_2 by reflexivity. reflexivity.
  - rewrite Hpc. exact Hbc.
  - rewrite Hpk. exact Hbk.
  - rewrite Hpt. rewrite !bool_decide_eq_false_2; try lia.
    + rewrite (Hold 0) by lia. reflexivity.
    + rewrite settings_controls_snd, elem_of_cons, list_elem_of_fmap.
      intros [? | (j & ? & _)]; lia.
Qed.

Lemma selected_type_is_saved_witness :
  exists container this1 st1 settings st2 control thisB stB,
    TypedWarning.render (H := plain_browser) two_types_adapter [] =
      Ok (container, this1, st1) /\
    TypedWarning.renderSettings (H := plain_browser) this1 st1 = Ok (settings, st2) /\
    control_of st2 settings "danger" = Some control /\
    TypedWarning.click (H := plain_browser) this1 control st2 = Ok (thisB, stB) /\
    TypedWarning.save (H := plain_browser) thisB container stB =
      Ok ({| TypedWarning.WarningData.type := VString "danger";
             TypedWarning.WarningData.message := VString "" |}, thisB).
Proof.
  apply (selected_type_is_saved (H := plain_browser) two_types_adapter [] two_types
           "danger"); try reflexivity.
  - cbn. apply NoDup_cons.
    split; [rewrite list_elem_of_singleton; discriminate | apply NoDup_singleton].
  - repeat constructor.
  - cbn. rewrite !elem_of_cons. auto.
Defined.

(** ** Selecting the selected type again *)

Section ClickTwice.
Context `{Browser}.
Variable this : TypedWarning.t.
Variable st : store.
Variable ps : list (string * value).
Variables c b sc title : ref.
Variable ctrls : list (string * ref).

Let sb := Host.settingsButton (Host.styles (TypedWarning.api this)).
Let ac := Host.settingsButtonActive (Host.styles (TypedWarning.api this)).

Hypothesis Hready : settings_ready this st ps c b sc title ctrls.
Hypothesis Hac : valid_token ac.
Hypothesis Hident : css_ident sb = true.
Hypothesis Hnodup : NoDup ps.*1.
Hypothesis Hkeys : Forall (fun k => has_whitespace k = false) ps.*1.

Lemma click_twice (newType : string) (rB : ref) :
  (newType, rB) ∈ ctrls ->
  exists st',
    TypedWarning.click this rB st = Ok (retyped this newType, st') /\
    settings_ready (retyped this newType) st' ps c b sc title ctrls /\
    TypedWarning.click (retyped this newType) rB st' = Ok (retyped this newType, st').
Proof.
  intros Hsel.
  destruct (click_ready this st ps c b sc title ctrls Hready Hac Hident Hnodup Hkeys
              newType rB Hsel) as (st0 & _ & _ & _ & _ & Hclick0 & Hready' & _).
  destruct (click_pointwise this st ps c b sc title ctrls Hready Hac Hident Hnodup
              Hkeys newType rB Hsel) as (st' & ec & eb & Hclick & Hec & Heb & Hpt).
  rewrite Hclick in Hclick0. injection Hclick0 as <-.
  destruct (click_pointwise (retyped this newType) st' ps c b sc title ctrls Hready'
              Hac Hident Hnodup Hkeys newType rB Hsel)
    as (st'' & ec' & eb' & Hclick2 & Hec' & Heb' & Hpt2).
  exists st'. split; [exact Hclick | split; [exact Hready' | ]].
  assert (Hin : newType ∈ ps.*1).
  { destruct Hready as (_ & _ & _ & _ & _ & Hk & _). rewrite <- Hk.
    apply list_elem_of_fmap. exists (newType, rB). split; auto. }
  assert (Hsame : st'' = st').
  { apply list_eq. intros r. rewrite Hpt2.
    cbn [retyped TypedWarning.set_data TypedWarning.api]. fold sb ac.
    pose proof (Hpt r) as Hr.
    case_bool_decide as Erc.
    { subst r. rewrite Hr in Hec'. injection Hec' as <-. rewrite Hr.
      change (classList (attrs (with_classes ?l ?x))) with l.
      rewrite retyped_twice by assumption. reflexivity. }
    case_bool_decide as Erb.
    { rewrite (Hpt b) in Heb'.
      destruct (decide (b = c)) as [E | E]; [congruence | ].
      rewrite bool_decide_eq_false_2 in Heb' by assumption.
      rewrite bool_decide_eq_true_2 in Heb' by reflexivity.
      injection Heb' as <-. rewrite Hr, painted_twice. reflexivity. }
    case_bool_decide as Erin; [ | reflexivity].
    rewrite Hr. destruct (st !! r) as [e | ]; [ | reflexivity].
    cbn [fmap option_fmap option_map]. rewrite after_click_twice. reflexivity. }
  rewrite Hsame in Hclick2. exact Hclick2.
Qed.

End ClickTwice.

(** X20. Selecting the selected type again changes nothing. A typed block
    rendered, its settings rendered, and any recognized types selected one
    after the other: after a click on the control of a recognized type, a
    second click on the same control returns the same adapter and the
    same document. *)
Theorem reselecting_the_selected_type_changes_nothing `{Browser}
    (this : TypedWarning.t) (st : store) (ps : list (string * value))
    (selections : list string) (B : string) :
  let styles := Host.styles (TypedWarning.api this) in
  TypedWarning.Config.typeColor (TypedWarning.config this) = VObject ps ->
  NoDup ps.*1 ->
  Forall (fun k => has_whitespace k = false) ps.*1 ->
  has_whitespace
    (to_string (TypedWarning.WarningData.type (TypedWarning.data this))) = false ->
  valid_token (Host.settingsButton styles) ->
  css_ident (Host.settingsButton styles) = true ->
  valid_token (Host.settingsButtonActive styles) ->
  Forall (fun k => k ∈ ps.*1) selections ->
  B ∈ ps.*1 ->
  exists container this1 st1 settings st2 thisA stA control thisB stB,
    TypedWarning.render this st = Ok (container, this1, st1) /\
    TypedWarning.renderSettings this1 st1 = Ok (settings, st2) /\
    forEach (select settings) selections (this1, st2) = Ok (thisA, stA) /\
    control_of stA settings B = Some control /\
    TypedWarning.click thisA control stA = Ok (thisB, stB) /\
    TypedWarning.WarningData.type (TypedWarning.data thisB) = VString B /\
    control_of stB settings B = Some control /\
    TypedWarning.click thisB control stB = Ok (thisB, stB).
Proof.
  intros styles Hps Hnd Hkeys Htype Hsb Hident Hac Hsel HB.
  destruct (ready_after_renderSettings this st ps Hps Hkeys Htype Hsb Hac)
    as (this1 & st1 & st2 & ec0 & Hrender & Hsettings & Hthis1 & Hready & _).
  assert (Hapi1 : TypedWarning.api this1 = TypedWarning.api this)
    by (rewrite Hthis1; reflexivity).
  edestruct (select_all_ready (TypedWarning.api this) ps)
    with (selections := selections) (this := this1) (st := st2)
    as (thisA & stA & Hrun & HapiA & HreadyA); try eassumption.
  destruct (control_exists thisA stA ps _ _ _ _ _ HreadyA B HB) as [r Hkr].
  pose proof (control_of_ready thisA stA ps _ _ _ _ _ HreadyA B r Hnd Hkr) as Hcontrol.
  destruct (click_twice thisA stA ps _ _ _ _ _ HreadyA) with (newType := B) (rB := r)
    as (stB & Hclick & HreadyB & Hclick2);
    try (rewrite HapiA; assumption); try assumption.
  pose proof (control_of_ready _ stB ps _ _ _ _ _ HreadyB B r Hnd Hkr) as Hcontrol'.
  do 10 eexists.
  split; [exact Hrender | split; [exact Hsettings | split; [exact Hrun | ]]].
  split; [exact Hcontrol | split; [exact Hclick | split; [reflexivity | ]]].
  split; [exact Hcontrol' | exact Hclick2].
Qed.

Lemma reselecting_the_selected_type_changes_nothing_witness :
  exists container this1 st1 settings st2 thisA stA control thisB stB,
    TypedWarning.render (H := plain_browser) two_types_adapter [] =
      Ok (container, this1, st1) /\
    TypedWarning.renderSettings (H := plain_browser) this1 st1 = Ok (settings, st2) /\
    forEach (select (H := plain_browser) settings) ["danger"; "info"] (this1, st2) =
      Ok (thisA, stA) /\
    control_of stA settings "danger" = Some control /\
    TypedWarning.click (H := plain_browser) thisA control stA = Ok (thisB, stB) /\
    TypedWarning.WarningData.type (TypedWarning.data thisB) = VString "danger" /\
    control_of stB settings "danger" = Some control /\
    TypedWarning.click (H := plain_browser) thisB control stB = Ok (thisB, stB).
Proof.
  assert (Hinfo : "info" ∈ two_types.*1) by (cbn; rewrite !elem_of_cons; auto).
  assert (Hdanger : "danger" ∈ two_types.*1) by (cbn; rewrite !elem_of_cons; auto).
  apply (reselecting_the_selected_type_changes_nothing (H := plain_browser)
           two_types_adapter [] two_types ["danger"; "info"] "danger");
    try reflexivity; try assumption.
  - cbn. apply NoDup_cons.
    split; [rewrite list_elem_of_singleton; discriminate | apply NoDup_singleton].
  - repeat constructor.
  - repeat constructor; assumption.
Defined.

(** ** [_changeAlertType] on its own *)

(** X21. What [_changeAlertType] does for any type name, recognized or
    not, on a rendered block whose [typeColor] keys hold no whitespace.
    It stores the name as the type of the block and keeps the message; it
    takes the class of every recognized type off the container and, when
    the name is recognized, puts the class of the name at the end and
    assigns its colour to the background; for a name that is not
    recognized no class is added and the background is left alone. The
    children of the container and every other element stay as they
    were. *)
Theorem changeAlertType_for_any_type `{Browser}
    (this : TypedWarning.t) (st : store) (ps : list (string * value))
    (c b : ref) (ec eb : element) (newType : string) :
  TypedWarning.Config.typeColor (TypedWarning.config this) = VObject ps ->
  NoDup ps.*1 ->
  Forall (fun k => has_whitespace k = false) ps.*1 ->
  TypedWarning.container this = Some c ->
  TypedWarning.background this = Some b ->
  c <> b ->
  st !! c = Some ec ->
  st !! b = Some eb ->
  exists this' st' ec' eb',
    TypedWarning._changeAlertType this newType st = Ok (this', st') /\
    TypedWarning.data this' =
      {| TypedWarning.WarningData.type := VString newType;
         TypedWarning.WarningData.message :=
           TypedWarning.WarningData.message (TypedWarning.data this) |} /\
    TypedWarning.container this' = Some c /\
    TypedWarning.background this' = Some b /\
    st' !! c = Some ec' /\
    st' !! b = Some eb' /\
    classList (attrs ec') =
      without_type_classes ps.*1 (classList (attrs ec)) ++
      (if bool_decide (newType ∈ ps.*1) then ["cdx-warning-" +:+ newType] else []) /\
    childNodes ec' = childNodes ec /\
    eb' = (if bool_decide (newType ∈ ps.*1)
           then painted (default VUndefined (assoc newType ps)) eb
           else eb) /\
    (forall r, r <> c -> r <> b -> st' !! r = st !! r).
Proof.
  intros Hps Hnd Hkeys Hc Hb Hcb Hec Heb.
  unfold TypedWarning._changeAlertType.
  fold (retyped this newType).
  cbn [retyped TypedWarning.set_data TypedWarning.config]. rewrite Hps.
  cbn [keys]. bind_step.
  erewrite (changeAlertType_loop _ ps c b newType); try eassumption; try reflexivity.
  bind_step. do 4 eexists. split; [reflexivity | ].
  split; [reflexivity | split; [exact Hc | split; [exact Hb | ]]].
  split; [rewrite list_lookup_insert_ne by auto; eapply lookup_insert_same; eassumption | ].
  split; [apply list_lookup_insert_eq; rewrite length_insert;
          eapply lookup_lt_Some; eassumption | ].
  change (classList (attrs (with_classes ?l ?x))) with l.
  case_bool_decide as Hin.
  - rewrite retyped_recognized, retyped_color by assumption.
    repeat split. intros r Hrc Hrb. rewrite !list_lookup_insert_ne by auto. reflexivity.
  - rewrite retyped_unrecognized, retyped_color_absent by assumption.
    rewrite app_nil_r.
    repeat split. intros r Hrc Hrb. rewrite !list_lookup_insert_ne by auto. reflexivity.
Qed.

Lemma changeAlertType_for_any_type_witness :
  exists this container st,
    two_types_session = Some (this, container, st) /\
    exists this' st' ec' eb',
      TypedWarning._changeAlertType (H := plain_browser) this "note" st =
        Ok (this', st') /\
      TypedWarning.WarningData.type (TypedWarning.data this') = VString "note" /\
      st' !! container = Some ec' /\
      classList (attrs ec') = ["cdx-warning"] /\
      TypedWarning.background this' = Some 1 /\
      st' !! 1 = Some eb' /\
      backgroundColor (attrs eb') = "#eee".
Proof.
  do 3 eexists. split; [vm_compute; reflexivity | ].
  match goal with
  | |- exists this' st' ec' eb', TypedWarning._changeAlertType ?t "note" ?s = _ /\ _ =>
      destruct (changeAlertType_for_any_type (H := plain_browser) t s two_types 2 1
                  (container_element ["cdx-warning"; "cdx-warning-info"] [1; 0])
                  (painted (H := plain_browser) (VString "#eee")
                     (with_tokens ["bg"] (new_element "div")))
                  "note")
        as (this' & st' & ec' & eb' & Hrun & Hdata & _ & Hb' & Hec' & Heb' & Hcl & _
            & Hbg & _)
  end; try reflexivity.
  - cbn. apply NoDup_cons.
    split; [rewrite list_elem_of_singleton; discriminate | apply NoDup_singleton].
  - repeat constructor.
  - discriminate.
  - exists this', st', ec', eb'.
    split; [exact Hrun | ].
    split; [rewrite Hdata; reflexivity | ].
    split; [exact Hec' | ].
    split; [rewrite Hcl; reflexivity | ].
    split; [exact Hb' | split; [exact Heb' | ]].
    rewrite Hbg. reflexivity.
Defined.

(** ** The classes of the container after a click *)

Lemma without_type_classes_rendered (ks : list string) (t : string) :
  without_type_classes ks ["cdx-warning"; "cdx-warning-" +:+ t] =
  "cdx-warning" :: (if bool_decide (t ∈ ks) then [] else ["cdx-warning-" +:+ t]).
Proof.
  change ["cdx-warning"; "cdx-warning-" +:+ t]
    with (["cdx-warning"] ++ ["cdx-warning-" +:+ t]).
  rewrite without_type_classes_app.
  assert (Hbase : without_type_classes ks ["cdx-warning"] = ["cdx-warning"]).
  { apply filter_all. intros x Hx. apply list_elem_of_singleton in Hx as ->.
    apply forallb_forall. intros k _. apply negb_true_iff, String.eqb_neq.
    intros E. symmetry in E. exact (wrapper_is_not_base k E). }
  rewrite Hbase. cbn [app]. f_equal.
  case_bool_decide as Ht.
  - apply without_type_classes_own. exact Ht.
  - apply without_type_classes_other. exact Ht.
Qed.

(** X22. The classes of the container after the first click. A typed
    block rendered, its settings rendered, and the control of a recognized
    type [B] clicked: the class list of the container is [cdx-warning],
    then the class of the type the block was rendered with when that type
    (as a string) is no key of [typeColor], then [cdx-warning-B]. So the
    class of the initial type is replaced when it is a recognized one and
    stays beside the new class when it is not. *)
Theorem container_classes_after_a_click `{Browser}
    (this : TypedWarning.t) (st : store) (ps : list (string * value)) (B : string) :
  let styles := Host.styles (TypedWarning.api this) in
  let initial := to_string (TypedWarning.WarningData.type (TypedWarning.data this)) in
  TypedWarning.Config.typeColor (TypedWarning.config this) = VObject ps ->
  NoDup ps.*1 ->
  Forall (fun k => has_whitespace k = false) ps.*1 ->
  has_whitespace initial = false ->
  valid_token (Host.settingsButton styles) ->
  css_ident (Host.settingsButton styles) = true ->
  valid_token (Host.settingsButtonActive styles) ->
  B ∈ ps.*1 ->
  exists container this1 st1 settings st2 control thisB stB ec,
    TypedWarning.render this st = Ok (container, this1, st1) /\
    TypedWarning.renderSettings this1 st1 = Ok (settings, st2) /\
    control_of st2 settings B = Some control /\
    TypedWarning.click this1 control st2 = Ok (thisB, stB) /\
    stB !! container = Some ec /\
    classList (attrs ec) =
      "cdx-warning" ::
      (if bool_decide (initial ∈ ps.*1) then [] else ["cdx-warning-" +:+ initial]) ++
      ["cdx-warning-" +:+ B].
Proof.
  intros styles initial Hps Hnd Hkeys Htype Hsb Hident Hac HB.
  destruct (ready_after_renderSettings this st ps Hps Hkeys Htype Hsb Hac)
    as (this1 & st1 & st2 & ec0 & Hrender & Hsettings & Hthis1 & Hready & Hec0 & Hcl0).
  assert (Hapi1 : TypedWarning.api this1 = TypedWarning.api this)
    by (rewrite Hthis1; reflexivity).
  destruct (control_exists this1 st2 ps _ _ _ _ _ Hready B HB) as [r Hkr].
  pose proof (control_of_ready this1 st2 ps _ _ _ _ _ Hready B r Hnd Hkr) as Hcontrol.
  destruct (click_ready this1 st2 ps _ _ _ _ _ Hready) with (newType := B) (rB := r)
    as (stB & ec & eb & ec' & eb' & Hclick & _ & Hec & _ & Hec' & Hcl & _);
    try (rewrite Hapi1; assumption); try assumption.
  rewrite Hec0 in Hec. injection Hec as <-.
  do 9 eexists.
  split; [exact Hrender | split; [exact Hsettings | split; [exact Hcontrol | ]]].
  split; [exact Hclick | split; [exact Hec' | ]].
  rewrite Hcl, Hcl0. fold initial. rewrite container_classes.
  rewrite retyped_recognized by assumption.
  rewrite without_type_classes_rendered. reflexivity.
Qed.

Lemma container_classes_after_a_click_witness :
  (exists this container this1 st1 settings st2 control thisB stB ec,
     TypedWarning.constructor two_types_args = Ok this /\
     TypedWarning.render (H := plain_browser) this [] = Ok (container, this1, st1) /\
     TypedWarning.renderSettings (H := plain_browser) this1 st1 = Ok (settings, st2) /\
     control_of st2 settings "danger" = Some control /\
     TypedWarning.click (H := plain_browser) this1 control st2 = Ok (thisB, stB) /\
     stB !! container = Some ec /\
     classList (attrs ec) = ["cdx-warning"; "cdx-warning-danger"]) /\
  (exists this container this1 st1 settings st2 control thisB stB ec,
     TypedWarning.constructor unrecognized_default_args = Ok this /\
     TypedWarning.render (H := plain_browser) this [] = Ok (container, this1, st1) /\
     TypedWarning.renderSettings (H := plain_browser) this1 st1 = Ok (settings, st2) /\
     control_of st2 settings "info" = Some control /\
     TypedWarning.click (H := plain_browser) this1 control st2 = Ok (thisB, stB) /\
     stB !! container = Some ec /\
     classList (attrs ec) = ["cdx-warning"; "cdx-warning-note"; "cdx-warning-info"]).
Proof.
  split.
  - exists two_types_adapter.
    destruct (container_classes_after_a_click (H := plain_browser) two_types_adapter []
                two_types "danger")
      as (c & this1 & st1 & sc & st2 & r & thisB & stB & ec & H1 & H2 & H3 & H4 & H5 & H6);
      try reflexivity.
    + cbn. apply NoDup_cons.
      split; [rewrite list_elem_of_singleton; discriminate | apply NoDup_singleton].
    + repeat constructor.
    + cbn. rewrite !elem_of_cons. auto.
    + exists c, this1, st1, sc, st2, r, thisB, stB, ec.
      split; [reflexivity | ].
      repeat (split; [assumption | ]). rewrite H6. reflexivity.
  - eexists.
    match goal with
    | |- exists c this1 st1 sc st2 r thisB stB ec, ?ctor = Ok ?t /\ _ =>
        assert (Hc : ctor = Ok t) by reflexivity
    end.
    match type of Hc with
    | _ = Ok ?t =>
        destruct (container_classes_after_a_click (H := plain_browser) t []
                    [("info", VString "#eee")] "info")
          as (c & this1 & st1 & sc & st2 & r & thisB & stB & ec
              & H1 & H2 & H3 & H4 & H5 & H6); try reflexivity
    end.
    + cbn. apply NoDup_singleton.
    + repeat constructor.
    + cbn. rewrite !elem_of_cons. auto.
    + exists c, this1, st1, sc, st2, r, thisB, stB, ec.
      split; [exact Hc | ].
      repeat (split; [assumption | ]). rewrite H6. reflexivity.
Defined.

(** ** The placeholder of the typed variant *)

(** X23. The typed variant and its placeholder. The constructor keeps a
    truthy [messagePlaceholder] of the configuration and replaces a
    missing or falsy one (the empty string included) by "Message";
    [render] writes it, as a string, on the message region. *)
Theorem typed_placeholder_defaults_to_Message `{Browser}
    (args : Host.ConstructorArgs) (st : store) (typeColor mp : value) :
  nullish (Host.data args) = false ->
  get (Host.config args) "typeColor" = Ok typeColor ->
  nullish typeColor = false ->
  get (Host.config args) "messagePlaceholder" = Ok mp ->
  exists this,
    TypedWarning.constructor args = Ok this /\
    TypedWarning.messagePlaceholder this = (if truthy mp then mp else VString "Message") /\
    (has_whitespace
       (to_string (TypedWarning.WarningData.type (TypedWarning.data this))) = false ->
     exists container this' st' background message,
       TypedWarning.render this st = Ok (container, this', st') /\
       children_of st' container = [background; message] /\
       has_class "cdx-warning__message" (attrs message) = true /\
       placeholder (attrs message) =
         Some (if truthy mp then to_string mp else "Message")).
Proof.
  intros Hd Htc Hn Hmp.
  destruct (TypedWarning_constructor_ok args typeColor Hd Htc Hn)
    as (mp' & dt & ks & ty & m & Hmp' & _ & _ & _ & _ & Hc).
  rewrite Hmp in Hmp'. injection Hmp' as <-.
  match type of Hc with _ = Ok ?x => set (this := x) in * end.
  exists this. split; [exact Hc | ].
  split; [reflexivity | ].
  intros Hws.
  destruct (get_total typeColor
              (to_string (TypedWarning.WarningData.type (TypedWarning.data this))) Hn)
    as [colorCode Hcolor].
  do 5 eexists.
  split; [apply (TypedWarning_render_spec st this colorCode Hws Hcolor) | ].
  split.
  { unfold children_of.
    rewrite (lookup_ext st _ 2). cbn [lookup list_lookup].
    cbn [container_element with_childNodes childNodes fmap list_fmap omap list_omap].
    rewrite !lookup_ext. reflexivity. }
  rewrite has_class_region.
  split; [apply bool_decide_eq_true_2; rewrite list_elem_of_singleton; reflexivity | ].
  cbn [region_element with_attrs attrs with_placeholder placeholder this
       TypedWarning.messagePlaceholder]. unfold logical_or.
  destruct (truthy mp); reflexivity.
Qed.

Lemma typed_placeholder_defaults_to_Message_witness :
  exists this container this' st' background message,
    TypedWarning.constructor danger_args = Ok this /\
    TypedWarning.render (H := plain_browser) this [] = Ok (container, this', st') /\
    children_of st' container = [background; message] /\
    placeholder (attrs message) = Some "Message".
Proof.
  destruct (typed_placeholder_defaults_to_Message (H := plain_browser) danger_args []
              (VObject [("info", VString "#eee")]) VUndefined
              eq_refl eq_refl eq_refl eq_refl) as (this & Hc & _ & Hrender).
  destruct Hrender as (c & this' & st' & bg & m & Hr & Hk & _ & Hp).
  { injection Hc as <-. reflexivity. }
  exists this, c, this', st', bg, m.
  split; [exact Hc | split; [exact Hr | split; [exact Hk | exact Hp]]].
Defined.

(** ** Editing, then saving *)

(** X24. [save] returns what the regions hold when it is called, not what
    [render] put there. A TypeScript [Warning] rendered, the content of
    its title region and then of its message region replaced (as the user
    does by typing), the container saved: the data returned holds the
    serialization of the new content of each region, and it is also what
    the adapter holds afterwards. The new title must hold no element
    answering to the message selector. *)
Theorem save_returns_what_the_regions_hold_now `{Browser}
    (this : Warning.t) (st : store) (title message : string) :
  let input := Host.input (Host.styles (Warning.api this)) in
  valid_token (Host.block (Host.styles (Warning.api this))) ->
  valid_token input ->
  input <> "cdx-warning__message" ->
  find_class_in "cdx-warning__message" (parseHTML title) = None ->
  exists container st1 ec title_region message_region st2 st3 d this',
    Warning.render this st = Ok (container, st1) /\
    st1 !! container = Some ec /\
    appended ec = [title_region; message_region] /\
    set_innerHTML title_region (VString title) st1 = Ok st2 /\
    set_innerHTML message_region (VString message) st2 = Ok st3 /\
    Warning.save this container st3 = Ok (d, this') /\
    d = {| Warning.WarningData.title := VString (serializeHTML (parseHTML title));
           Warning.WarningData.message :=
             VString (serializeHTML (parseHTML message)) |} /\
    Warning.data this' = d.
Proof.
  intros input Hb Hi Hne Hfree.
  pose proof (Warning_render_spec st this Hb Hi) as Hrender.
  fold input in Hrender.
  do 9 eexists.
  split; [exact Hrender | ].
  split; [apply lookup_base | ].
  split; [reflexivity | ].
  split.
  { rewrite (set_innerHTML_app st (VString title) _ 1). reflexivity. }
  split.
  { cbn [lookup list_lookup insert list_insert].
    rewrite (set_innerHTML_app st (VString message) _ 2). reflexivity. }
  cbn [lookup list_lookup insert list_insert to_string_null_empty to_string].
  unfold Warning.save.
  cbn [Warning.CSS Warning.WarningCSS.title Warning.WarningCSS.message].
  erewrite !querySelector_pair; try reflexivity. step.
  cbn [find_class_in]. rewrite !find_class_element.
  change (attrs (with_childNodes ?f ?e)) with (attrs e).
  rewrite !has_class_region. fold input.
  rewrite !(subtree_parsed _ _ (with_childNodes _ _) _ eq_refl).
  rewrite (bool_decide_eq_true_2 ("cdx-warning__title" ∈ [input; "cdx-warning__title"]))
    by (rewrite !elem_of_cons; auto).
  rewrite (bool_decide_eq_false_2
             ("cdx-warning__message" ∈ [input; "cdx-warning__title"])).
  2:{ rewrite !elem_of_cons, elem_of_nil. intros [Heq | [[=] | []]]. congruence. }
  rewrite Hfree.
  rewrite (bool_decide_eq_true_2
             ("cdx-warning__message" ∈ [input; "cdx-warning__message"]))
    by (rewrite !elem_of_cons; auto).
  split; [reflexivity | split; reflexivity].
Qed.

Lemma save_returns_what_the_regions_hold_now_witness :
  exists this container st1 ec title_region message_region st2 st3 d this',
    Warning.constructor saved_args = Ok this /\
    Warning.render (H := plain_browser) this [] = Ok (container, st1) /\
    st1 !! container = Some ec /\
    appended ec = [title_region; message_region] /\
    set_innerHTML (H := plain_browser) title_region (VString "Beware") st1 = Ok st2 /\
    set_innerHTML (H := plain_browser) message_region (VString "") st2 = Ok st3 /\
    Warning.save (H := plain_browser) this container st3 = Ok (d, this') /\
    d = {| Warning.WarningData.title := VString "Beware";
           Warning.WarningData.message := VString "" |} /\
    Warning.data this' = d.
Proof.
  eexists. 
  destruct (save_returns_what_the_regions_hold_now (H := plain_browser)
              {| Warning.api := editor_api;
                 Warning.data :=
                   {| Warning.WarningData.title := VString "Note";
                      Warning.WarningData.message := VString "Handle with care" |};
                 Warning.readOnly := VBool false;
                 Warning.titlePlaceholder := VString "Title";
                 Warning.messagePlaceholder := VString "Message" |}
              [] "Beware" "")
    as (c & st1 & ec & t & m & st2 & st3 & d & this' & H1 & H2 & H3 & H4 & H5 & H6
        & H7 & H8); try reflexivity; [discriminate | ].
  exists c, st1, ec, t, m, st2, st3, d, this'.
  split; [reflexivity | ].
  repeat (split; [assumption | ]). exact H8.
Defined.
